(** * microservices-lab: the GraphQL gateway and the order service

    A shallow embedding of [graphql-gateway/app.py] (the resolvers and the
    entity construction they inline) and of [order-service/app.py] with
    [order-service/models.py] (order creation), followed by the properties
    of the specification that concern them.

    Python values that come out of [response.json()] are kept dynamically
    typed ([json]); resolvers run in a small monad that records every HTTP
    call, every line printed and every exception raised. *)

From Stdlib Require Import PrimFloat SpecFloat FloatOps.
From stdpp Require Import base strings gmap list.

Open Scope Z_scope.
Set Warnings "-register-all".

(** ** Python values *)

(** What [json.loads] produces: [None], [bool], [int], [float], [str],
    [list] and [dict].  A [dict] keeps insertion order; its keys are unique,
    so looking up the first binding of a key is the dictionary lookup. *)
Inductive json : Type :=
  | JNull
  | JBool (b : bool)
  | JInt (n : Z)
  | JFloat (f : float)
  | JStr (s : string)
  | JList (l : list json)
  | JDict (d : list (string * json)).

#[global] Instance json_inhabited : Inhabited json := populate JNull.

(** The exceptions the modelled code can meet. *)
Inductive exn : Type :=
  | KeyError (k : string)
  | TypeError
  | AttributeError
  | JSONDecodeError
  | OverflowError
  | TransportError.

(** A Python expression either evaluates or raises. *)
Inductive result (A : Type) : Type :=
  | Ok (a : A)
  | Raise (e : exn).
Arguments Ok {A} a.
Arguments Raise {A} e.

Module Py.

Fixpoint assoc {A} (k : string) (d : list (string * A)) : option A :=
  match d with
  | [] => None
  | (k', v) :: d' => if String.eqb k k' then Some v else assoc k d'
  end.

(** [v[k]] with a string key. *)
Definition getitem (v : json) (k : string) : result json :=
  match v with
  | JDict d =>
      match assoc k d with
      | Some x => Ok x
      | None => Raise (KeyError k)
      end
  | _ => Raise TypeError
  end.

(** [v.get(k, dflt)]; only a [dict] has the method. *)
Definition get_default (v : json) (k : string) (dflt : json) : result json :=
  match v with
  | JDict d => Ok (default dflt (assoc k d))
  | _ => Raise AttributeError
  end.

(** [v.get(k)] *)
Definition get (v : json) (k : string) : result json :=
  get_default v k JNull.

Fixpoint chars (s : string) : list json :=
  match s with
  | EmptyString => []
  | String c s' => JStr (String c EmptyString) :: chars s'
  end.

(** [for x in v]: a list yields its elements, a string its characters,
    a dict its keys; anything else is not iterable. *)
Definition iter (v : json) : result (list json) :=
  match v with
  | JList l => Ok l
  | JStr s => Ok (chars s)
  | JDict d => Ok (map (fun kv => JStr kv.1) d)
  | _ => Raise TypeError
  end.

Definition rbind {A B} (r : result A) (k : A -> result B) : result B :=
  match r with
  | Ok a => k a
  | Raise e => Raise e
  end.

(** A comprehension [[f(x) for x in l]]: stops at the first raise. *)
Fixpoint rmap {A B} (f : A -> result B) (l : list A) : result (list B) :=
  match l with
  | [] => Ok []
  | x :: l' => rbind (f x) (fun y => rbind (rmap f l') (fun ys => Ok (y :: ys)))
  end.

End Py.

Notation "x <~ r ; k" := (Py.rbind r (fun x => k))
  (at level 100, r at next level, right associativity, only parsing).

(** ** HTTP and the resolver monad *)

Inductive http_method : Type := GET | POST.

(** One call of [client.get] / [client.post]. *)
Record request : Type := mkRequest {
  req_method : http_method;
  req_url : string;
  req_params : list (string * json);
  req_json : option json;
  req_timeout : float
}.

(** [content = None]: the body is not JSON, [response.json()] raises. *)
Record response : Type := mkResponse {
  status_code : Z;
  content : option json
}.

(** What the network gives back: a response, or a transport failure
    (connection refused, timeout), which httpx raises. *)
Inductive reply : Type :=
  | Unavailable
  | Reply (r : response).

(** The surroundings of one gateway request: the backends' answers, the
    readings of [datetime.utcnow().isoformat()] in the order they are
    taken, and Python's [str()] on a value that is not a [str]. *)
Record env : Type := mkEnv {
  backend : request -> reply;
  utcnow_iso : nat -> string;
  py_repr : json -> string
}.

(** One entry of the response's [errors] list. *)
Inductive segment : Type :=
  | Key (k : string)
  | Index (i : nat).

Record error_entry : Type := mkError {
  err_path : list segment;
  err_exn : exn
}.

(** What one gateway request has done so far. *)
Record world : Type := mkWorld {
  calls : list request;
  stdout : list (string * exn);
  ticks : nat;
  errors : list error_entry
}.

Definition init : world := mkWorld [] [] 0%nat [].

Definition M (A : Type) : Type := env -> world -> result A * world.

Definition ret {A} (a : A) : M A := fun _ w => (Ok a, w).

Definition bind {A B} (m : M A) (k : A -> M B) : M B :=
  fun E w =>
    match m E w with
    | (Ok a, w') => k a E w'
    | (Raise e, w') => (Raise e, w')
    end.

Notation "x <- m ;; k" := (bind m (fun x => k))
  (at level 100, m at next level, right associativity, only parsing).
Notation "m ;;; k" := (bind m (fun _ => k))
  (at level 100, right associativity, only parsing).

Definition lift {A} (r : result A) : M A := fun _ w => (r, w).

(** [try: body / except Exception as e: handler(e)] *)
Definition try_except {A} (body : M A) (handler : exn -> M A) : M A :=
  fun E w =>
    match body E w with
    | (Ok a, w') => (Ok a, w')
    | (Raise e, w') => handler e E w'
    end.

(** [print(f"{prefix}{e}")] *)
Definition print (prefix : string) (e : exn) : M unit :=
  fun _ w =>
    (Ok tt, mkWorld (calls w) (stdout w ++ [(prefix, e)]) (ticks w) (errors w)).

(** [datetime.utcnow().isoformat()] *)
Definition utcnow : M string :=
  fun E w =>
    (Ok (utcnow_iso E (ticks w)),
     mkWorld (calls w) (stdout w) (S (ticks w)) (errors w)).

(** [await client.get(...)] / [await client.post(...)]: the call is issued
    whatever its outcome. *)
Definition send (req : request) : M response :=
  fun E w =>
    let w' := mkWorld (calls w ++ [req]) (stdout w) (ticks w) (errors w) in
    match backend E req with
    | Unavailable => (Raise TransportError, w')
    | Reply r => (Ok r, w')
    end.

(** [response.json()] *)
Definition response_json (r : response) : result json :=
  match content r with
  | Some j => Ok j
  | None => Raise JSONDecodeError
  end.

(** [f"{v}"] *)
Definition format (E : env) (v : json) : string :=
  match v with
  | JStr s => s
  | _ => py_repr E v
  end.

Definition fmt (v : json) : M string := fun E w => (Ok (format E v), w).

(** ** graphql-gateway/app.py *)

Definition SERVICE_URLS : list (string * string) :=
  [ ("auth", "http://auth-service:5000");
    ("catalog", "http://catalog-service:5000");
    ("order", "http://order-service:5000");
    ("payment", "http://payment-service:5000") ].

(** [SERVICE_URLS[k]] for the keys the resolvers use. *)
Definition service_url (k : string) : string :=
  default "" (Py.assoc k SERVICE_URLS).

(** The strawberry types are plain dataclasses: construction stores the
    values it is given and checks nothing, so every attribute holds
    whatever Python value the payload had for it. *)

Module Product.

Record t : Type := mk {
  id : json;
  name : json;
  description : json;
  price : json;
  category : json;
  stock : json;
  image_url : json;
  created_at : json;
  updated_at : json
}.

(** The expression [Product(id=data["id"], ..., updated_at=data["updated_at"])]
    of [OrderItem.product], [Query.product] and [Query.products], its
    keyword arguments evaluated in the order they are written. *)
Definition construct (data : json) : result t :=
  v_id <~ Py.getitem data "id";
  v_name <~ Py.getitem data "name";
  v_description <~ Py.get data "description";
  v_price <~ Py.getitem data "price";
  v_category <~ Py.getitem data "category";
  v_stock <~ Py.get_default data "stock" (JInt 0);
  v_image_url <~ Py.get data "image_url";
  v_created_at <~ Py.getitem data "created_at";
  v_updated_at <~ Py.getitem data "updated_at";
  Ok (mk v_id v_name v_description v_price v_category v_stock v_image_url
         v_created_at v_updated_at).

End Product.

Definition catalog_item_request (pid : string) : request :=
  mkRequest GET (service_url "catalog" ++ "/api/v1/catalog/items/" ++ pid)
            [] None 5%float.

Module OrderItem.

Record t : Type := mk {
  product_id : json;
  quantity : json;
  price : json;
  name : json
}.

(** [OrderItem(product_id=item["product_id"], ..., name=item["name"])] *)
Definition construct (item : json) : result t :=
  v_product_id <~ Py.getitem item "product_id";
  v_quantity <~ Py.getitem item "quantity";
  v_price <~ Py.getitem item "price";
  v_name <~ Py.getitem item "name";
  Ok (mk v_product_id v_quantity v_price v_name).

(** [async def product(self) -> Optional[Product]]: [Some p] is the
    [return Product(...)] inside the [try], [None] the [return None] that
    ends the function. *)
Definition product (self : t) : M (option Product.t) :=
  try_except
    (pid <- fmt (product_id self) ;;
     response <- send (catalog_item_request pid) ;;
     if status_code response =? 200 then
       data <- lift (response_json response) ;;
       p <- lift (Product.construct data) ;;
       ret (Some p)
     else ret None)
    (fun _ => ret None).

End OrderItem.

Module Order.

Record t : Type := mk {
  id : json;
  user_id : json;
  items : list OrderItem.t;
  total_amount : json;
  status : json;
  payment_status : json;
  shipping_address : json;
  payment_method : json;
  tracking_number : json;
  notes : json;
  created_at : json;
  updated_at : json
}.

(** The order items are built first, then [Order(id=order_data["id"], ...)];
    the same code in [User.orders], [Query.user_orders], [Query.order] and
    [Mutation.create_order]. *)
Definition construct (order_data : json) : result t :=
  raw_items <~ Py.getitem order_data "items";
  item_list <~ Py.iter raw_items;
  order_items <~ Py.rmap OrderItem.construct item_list;
  v_id <~ Py.getitem order_data "id";
  v_user_id <~ Py.getitem order_data "user_id";
  v_total_amount <~ Py.getitem order_data "total_amount";
  v_status <~ Py.getitem order_data "status";
  v_payment_status <~ Py.getitem order_data "payment_status";
  v_shipping_address <~ Py.getitem order_data "shipping_address";
  v_payment_method <~ Py.getitem order_data "payment_method";
  v_tracking_number <~ Py.get order_data "tracking_number";
  v_notes <~ Py.get order_data "notes";
  v_created_at <~ Py.getitem order_data "created_at";
  v_updated_at <~ Py.getitem order_data "updated_at";
  Ok (mk v_id v_user_id order_items v_total_amount v_status v_payment_status
         v_shipping_address v_payment_method v_tracking_number v_notes
         v_created_at v_updated_at).

(** [def address(self) -> str]; it has no [try] of its own. *)
Definition address (self : t) : M json :=
  let addr := shipping_address self in
  street <- lift (Py.get_default addr "street" (JStr "")) ;;
  city <- lift (Py.get_default addr "city" (JStr "")) ;;
  country <- lift (Py.get_default addr "country" (JStr "")) ;;
  s1 <- fmt street ;;
  s2 <- fmt city ;;
  s3 <- fmt country ;;
  ret (JStr (s1 ++ ", " ++ s2 ++ ", " ++ s3)).

End Order.

(** The loop [for order_data in data["orders"]: ... orders.append(Order(...))]
    of [User.orders] and [Query.user_orders]. *)
Definition construct_orders (data : json) : result (list Order.t) :=
  raw_orders <~ Py.getitem data "orders";
  order_list <~ Py.iter raw_orders;
  Py.rmap Order.construct order_list.

Definition user_orders_request (uid : string) (limit : Z) : request :=
  mkRequest GET (service_url "order" ++ "/api/v1/orders/user/" ++ uid)
            [("limit", JInt limit)] None 5%float.

Module User.

Record t : Type := mk {
  id : json;
  username : json;
  email : json;
  full_name : json;
  created_at : json;
  updated_at : json
}.

(** [async def orders(self) -> List[Order]]: the [try] block either
    returns the orders or falls through to the [return []] that ends the
    function. *)
Definition orders (self : t) : M (list Order.t) :=
  r <- try_except
         (uid <- fmt (id self) ;;
          response <- send (user_orders_request uid 100) ;;
          if status_code response =? 200 then
            data <- lift (response_json response) ;;
            orders <- lift (construct_orders data) ;;
            ret (Some orders)
          else ret None)
         (fun e => print "Error fetching orders: " e ;;; ret None) ;;
  ret (default [] r).

End User.

Definition opt_str (o : option string) : json :=
  match o with Some s => JStr s | None => JNull end.

Definition opt_float (o : option float) : json :=
  match o with Some f => JFloat f | None => JNull end.

Definition is_not_None (v : json) : bool :=
  match v with JNull => false | _ => true end.

(** The [params] of [Query.products]: the dict literal, then
    [{k: v for k, v in params.items() if v is not None}]. *)
Definition products_params (category : option string)
    (min_price max_price : option float) (search : option string)
    (limit : Z) : list (string * json) :=
  filter (fun kv => is_not_None kv.2 = true)
    [ ("page", JInt 1);
      ("page_size", JInt limit);
      ("category", opt_str category);
      ("min_price", opt_float min_price);
      ("max_price", opt_float max_price);
      ("search", opt_str search) ].

Definition products_request (category : option string)
    (min_price max_price : option float) (search : option string)
    (limit : Z) : request :=
  mkRequest GET (service_url "catalog" ++ "/api/v1/catalog/items")
            (products_params category min_price max_price search limit)
            None 5%float.

(** [for item in data["items"]: products.append(Product(...))] *)
Definition construct_products (data : json) : result (list Product.t) :=
  raw_items <~ Py.getitem data "items";
  item_list <~ Py.iter raw_items;
  Py.rmap Product.construct item_list.

Definition order_request (oid : string) : request :=
  mkRequest GET (service_url "order" ++ "/api/v1/orders/" ++ oid)
            [] None 5%float.

Module Query.

(** [async def user(self, id: str) -> Optional[User]]: no request is sent;
    the record is made up from the id and two readings of the clock. *)
Definition user (id : string) : M (option User.t) :=
  try_except
    (t1 <- utcnow ;;
     t2 <- utcnow ;;
     ret (Some (User.mk (JStr id)
                        (JStr ("user_" ++ id))
                        (JStr ("user" ++ id ++ "@example.com"))
                        (JStr "Test User")
                        (JStr t1)
                        (JStr t2))))
    (fun _ => ret None).

(** [async def product(self, id: str) -> Optional[Product]] *)
Definition product (id : string) : M (option Product.t) :=
  try_except
    (response <- send (catalog_item_request id) ;;
     if status_code response =? 200 then
       data <- lift (response_json response) ;;
       p <- lift (Product.construct data) ;;
       ret (Some p)
     else ret None)
    (fun _ => ret None).

(** [async def products(self, category, min_price, max_price, search, limit)] *)
Definition products (category : option string)
    (min_price max_price : option float) (search : option string)
    (limit : Z) : M (list Product.t) :=
  r <- try_except
         (response <- send (products_request category min_price max_price
                                             search limit) ;;
          if status_code response =? 200 then
            data <- lift (response_json response) ;;
            products <- lift (construct_products data) ;;
            ret (Some products)
          else ret None)
         (fun e => print "Error fetching products: " e ;;; ret None) ;;
  ret (default [] r).

(** [async def user_orders(self, user_id: str) -> List[Order]] *)
Definition user_orders (user_id : string) : M (list Order.t) :=
  r <- try_except
         (orders_response <- send (user_orders_request user_id 50) ;;
          if status_code orders_response =? 200 then
            data <- lift (response_json orders_response) ;;
            orders <- lift (construct_orders data) ;;
            ret (Some orders)
          else ret None)
         (fun e => print "Error fetching user orders: " e ;;; ret None) ;;
  ret (default [] r).

(** [async def order(self, id: str) -> Optional[Order]] *)
Definition order (id : string) : M (option Order.t) :=
  try_except
    (response <- send (order_request id) ;;
     if status_code response =? 200 then
       order_data <- lift (response_json response) ;;
       o <- lift (Order.construct order_data) ;;
       ret (Some o)
     else ret None)
    (fun e => print "Error fetching order: " e ;;; ret None).

End Query.

(** The dict [order_data] that [Mutation.create_order] posts: the three
    arguments and the constant payment method. *)
Definition create_order_payload (user_id : string) (items : list json)
    (shipping_address : json) : json :=
  JDict [ ("user_id", JStr user_id);
          ("items", JList items);
          ("shipping_address", shipping_address);
          ("payment_method", JStr "card") ].

Definition create_order_request (user_id : string) (items : list json)
    (shipping_address : json) : request :=
  mkRequest POST (service_url "order" ++ "/api/v1/orders") []
            (Some (create_order_payload user_id items shipping_address))
            10%float.

Module Mutation.

(** [async def create_order(self, user_id: str, items: List[JSON],
    shipping_address: JSON) -> Optional[Order]] *)
Definition create_order (user_id : string) (items : list json)
    (shipping_address : json) : M (option Order.t) :=
  try_except
    (response <- send (create_order_request user_id items shipping_address) ;;
     if status_code response =? 201 then
       order_data <- lift (response_json response) ;;
       o <- lift (Order.construct order_data) ;;
       ret (Some o)
     else ret None)
    (fun e => print "Error creating order: " e ;;; ret None).

End Mutation.

(** ** The schema and its execution *)

(** A validated query document, by the types [strawberry.Schema] derives
    from the classes above (field names in camel case, the private
    [shipping_address] left out): a selection names fields of the type it
    selects on, and an object-valued field carries its own selection. *)
Inductive product_field : Type :=
  | PId | PName | PDescription | PPrice | PCategory | PStock | PImageUrl
  | PCreatedAt | PUpdatedAt.

Inductive item_field : Type :=
  | IProductId | IQuantity | IPrice | IName
  | IProduct (sub : list product_field).

Inductive order_field : Type :=
  | OId | OUserId | OTotalAmount | OStatus | OPaymentStatus | OPaymentMethod
  | OTrackingNumber | ONotes | OCreatedAt | OUpdatedAt | OAddress
  | OItems (sub : list item_field).

Inductive user_field : Type :=
  | UId | UUsername | UEmail | UFullName | UCreatedAt | UUpdatedAt
  | UOrders (sub : list order_field).

Inductive query_field : Type :=
  | QUser (id : string) (sub : list user_field)
  | QProduct (id : string) (sub : list product_field)
  | QProducts (category : option string) (min_price max_price : option float)
              (search : option string) (limit : Z) (sub : list product_field)
  | QUserOrders (user_id : string) (sub : list order_field)
  | QOrder (id : string) (sub : list order_field).

Inductive mutation_field : Type :=
  | MCreateOrder (user_id : string) (items : list json)
                 (shipping_address : json) (sub : list order_field).

Module Engine.

Definition record_error (path : list segment) (e : exn) : M unit :=
  fun _ w =>
    (Ok tt,
     mkWorld (calls w) (stdout w) (ticks w) (errors w ++ [mkError path e])).

(** Modelled from the spec: the graph execution engine (section 4.4) is the
    strawberry library, not code under src/.  A node resolves to a value,
    to null, or, when its resolver raises, to null with one error entry
    keyed by the node's path; the failure stays inside the field's subtree
    (section 7). *)
Definition resolve {A} (path : list segment) (r : M A) : M (option A) :=
  try_except (a <- r ;; ret (Some a))
             (fun e => record_error path e ;;; ret None).

Fixpoint mapM {A B} (f : A -> M B) (l : list A) : M (list B) :=
  match l with
  | [] => ret []
  | x :: l' => y <- f x ;; ys <- mapM f l' ;; ret (y :: ys)
  end.

Fixpoint mapM_from {A B} (i : nat) (f : nat -> A -> M B) (l : list A)
  : M (list B) :=
  match l with
  | [] => ret []
  | x :: l' => y <- f i x ;; ys <- mapM_from (S i) f l' ;; ret (y :: ys)
  end.

(** Modelled from the spec: the engine's serialization of a leaf is not
    under src/; a leaf is emitted as the entity holds it (values are passed
    through as received, section 4.2). *)
Definition product_leaf (p : Product.t) (f : product_field) : string * json :=
  match f with
  | PId => ("id", Product.id p)
  | PName => ("name", Product.name p)
  | PDescription => ("description", Product.description p)
  | PPrice => ("price", Product.price p)
  | PCategory => ("category", Product.category p)
  | PStock => ("stock", Product.stock p)
  | PImageUrl => ("imageUrl", Product.image_url p)
  | PCreatedAt => ("createdAt", Product.created_at p)
  | PUpdatedAt => ("updatedAt", Product.updated_at p)
  end.

Definition product_object (sub : list product_field) (p : Product.t) : json :=
  JDict (map (product_leaf p) sub).

Definition optional_product (sub : list product_field)
    (r : option (option Product.t)) : json :=
  match r with
  | Some (Some p) => product_object sub p
  | _ => JNull
  end.

(** Modelled from the spec: a field is resolved only when the selection
    names it (lazy resolution, section 4.3); [product] is the one field of
    an order item with a resolver that performs I/O. *)
Definition item_field_value (path : list segment) (it : OrderItem.t)
    (f : item_field) : M (string * json) :=
  match f with
  | IProductId => ret ("productId", OrderItem.product_id it)
  | IQuantity => ret ("quantity", OrderItem.quantity it)
  | IPrice => ret ("price", OrderItem.price it)
  | IName => ret ("name", OrderItem.name it)
  | IProduct sub =>
      r <- resolve (path ++ [Key "product"]) (OrderItem.product it) ;;
      ret ("product", optional_product sub r)
  end.

Definition item_object (sub : list item_field) (path : list segment)
    (it : OrderItem.t) : M json :=
  fs <- mapM (item_field_value path it) sub ;;
  ret (JDict fs).

(** Modelled from the spec: the engine's walk over a selection on an
    order (section 4.4), which is not under src/: attributes are read off
    the entity, [address] goes through its resolver, [items] are walked in
    order with their own selection. *)
Definition order_field_value (path : list segment) (o : Order.t)
    (f : order_field) : M (string * json) :=
  match f with
  | OId => ret ("id", Order.id o)
  | OUserId => ret ("userId", Order.user_id o)
  | OTotalAmount => ret ("totalAmount", Order.total_amount o)
  | OStatus => ret ("status", Order.status o)
  | OPaymentStatus => ret ("paymentStatus", Order.payment_status o)
  | OPaymentMethod => ret ("paymentMethod", Order.payment_method o)
  | OTrackingNumber => ret ("trackingNumber", Order.tracking_number o)
  | ONotes => ret ("notes", Order.notes o)
  | OCreatedAt => ret ("createdAt", Order.created_at o)
  | OUpdatedAt => ret ("updatedAt", Order.updated_at o)
  | OAddress =>
      r <- resolve (path ++ [Key "address"]) (Order.address o) ;;
      ret ("address", default JNull r)
  | OItems sub =>
      its <- mapM_from 0
               (fun i => item_object sub (path ++ [Key "items"; Index i]))
               (Order.items o) ;;
      ret ("items", JList its)
  end.

Definition order_object (sub : list order_field) (path : list segment)
    (o : Order.t) : M json :=
  fs <- mapM (order_field_value path o) sub ;;
  ret (JDict fs).

Definition order_list (sub : list order_field) (path : list segment)
    (os : list Order.t) : M json :=
  objs <- mapM_from 0 (fun i => order_object sub (path ++ [Index i])) os ;;
  ret (JList objs).

(** Modelled from the spec: the engine's walk over a selection on a user
    (section 4.4), which is not under src/; [orders] is resolved on demand
    (section 3). *)
Definition user_field_value (path : list segment) (u : User.t)
    (f : user_field) : M (string * json) :=
  match f with
  | UId => ret ("id", User.id u)
  | UUsername => ret ("username", User.username u)
  | UEmail => ret ("email", User.email u)
  | UFullName => ret ("fullName", User.full_name u)
  | UCreatedAt => ret ("createdAt", User.created_at u)
  | UUpdatedAt => ret ("updatedAt", User.updated_at u)
  | UOrders sub =>
      r <- resolve (path ++ [Key "orders"]) (User.orders u) ;;
      match r with
      | Some os =>
          v <- order_list sub (path ++ [Key "orders"]) os ;;
          ret ("orders", v)
      | None => ret ("orders", JNull)
      end
  end.

Definition user_object (sub : list user_field) (path : list segment)
    (u : User.t) : M json :=
  fs <- mapM (user_field_value path u) sub ;;
  ret (JDict fs).

Definition optional_order (sub : list order_field) (path : list segment)
    (r : option (option Order.t)) : M json :=
  match r with
  | Some (Some o) => order_object sub path o
  | _ => ret JNull
  end.

(** Modelled from the spec: the engine's execution of one root field of a
    query (section 4.4), which is not under src/: the field's resolver is
    invoked with the arguments of the document and its result walked with
    the field's selection, under the field's response key. *)
Definition query_field_value (f : query_field) : M (string * json) :=
  match f with
  | QUser id sub =>
      r <- resolve [Key "user"] (Query.user id) ;;
      match r with
      | Some (Some u) =>
          v <- user_object sub [Key "user"] u ;; ret ("user", v)
      | _ => ret ("user", JNull)
      end
  | QProduct id sub =>
      r <- resolve [Key "product"] (Query.product id) ;;
      ret ("product", optional_product sub r)
  | QProducts category min_price max_price search limit sub =>
      r <- resolve [Key "products"]
             (Query.products category min_price max_price search limit) ;;
      ret ("products",
           match r with
           | Some ps => JList (map (product_object sub) ps)
           | None => JNull
           end)
  | QUserOrders user_id sub =>
      r <- resolve [Key "userOrders"] (Query.user_orders user_id) ;;
      match r with
      | Some os =>
          v <- order_list sub [Key "userOrders"] os ;; ret ("userOrders", v)
      | None => ret ("userOrders", JNull)
      end
  | QOrder id sub =>
      r <- resolve [Key "order"] (Query.order id) ;;
      v <- optional_order sub [Key "order"] r ;;
      ret ("order", v)
  end.

(** Modelled from the spec: the engine's execution of one root field of a
    mutation (section 4.4), which is not under src/. *)
Definition mutation_field_value (f : mutation_field) : M (string * json) :=
  match f with
  | MCreateOrder user_id items shipping_address sub =>
      r <- resolve [Key "createOrder"]
             (Mutation.create_order user_id items shipping_address) ;;
      v <- optional_order sub [Key "createOrder"] r ;;
      ret ("createOrder", v)
  end.

(** The response of the endpoint: the [data] tree and the [errors] list,
    with the record of what producing them did. *)
Record outcome : Type := mkOutcome {
  data : result json;
  final : world
}.

(** Modelled from the spec: the engine's execution of a document (section
    4.4), which is not under src/: the root fields in the order of the
    document, from a fresh world.  The resolvers are awaited one after the
    other; concurrent scheduling is not modelled. *)
Definition execute_query (E : env) (q : list query_field) : outcome :=
  let r := (fs <- mapM query_field_value q ;; ret (JDict fs)) E init in
  mkOutcome r.1 r.2.

(** Modelled from the spec: mutation root fields run one after the other
    in the order of the request (section 4.4); the engine is not under
    src/. *)
Definition execute_mutation (E : env) (q : list mutation_field) : outcome :=
  let r := (fs <- mapM mutation_field_value q ;; ret (JDict fs)) E init in
  mkOutcome r.1 r.2.

End Engine.

(** ** order-service/models.py and order-service/app.py *)

(** Python's arithmetic on [float] where the code leaves it to the
    interpreter: the conversion of an [int] operand (it raises
    [OverflowError] on an int too large for a float) and the built-in
    [sum], whose rounding depends on the interpreter's version. *)
Record float_ops : Type := mkFloatOps {
  float_of_int : Z -> result float;
  py_sum : list float -> float
}.

Module OrderStatus.
Inductive t : Type :=
  | PENDING | PROCESSING | SHIPPED | DELIVERED | CANCELLED | REFUNDED.
Definition value (s : t) : string :=
  match s with
  | PENDING => "pending"
  | PROCESSING => "processing"
  | SHIPPED => "shipped"
  | DELIVERED => "delivered"
  | CANCELLED => "cancelled"
  | REFUNDED => "refunded"
  end.
End OrderStatus.

Module PaymentStatus.
Inductive t : Type := PENDING | PAID | FAILED | REFUNDED.
Definition value (s : t) : string :=
  match s with
  | PENDING => "pending"
  | PAID => "paid"
  | FAILED => "failed"
  | REFUNDED => "refunded"
  end.
End PaymentStatus.

Module OrderService.

(** [class OrderItem(BaseModel)], after pydantic has decoded the body into
    the declared types; it doubles as the dict [item.dict()] makes of it. *)
Record OrderItem : Type := mkOrderItem {
  product_id : string;
  quantity : Z;
  price : float;
  name : string
}.

(** [class OrderCreate(BaseModel)] *)
Record OrderCreate : Type := mkOrderCreate {
  oc_user_id : string;
  oc_items : list OrderItem;
  oc_shipping_address : list (string * json);
  oc_payment_method : string
}.

(** [quantity: int = Field(..., gt=0)], [price: float = Field(..., gt=0)] *)
Definition OrderItem_valid (it : OrderItem) : bool :=
  (0 <? quantity it) && PrimFloat.ltb 0 (price it).

(** [items: List[OrderItem] = Field(..., min_items=1)] *)
Definition OrderCreate_valid (oc : OrderCreate) : bool :=
  (1 <=? Z.of_nat (length (oc_items oc))) && forallb OrderItem_valid (oc_items oc).

(** The dict [new_order] of [create_order]. *)
Record order : Type := mkOrder {
  id : string;
  user_id : string;
  items : list OrderItem;
  total_amount : float;
  status : string;
  payment_status : string;
  shipping_address : list (string * json);
  payment_method : string;
  tracking_number : option string;
  notes : option string;
  created_at : string;
  updated_at : string
}.

(** [item["price"] * item["quantity"]]: a float times an int. *)
Definition line_total (ops : float_ops) (it : OrderItem) : result float :=
  q <~ float_of_int ops (quantity it);
  Ok (PrimFloat.mul (price it) q).

(** [def calculate_total(items: List[Dict]) -> float] *)
Definition calculate_total (ops : float_ops) (items : list OrderItem)
  : result float :=
  lines <~ Py.rmap (line_total ops) items;
  Ok (py_sum ops lines).

(** [async def create_order(order_data: OrderCreate)], with the values of
    [generate_order_id()] and [get_current_time()] and the global
    [orders_db] made explicit. *)
Definition create_order (ops : float_ops) (order_id current_time : string)
    (order_data : OrderCreate) (orders_db : gmap string order)
  : result (order * gmap string order) :=
  let items_dict := oc_items order_data in
  total <~ calculate_total ops items_dict;
  let new_order :=
    mkOrder order_id (oc_user_id order_data) items_dict total
            (OrderStatus.value OrderStatus.PENDING)
            (PaymentStatus.value PaymentStatus.PENDING)
            (oc_shipping_address order_data) (oc_payment_method order_data)
            None None current_time current_time in
  Ok (new_order, <[order_id := new_order]> orders_db).

(** What the framework can write as the JSON of an answer: it refuses a
    float that is not finite (NaN, an infinity), wherever it stands. *)
Fixpoint renders (v : json) : bool :=
  match v with
  | JFloat f => PrimFloat.is_finite f
  | JList l => forallb renders l
  | JDict d => forallb (fun kv => renders (snd kv)) d
  | _ => true
  end.

(** The order can be written as the answer of the route: its total, the
    prices of its items and its address hold no float that is not finite. *)
Definition order_renders (o : order) : bool :=
  PrimFloat.is_finite (total_amount o)
  && forallb (fun it => PrimFloat.is_finite (price it)) (items o)
  && forallb (fun kv => renders (snd kv)) (shipping_address o).

(** The report of a body that fails validation quotes the inputs that
    failed: it can be written unless a price failed by being NaN or the
    negative infinity.  (An item count or a quantity is an integer.) *)
Definition report_renders (oc : OrderCreate) : bool :=
  forallb (fun it => PrimFloat.ltb 0 (price it)
                     || PrimFloat.is_finite (price it)) (oc_items oc).

(** [@app.post("/api/v1/orders", response_model=OrderResponse,
    status_code=201)].  A body that fails the model's constraints is
    refused before the handler runs: 422 with the report of what failed,
    or 500 when that report cannot be written.  An exception in the
    handler is answered 500.  When the handler returns, the order is
    already in [orders_db]; the answer is then written, 201 with the
    order, or 500 when the order cannot be written, the store keeping
    it. *)
Definition post_orders (ops : float_ops) (order_id current_time : string)
    (body : OrderCreate) (orders_db : gmap string order)
  : Z * option order * gmap string order :=
  if OrderCreate_valid body then
    match create_order ops order_id current_time body orders_db with
    | Ok (o, db') =>
        if order_renders o then (201, Some o, db') else (500, None, db')
    | Raise _ => (500, None, orders_db)
    end
  else if report_renders body then (422, None, orders_db)
  else (500, None, orders_db).

End OrderService.

(** ** Vocabulary of the properties *)

(** The world after one more call has been issued. *)
Definition log_call (req : request) (w : world) : world :=
  mkWorld (calls w ++ [req]) (stdout w) (ticks w) (errors w).

(** The world after one more line has been printed. *)
Definition log_print (line : string * exn) (w : world) : world :=
  mkWorld (calls w) (stdout w ++ [line]) (ticks w) (errors w).

(** A read has failed: the backend is unavailable or answers anything but
    200 (a 404, for one). *)
Definition read_failed (rp : reply) : bool :=
  match rp with
  | Unavailable => true
  | Reply r => negb (status_code r =? 200)
  end.

(** The write of [createOrder] has failed: the order service is
    unavailable (refused, timed out) or answers anything but 201. *)
Definition write_failed (rp : reply) : bool :=
  match rp with
  | Unavailable => true
  | Reply r => negb (status_code r =? 201)
  end.

(** The shape a payload must have for the gateway to build entities from
    it: an object holding the keys the construction subscripts, with, where
    the construction iterates, something Python can iterate whose elements
    have their shape in turn.  The types of the values under the keys play
    no part. *)
Definition has_key (d : list (string * json)) (k : string) : bool :=
  match Py.assoc k d with Some _ => true | None => false end.

Definition all_shaped (shaped : json -> bool) (v : json) : bool :=
  match Py.iter v with
  | Ok l => forallb shaped l
  | Raise _ => false
  end.

(** The keys [Product(...)] subscripts, in the order it does. *)
Definition product_required_keys : list string :=
  ["id"; "name"; "price"; "category"; "created_at"; "updated_at"].

Definition product_shaped (v : json) : bool :=
  match v with
  | JDict d => forallb (has_key d) product_required_keys
  | _ => false
  end.

Definition item_shaped (v : json) : bool :=
  match v with
  | JDict d => forallb (has_key d) ["product_id"; "quantity"; "price"; "name"]
  | _ => false
  end.

Definition order_shaped (v : json) : bool :=
  match v with
  | JDict d =>
      match Py.assoc "items" d with
      | Some raw =>
          all_shaped item_shaped raw
          && forallb (has_key d)
               ["id"; "user_id"; "total_amount"; "status"; "payment_status";
                "shipping_address"; "payment_method"; "created_at";
                "updated_at"]
      | None => false
      end
  | _ => false
  end.

Definition list_shaped (key : string) (shaped : json -> bool) (v : json)
  : bool :=
  match v with
  | JDict d =>
      match Py.assoc key d with
      | Some raw => all_shaped shaped raw
      | None => false
      end
  | _ => false
  end.

(** The payload of [GET /orders/user/{id}]. *)
Definition orders_shaped : json -> bool := list_shaped "orders" order_shaped.

(** The payload of [GET /items]. *)
Definition products_shaped : json -> bool := list_shaped "items" product_shaped.

(** A list read gives nothing usable: the backend is unavailable, answers
    anything but 200, answers with a body that is not JSON, or with a
    payload that is malformed (it has not the shape above). *)
Definition unusable (shaped : json -> bool) (rp : reply) : Prop :=
  match rp with
  | Unavailable => True
  | Reply r =>
      status_code r <> 200 \/
      match content r with
      | None => True
      | Some d => shaped d = false
      end
  end.

(** What a product lookup yields, as a function of the catalog's answer. *)
Definition product_of_reply (rp : reply) : option Product.t :=
  match rp with
  | Unavailable => None
  | Reply r =>
      if status_code r =? 200 then
        match content r with
        | Some d =>
            match Product.construct d with
            | Ok p => Some p
            | Raise _ => None
            end
        | None => None
        end
      else None
  end.

(** The value of one field of an order item, as a function of the item,
    the selection and the catalog's answer for this item alone. *)
Definition item_field_pure (E : env) (it : OrderItem.t) (f : item_field)
  : string * json :=
  match f with
  | IProductId => ("productId", OrderItem.product_id it)
  | IQuantity => ("quantity", OrderItem.quantity it)
  | IPrice => ("price", OrderItem.price it)
  | IName => ("name", OrderItem.name it)
  | IProduct sub =>
      ("product",
       Engine.optional_product sub
         (Some (product_of_reply
                  (backend E (catalog_item_request
                                (format E (OrderItem.product_id it)))))))
  end.

Definition item_pure (E : env) (sub : list item_field) (it : OrderItem.t)
  : json :=
  JDict (map (item_field_pure E it) sub).

(** How many times a selection on an order item asks for [product]. *)
Definition asks_product (f : item_field) : bool :=
  match f with IProduct _ => true | _ => false end.

Definition product_requests (sub : list item_field) : nat :=
  length (List.filter asks_product sub).

Definition item_scalars_only (sub : list item_field) : bool :=
  forallb (fun f => negb (asks_product f)) sub.

Definition order_scalars_only (sub : list order_field) : bool :=
  forallb (fun f => match f with
                    | OItems isub => item_scalars_only isub
                    | _ => true
                    end) sub.




(** The three scalars of an order the gateway must hand on untouched. *)
Definition same_scalars (order_data : json) (o : Order.t) : Prop :=
  Py.getitem order_data "total_amount" = Ok (Order.total_amount o) /\
  Py.getitem order_data "status" = Ok (Order.status o) /\
  Py.getitem order_data "payment_status" = Ok (Order.payment_status o).

(** What the [try] block of a resolver comes to, as a function of the
    backend's answer: [Ok (Some a)] it returned the entity, [Ok None] it
    fell through on a status other than [ok_status], [Raise e] it raised. *)
Definition try_outcome {A} (ok_status : Z) (construct : json -> result A)
    (rp : reply) : result (option A) :=
  match rp with
  | Unavailable => Raise TransportError
  | Reply r =>
      if status_code r =? ok_status then
        d <~ response_json r;
        a <~ construct d;
        Ok (Some a)
      else Ok None
  end.

(** The world after a resolver that prints what it catches. *)
Definition after_try {A} (msg : string) (req : request)
    (t : result (option A)) (w : world) : world :=
  match t with
  | Ok _ => log_call req w
  | Raise e => log_print (msg, e) (log_call req w)
  end.

Definition returned {A} (t : result (option A)) : option A :=
  match t with
  | Ok r => r
  | Raise _ => None
  end.

(** The world after one field of an order item has been resolved. *)
Definition item_field_world (E : env) (it : OrderItem.t) (f : item_field)
    (w : world) : world :=
  if asks_product f
  then log_call (catalog_item_request (format E (OrderItem.product_id it))) w
  else w.

Definition item_world (E : env) (sub : list item_field) (it : OrderItem.t)
    (w : world) : world :=
  fold_left (fun w f => item_field_world E it f w) sub w.

(** The catalog calls that resolving the items of an order issues: for
    each item in turn, one per [product] the selection asks for. *)
Definition item_calls (E : env) (sub : list item_field)
    (its : list OrderItem.t) : list request :=
  concat (map (fun it =>
                 repeat (catalog_item_request
                           (format E (OrderItem.product_id it)))
                        (product_requests sub)) its).

(** The record [Query.user] makes up in a world whose clock stands at
    [ticks w], and the world after its two readings of the clock. *)
Definition stub_user (E : env) (w : world) (id : string) : User.t :=
  User.mk (JStr id)
          (JStr ("user_" ++ id))
          (JStr ("user" ++ id ++ "@example.com"))
          (JStr "Test User")
          (JStr (utcnow_iso E (ticks w)))
          (JStr (utcnow_iso E (S (ticks w)))).

Definition after_user (w : world) : world :=
  mkWorld (calls w) (stdout w) (S (S (ticks w))) (errors w).

(** A list read finds the list genuinely empty: a 200 whose payload
    constructs to no entity at all. *)
Definition genuinely_empty {A} (construct : json -> result (list A))
    (rp : reply) : Prop :=
  exists r d,
    rp = Reply r /\ status_code r = 200
    /\ content r = Some d /\ construct d = Ok [].

(** [construct] succeeds exactly on the payloads that [shaped] accepts. *)
Definition decides {A} (shaped : json -> bool) (construct : json -> result A)
  : Prop :=
  forall v,
    if shaped v then exists a, construct v = Ok a
    else exists e, construct v = Raise e.

(** ** Sample backends *)

Module Sample.

Definition clock (n : nat) : string := "2024-05-01T12:00:00".

Definition repr (v : json) : string := "?".

Definition env_of (b : request -> reply) : env := mkEnv b clock repr.

(** Every backend is down. *)
Definition down : env := env_of (fun _ => Unavailable).

(** Every backend answers 404. *)
Definition not_found : env :=
  env_of (fun _ =>
    Reply (mkResponse 404 (Some (JDict [("detail", JStr "Not found")])))).

(** Every backend answers 422, as the order service does to a body that
    fails validation. *)
Definition unprocessable : env :=
  env_of (fun _ =>
    Reply (mkResponse 422 (Some (JDict [("detail", JList [])])))).

Definition laptop : json :=
  JDict [ ("id", JStr "p1"); ("name", JStr "Laptop");
          ("description", JStr "13 inch"); ("price", JFloat 29.5);
          ("category", JStr "electronics"); ("stock", JInt 10);
          ("image_url", JNull);
          ("created_at", JStr "2024-01-01T00:00:00");
          ("updated_at", JStr "2024-01-02T00:00:00") ].

(** A catalog record without its name. *)
Definition nameless : json :=
  JDict [ ("id", JStr "p1"); ("price", JFloat 29.5);
          ("category", JStr "electronics");
          ("created_at", JStr "2024-01-01T00:00:00");
          ("updated_at", JStr "2024-01-02T00:00:00") ].

Definition line (pid name : string) : json :=
  JDict [ ("product_id", JStr pid); ("quantity", JInt 2);
          ("price", JFloat 29.5); ("name", JStr name) ].

Definition address : json :=
  JDict [ ("street", JStr "1 Main St"); ("city", JStr "Riga");
          ("country", JStr "LV") ].

Definition order1 : json :=
  JDict [ ("id", JStr "ORD-1"); ("user_id", JStr "u1");
          ("items", JList [line "p1" "Laptop"; line "p2" "Mouse"]);
          ("total_amount", JFloat 118); ("status", JStr "shipped");
          ("payment_status", JStr "paid");
          ("shipping_address", address); ("payment_method", JStr "card");
          ("tracking_number", JNull); ("notes", JNull);
          ("created_at", JStr "2024-03-01T00:00:00");
          ("updated_at", JStr "2024-03-02T00:00:00") ].

Definition ok (j : json) : reply := Reply (mkResponse 200 (Some j)).

(** The body of a refusal. *)
Definition problem : json := JDict [("detail", JStr "Not found")].

(** A shop: the catalog knows [p1] only, the order service knows [ORD-1]
    of user [u1] and creates orders. *)
Definition shop_backend (req : request) : reply :=
  match req_method req with
  | GET =>
      if String.eqb (req_url req)
           "http://catalog-service:5000/api/v1/catalog/items/p1"
      then ok laptop
      else if String.eqb (req_url req)
                "http://order-service:5000/api/v1/orders/ORD-1"
      then ok order1
      else if String.eqb (req_url req)
                "http://order-service:5000/api/v1/orders/user/u1"
      then ok (JDict [("orders", JList [order1]); ("total", JInt 1);
                      ("user_id", JStr "u1")])
      else Reply (mkResponse 404 (Some (JDict [("detail", JStr "Not found")])))
  | POST => Reply (mkResponse 201 (Some order1))
  end.

Definition shop : env := env_of shop_backend.

(** A catalog that serves the record without a name. *)
Definition careless : env := env_of (fun _ => ok nameless).

(** IEEE arithmetic with the conversion rounding to nearest even and [sum]
    adding from the left, starting from zero. *)
Definition ieee : float_ops :=
  mkFloatOps
    (fun z =>
       match SpecFloat.binary_normalize FloatOps.prec FloatOps.emax z 0 false with
       | SpecFloat.S754_infinity _ => Raise OverflowError
       | sf => Ok (FloatOps.SF2Prim sf)
       end)
    (fun l => fold_left PrimFloat.add l 0%float).

Definition basket : OrderService.OrderCreate :=
  OrderService.mkOrderCreate "u1"
    [ OrderService.mkOrderItem "p1" 2 29.5 "Laptop";
      OrderService.mkOrderItem "p2" 3 0.5 "Mouse" ]
    [("city", JStr "Riga")] "card".

End Sample.

(** The entity the gateway builds from [Sample.order1]. *)
Definition order1_entity : Order.t :=
  Eval vm_compute in
    match Order.construct Sample.order1 with
    | Ok o => o
    | Raise _ =>
        Order.mk JNull JNull [] JNull JNull JNull JNull JNull JNull JNull
                 JNull JNull
    end.

(** The order the order service makes of [Sample.basket]. *)
Definition order9 : OrderService.order :=
  OrderService.mkOrder "ORD-9" "u1" (OrderService.oc_items Sample.basket)
    60.5 "pending" "pending" [("city", JStr "Riga")] "card" None None
    "2024-05-01T12:00:00" "2024-05-01T12:00:00".

(** ** order-service/app.py: the other endpoints *)

(** [d.values()] of a Python dict gives the stored values in insertion
    order, which a [gmap] does not keep: any enumeration of the stored
    values stands for it, and nothing is assumed of its order. *)
Record dict_values (V : Type) : Type := mkDictValues {
  values_of : gmap string V -> list V;
  values_of_perm : forall d, values_of d ≡ₚ (map_to_list d).*2
}.
Arguments values_of {V} _ _.
Arguments values_of_perm {V} _ _.


Module Slice.

(** The position a slice bound [i] denotes in a list of length [len]:
    a negative bound counts from the end, and both ends clamp. *)
Definition bound (len : nat) (i : Z) : nat :=
  if i <? 0 then (len - Z.to_nat (- i))%nat
  else Nat.min len (Z.to_nat i).

(** [l[start:stop]] *)
Definition slice {A} (start stop : Z) (l : list A) : list A :=
  let s := bound (length l) start in
  let e := bound (length l) stop in
  take (e - s) (drop s l).


End Slice.

(** What an endpoint answers: its body with the status of the route, or
    the [HTTPException] it raised (or the 422 of a query parameter that
    fails its bounds). *)
Inductive answer (A : Type) : Type :=
  | Answer (status : Z) (body : A)
  | Refused (status : Z) (detail : string).
Arguments Answer {A} status body.
Arguments Refused {A} status detail.

Module OrderEndpoints.

Import OrderService.

(** [class OrderUpdate(BaseModel)]; a field left out of the request and a
    field sent as null are both [None] here, and the handler treats them
    alike. *)
Record OrderUpdate : Type := mkOrderUpdate {
  u_status : option OrderStatus.t;
  u_payment_status : option PaymentStatus.t;
  u_tracking_number : option string;
  u_notes : option string
}.

(** [class UserOrdersResponse(BaseModel)] *)
Record UserOrdersResponse : Type := mkUserOrdersResponse {
  orders : list order;
  total : Z;
  uor_user_id : string
}.

(** The dict [get_order_items] returns. *)
Record OrderItemsResponse : Type := mkOrderItemsResponse {
  oir_order_id : string;
  oir_items : list OrderItem;
  total_items : Z;
  oir_total_amount : float
}.

(** [if user_id:] holds for a string that is given and not empty. *)
Definition truthy (s : option string) : option string :=
  match s with
  | Some "" => None
  | _ => s
  end.




(** [async def get_order(order_id: str)] *)
Definition get_order (orders_db : gmap string order) (order_id : string)
  : answer order :=
  match orders_db !! order_id with
  | Some o => Answer 200 o
  | None => Refused 404 "Order not found"
  end.


(** The loop of [update_order] over the fields of the update: a field
    that is not [None] replaces the stored one, an enum by its value. *)
Definition apply_update (order_update : OrderUpdate) (current_time : string)
    (o : order) : order :=
  mkOrder (id o) (OrderService.user_id o) (items o) (total_amount o)
    (from_option OrderStatus.value (OrderService.status o)
                 (u_status order_update))
    (from_option PaymentStatus.value (OrderService.payment_status o)
                 (u_payment_status order_update))
    (shipping_address o) (payment_method o)
    (match u_tracking_number order_update with
     | Some t => Some t
     | None => tracking_number o
     end)
    (match u_notes order_update with
     | Some n => Some n
     | None => notes o
     end)
    (created_at o) current_time.

(** [async def update_order(order_id, order_update)]: the stored dict is
    updated in place. *)
Definition update_order (current_time : string) (orders_db : gmap string order)
    (order_id : string) (order_update : OrderUpdate)
  : answer order * gmap string order :=
  match orders_db !! order_id with
  | None => (Refused 404 "Order not found", orders_db)
  | Some o =>
      let o' := apply_update order_update current_time o in
      (Answer 200 o', <[order_id := o']> orders_db)
  end.

(** [async def delete_order(order_id)] *)
Definition delete_order (orders_db : gmap string order) (order_id : string)
  : answer string * gmap string order :=
  match orders_db !! order_id with
  | None => (Refused 404 "Order not found", orders_db)
  | Some _ =>
      (Answer 200 ("Order " +:+ order_id +:+ " deleted successfully"),
       delete order_id orders_db)
  end.

(** [async def get_order_items(order_id)] *)
Definition get_order_items (orders_db : gmap string order) (order_id : string)
  : answer OrderItemsResponse :=
  match orders_db !! order_id with
  | Some o =>
      Answer 200
        (mkOrderItemsResponse order_id (items o)
           (Z.of_nat (length (items o))) (total_amount o))
  | None => Refused 404 "Order not found"
  end.

(** The [order_count] of [health_check] and the [total_orders] of [root]:
    [len(orders_db)]. *)
Definition order_count (orders_db : gmap string order) : Z :=
  Z.of_nat (size orders_db).

End OrderEndpoints.

(** What every order of a store built by the endpoints satisfies: it is
    filed under its own id, it has at least one item and every item passes
    the constraints of [OrderItem], its total is the total of its items,
    and its two statuses are values of their enumerations. *)
Definition order_ok (ops : float_ops) (key : string)
    (o : OrderService.order) : Prop :=
  OrderService.id o = key
  /\ OrderService.items o <> []
  /\ forallb OrderService.OrderItem_valid (OrderService.items o) = true
  /\ OrderService.calculate_total ops (OrderService.items o)
     = Ok (OrderService.total_amount o)
  /\ (exists s, OrderService.status o = OrderStatus.value s)
  /\ (exists s, OrderService.payment_status o = PaymentStatus.value s).

Definition store_ok (ops : float_ops)
    (orders_db : gmap string OrderService.order) : Prop :=
  forall key o, orders_db !! key = Some o -> order_ok ops key o.

(** An item that fails a constraint of [OrderItem]: a quantity that is not
    positive, or a price that is not (a NaN included). *)
Definition bad_item (it : OrderService.OrderItem) : Prop :=
  OrderService.quantity it <= 0 \/ PrimFloat.ltb 0 (OrderService.price it) = false.

(** A store with the order of [Sample.basket] in it. *)
Definition store9 : gmap string OrderService.order := <["ORD-9" := order9]> ∅.

Definition ship9 : OrderEndpoints.OrderUpdate :=
  OrderEndpoints.mkOrderUpdate (Some OrderStatus.SHIPPED) None
    (Some "TRACK-1") None.


(** A read as the gateway sends them: a GET without a body, with the
    timeout of five seconds, to the catalog or to the order service. *)
Definition read_request (req : request) : Prop :=
  req_method req = GET
  /\ req_json req = None
  /\ req_timeout req = 5%float
  /\ exists rest : string,
       req_url req = service_url "catalog" +:+ rest
       \/ req_url req = service_url "order" +:+ rest.

(** The one kind of error entry a response can carry: [Order.address]
    raising on an address that is no object. *)
Definition address_error (e : error_entry) : Prop :=
  err_exn e = AttributeError
  /\ exists p, err_path e = p ++ [Key "address"].

(** [w'] continues [w] with calls that satisfy [P] and error entries that
    satisfy [Q]. *)
Definition extends (P : request -> Prop) (Q : error_entry -> Prop)
    (w w' : world) : Prop :=
  exists l es,
    calls w' = calls w ++ l /\ Forall P l
    /\ errors w' = errors w ++ es /\ Forall Q es.

(** The response key of a root field. *)
Definition root_key (f : query_field) : string :=
  match f with
  | QUser _ _ => "user"
  | QProduct _ _ => "product"
  | QProducts _ _ _ _ _ _ => "products"
  | QUserOrders _ _ => "userOrders"
  | QOrder _ _ => "order"
  end.

(** ** The order service as the gateway sees it *)

Module OrderWire.

(** The JSON object of [class OrderItem(BaseModel)]. *)
Definition item_json (it : OrderService.OrderItem) : json :=
  JDict [ ("product_id", JStr (OrderService.product_id it));
          ("quantity", JInt (OrderService.quantity it));
          ("price", JFloat (OrderService.price it));
          ("name", JStr (OrderService.name it)) ].

(** The JSON object of [class OrderResponse(BaseModel)], the
    [response_model] of the routes that answer an order: its fields in the
    order of the class, an absent optional field as null. *)
Definition order_json (o : OrderService.order) : json :=
  JDict [ ("id", JStr (OrderService.id o));
          ("user_id", JStr (OrderService.user_id o));
          ("items", JList (map item_json (OrderService.items o)));
          ("total_amount", JFloat (OrderService.total_amount o));
          ("status", JStr (OrderService.status o));
          ("payment_status", JStr (OrderService.payment_status o));
          ("shipping_address", JDict (OrderService.shipping_address o));
          ("payment_method", JStr (OrderService.payment_method o));
          ("tracking_number", opt_str (OrderService.tracking_number o));
          ("notes", opt_str (OrderService.notes o));
          ("created_at", JStr (OrderService.created_at o));
          ("updated_at", JStr (OrderService.updated_at o)) ].

(** The JSON object of [class UserOrdersResponse(BaseModel)]. *)
Definition user_orders_json (r : OrderEndpoints.UserOrdersResponse) : json :=
  JDict [ ("orders", JList (map order_json (OrderEndpoints.orders r)));
          ("total", JInt (OrderEndpoints.total r));
          ("user_id", JStr (OrderEndpoints.uor_user_id r)) ].


(** The HTTP response of [POST /orders], from what [post_orders] gives. *)
Definition post_reply (problem : json)
    (r : Z * option OrderService.order * gmap string OrderService.order)
  : reply :=
  match r with
  | (st, Some o, _) => Reply (mkResponse st (Some (order_json o)))
  | (st, None, _) => Reply (mkResponse st (Some problem))
  end.

(** The entities the gateway holds for an item and for an order of the
    order service. *)
Definition item_entity (it : OrderService.OrderItem) : OrderItem.t :=
  OrderItem.mk (JStr (OrderService.product_id it))
    (JInt (OrderService.quantity it)) (JFloat (OrderService.price it))
    (JStr (OrderService.name it)).

Definition order_entity (o : OrderService.order) : Order.t :=
  Order.mk (JStr (OrderService.id o)) (JStr (OrderService.user_id o))
    (map item_entity (OrderService.items o))
    (JFloat (OrderService.total_amount o))
    (JStr (OrderService.status o)) (JStr (OrderService.payment_status o))
    (JDict (OrderService.shipping_address o))
    (JStr (OrderService.payment_method o))
    (opt_str (OrderService.tracking_number o))
    (opt_str (OrderService.notes o))
    (JStr (OrderService.created_at o)) (JStr (OrderService.updated_at o)).

End OrderWire.



(** An order service that answers every request as [post_orders] answers
    [Sample.basket] on the empty store. *)
Definition creates_9 : env :=
  Sample.env_of (fun _ =>
    OrderWire.post_reply Sample.problem
      (OrderService.post_orders Sample.ieee "ORD-9" "2024-05-01T12:00:00"
         Sample.basket ∅)).

(** The items of [Sample.basket] as the client sends them. *)
Definition basket_items : list json :=
  map OrderWire.item_json (OrderService.oc_items Sample.basket).

(** ** catalog-service: what the gateway calls *)

(** Python's [str.lower], which the code leaves to the interpreter. *)
Record text_ops : Type := mkTextOps {
  py_lower : string -> string
}.

Module Category.
Inductive t : Type := ELECTRONICS | BOOKS | CLOTHING | FOOD | OTHER.
Definition value (c : t) : string :=
  match c with
  | ELECTRONICS => "electronics"
  | BOOKS => "books"
  | CLOTHING => "clothing"
  | FOOD => "food"
  | OTHER => "other"
  end.
Definition all : list t := [ELECTRONICS; BOOKS; CLOTHING; FOOD; OTHER].
(** [Category(s)]: the member with that value, if there is one. *)
Definition of_string (s : string) : option t :=
  List.find (fun c => String.eqb (value c) s) all.
End Category.

Module Catalog.

(** The dict [new_item] of [create_item], which is also what
    [class ItemResponse(BaseModel)] declares. *)
Record item : Type := mkItem {
  id : string;
  name : string;
  description : option string;
  price : float;
  category : string;
  stock : Z;
  image_url : option string;
  created_at : string;
  updated_at : string
}.

(** [class ItemCreate(BaseModel)], after validation. *)
Record ItemCreate : Type := mkItemCreate {
  ic_name : string;
  ic_description : option string;
  ic_price : float;
  ic_category : Category.t;
  ic_stock : Z;
  ic_image_url : option string
}.

(** [class PaginatedResponse(BaseModel)] *)
Record PaginatedResponse : Type := mkPaginatedResponse {
  items : list item;
  total : Z;
  page : Z;
  page_size : Z;
  total_pages : Z
}.

(** [async def create_item(item: ItemCreate)], with the values of
    [generate_id()] and [get_current_time()] and the global [items_db]
    made explicit. *)
Definition create_item (item_id current_time : string) (it : ItemCreate)
    (items_db : gmap string item) : item * gmap string item :=
  let new_item :=
    mkItem item_id (ic_name it) (ic_description it) (ic_price it)
           (Category.value (ic_category it)) (ic_stock it) (ic_image_url it)
           current_time current_time in
  (new_item, <[item_id := new_item]> items_db).

(** [async def get_item(item_id: str)] *)
Definition get_item (items_db : gmap string item) (item_id : string)
  : answer item :=
  match items_db !! item_id with
  | Some it => Answer 200 it
  | None => Refused 404 "Item not found"
  end.

(** [needle in hay] on strings. *)
Fixpoint contains (needle hay : string) : bool :=
  String.prefix needle hay
  || match hay with
     | EmptyString => false
     | String _ rest => contains needle rest
     end.

(** The test of the search filter: the lowered query occurs in the lowered
    name, or the description is there, not empty, and has it. *)
Definition matches (tops : text_ops) (search_lower : string) (it : item)
  : bool :=
  contains search_lower (py_lower tops (name it))
  || match description it with
     | Some d =>
         negb (String.eqb d "") && contains search_lower (py_lower tops d)
     | None => false
     end.

(** The first half of [get_items]: the filters, each applied when its
    parameter is given ([if search:] asks for a non-empty one). *)
Definition filtered_items (vals : dict_values item) (tops : text_ops)
    (items_db : gmap string item) (category : option Category.t)
    (min_price max_price : option float) (search : option string)
  : list item :=
  let filtered_items := values_of vals items_db in
  let filtered_items :=
    match category with
    | Some c =>
        filter (fun it => String.eqb (Catalog.category it) (Category.value c)
                          = true) filtered_items
    | None => filtered_items
    end in
  let filtered_items :=
    match min_price with
    | Some m => filter (fun it => PrimFloat.leb m (price it) = true)
                       filtered_items
    | None => filtered_items
    end in
  let filtered_items :=
    match max_price with
    | Some m => filter (fun it => PrimFloat.leb (price it) m = true)
                       filtered_items
    | None => filtered_items
    end in
  match OrderEndpoints.truthy search with
  | Some s =>
      let search_lower := py_lower tops s in
      filter (fun it => matches tops search_lower it = true) filtered_items
  | None => filtered_items
  end.

(** The second half of [get_items]: the page. *)
Definition paginate (filtered_items : list item) (page page_size : Z)
  : PaginatedResponse :=
  let total := Z.of_nat (length filtered_items) in
  let start := (page - 1) * page_size in
  let stop := start + page_size in
  let paginated_items := Slice.slice start stop filtered_items in
  mkPaginatedResponse paginated_items total page page_size
    ((total + page_size - 1) / page_size).

Definition price_ok (p : option float) : bool :=
  match p with
  | Some m => PrimFloat.leb 0 m
  | None => true
  end.

(** [async def get_items(category, min_price, max_price, search, page,
    page_size)].  The declarations of the parameters come first:
    [category] must be a value of [Category], the prices [ge=0], [page]
    [ge=1], [page_size] [ge=1, le=100]; a request that fails one is
    answered 422. *)
Definition get_items (vals : dict_values item) (tops : text_ops)
    (items_db : gmap string item) (category : option string)
    (min_price max_price : option float) (search : option string)
    (page page_size : Z) : answer PaginatedResponse :=
  let declared :=
    match category with
    | Some s => match Category.of_string s with
                | Some c => Some (Some c)
                | None => None
                end
    | None => Some None
    end in
  match declared with
  | Some c =>
      if price_ok min_price && price_ok max_price && (1 <=? page)
         && (1 <=? page_size) && (page_size <=? 100)
      then
        Answer 200
          (paginate (filtered_items vals tops items_db c min_price max_price
                                    search) page page_size)
      else Refused 422 "query"
  | None => Refused 422 "query"
  end.

End Catalog.

Module CatalogWire.

(** The JSON object of [class ItemResponse(BaseModel)]. *)
Definition item_json (it : Catalog.item) : json :=
  JDict [ ("id", JStr (Catalog.id it));
          ("name", JStr (Catalog.name it));
          ("description", opt_str (Catalog.description it));
          ("price", JFloat (Catalog.price it));
          ("category", JStr (Catalog.category it));
          ("stock", JInt (Catalog.stock it));
          ("image_url", opt_str (Catalog.image_url it));
          ("created_at", JStr (Catalog.created_at it));
          ("updated_at", JStr (Catalog.updated_at it)) ].



End CatalogWire.

(** ** Sample catalog *)



Definition new_mouse : Catalog.ItemCreate :=
  Catalog.mkItemCreate "Mouse" (Some "Wireless mouse") 0.5
    Category.ELECTRONICS 7 None.

Definition new_novel : Catalog.ItemCreate :=
  Catalog.mkItemCreate "Novel" None 12 Category.BOOKS 3 None.


Definition mouse : Catalog.item :=
  (Catalog.create_item "i1" "2024-05-01T12:00:00" new_mouse ∅).1.

Definition novel : Catalog.item :=
  (Catalog.create_item "i2" "2024-05-01T12:00:00" new_novel ∅).1.




(** An item passes the filters that are given. *)
Definition passes (tops : text_ops) (category : option Category.t)
    (min_price max_price : option float) (search : option string)
    (it : Catalog.item) : Prop :=
  (forall c, category = Some c -> Catalog.category it = Category.value c)
  /\ (forall m, min_price = Some m ->
                PrimFloat.leb m (Catalog.price it) = true)
  /\ (forall m, max_price = Some m ->
                PrimFloat.leb (Catalog.price it) m = true)
  /\ (forall q, search = Some q -> q <> "" ->
                Catalog.matches tops (py_lower tops q) it = true).

(** ** catalog-service/app.py: the other endpoints *)

Module CatalogEndpoints.

Import Catalog.

(** [class ItemUpdate(BaseModel)], after validation; a field left out of
    the request and a field sent as null are both [None] here, and the
    handler skips both. *)
Record ItemUpdate : Type := mkItemUpdate {
  iu_name : option string;
  iu_description : option string;
  iu_price : option float;
  iu_category : option Category.t;
  iu_stock : option Z;
  iu_image_url : option string
}.

(** [existing_item[field] = value] for a value that is not [None]. *)
Definition assign {A} (stored : A) (given : option A) : A :=
  match given with
  | Some v => v
  | None => stored
  end.

(** The loop of [update_item] over the fields of the update, and the
    stamp that follows it. *)
Definition apply_update (current_time : string) (existing_item : item)
    (item_update : ItemUpdate) : item :=
  mkItem (id existing_item)
    (assign (name existing_item) (iu_name item_update))
    (match iu_description item_update with
     | Some d => Some d
     | None => description existing_item
     end)
    (assign (price existing_item) (iu_price item_update))
    (assign (category existing_item)
            (Category.value <$> iu_category item_update))
    (assign (stock existing_item) (iu_stock item_update))
    (match iu_image_url item_update with
     | Some u => Some u
     | None => image_url existing_item
     end)
    (created_at existing_item)
    current_time.

(** [async def update_item(item_id: str, item_update: ItemUpdate)]; the
    handler writes into the dict that the store holds, so the store has
    the updated item. *)
Definition update_item (current_time : string) (items_db : gmap string item)
    (item_id : string) (item_update : ItemUpdate)
  : answer item * gmap string item :=
  match items_db !! item_id with
  | None => (Refused 404 "Item not found", items_db)
  | Some existing_item =>
      let existing_item :=
        apply_update current_time existing_item item_update in
      (Answer 200 existing_item, <[item_id := existing_item]> items_db)
  end.

(** [async def delete_item(item_id: str)] *)
Definition delete_item (items_db : gmap string item) (item_id : string)
  : answer string * gmap string item :=
  match items_db !! item_id with
  | None => (Refused 404 "Item not found", items_db)
  | Some deleted_item =>
      (Answer 200
         ("Item '" +:+ name deleted_item +:+ "' deleted successfully"),
       delete item_id items_db)
  end.

(** [cat.name] *)
Definition member_name (c : Category.t) : string :=
  match c with
  | Category.ELECTRONICS => "ELECTRONICS"
  | Category.BOOKS => "BOOKS"
  | Category.CLOTHING => "CLOTHING"
  | Category.FOOD => "FOOD"
  | Category.OTHER => "OTHER"
  end.

Record CategoryEntry : Type := mkCategoryEntry {
  ce_id : string;
  ce_name : string;
  ce_value : string
}.

(** [async def get_categories()] *)
Definition get_categories : list CategoryEntry :=
  map (fun cat =>
         mkCategoryEntry (Category.value cat) (member_name cat)
                         (Category.value cat))
      Category.all.

Record SearchResponse : Type := mkSearchResponse {
  sr_query : string;
  sr_results : list item;
  sr_count : Z
}.

(** The loop of [search_items]: an item that matches is appended, and the
    loop breaks as soon as the results have reached the limit. *)
Fixpoint search_loop (tops : text_ops) (query_lower : string) (limit : Z)
    (values : list item) (results : list item) : list item :=
  match values with
  | [] => results
  | it :: rest =>
      if matches tops query_lower it then
        let results := results ++ [it] in
        if limit <=? Z.of_nat (length results) then results
        else search_loop tops query_lower limit rest results
      else search_loop tops query_lower limit rest results
  end.

(** [async def search_items(q, limit)]: [q] is declared [min_length=1]
    and [limit] [ge=1, le=50]; a request that fails one is answered 422. *)
Definition search_items (vals : dict_values item) (tops : text_ops)
    (items_db : gmap string item) (q : string) (limit : Z)
  : answer SearchResponse :=
  if negb (String.eqb q "") && (1 <=? limit) && (limit <=? 50) then
    let query_lower := py_lower tops q in
    let results :=
      search_loop tops query_lower limit (values_of vals items_db) [] in
    Answer 200 (mkSearchResponse q results (Z.of_nat (length results)))
  else Refused 422 "query".

(** [len(items_db)], the [item_count] of [health_check] and the
    [total_items] of [root]. *)
Definition item_count (items_db : gmap string item) : Z :=
  Z.of_nat (size items_db).

End CatalogEndpoints.

(** What [class ItemCreate(BaseModel)] declares of its fields. *)
Definition ItemCreate_valid (it : Catalog.ItemCreate) : bool :=
  (1 <=? String.length (Catalog.ic_name it))%nat
  && (String.length (Catalog.ic_name it) <=? 100)%nat
  && match Catalog.ic_description it with
     | Some d => (String.length d <=? 500)%nat
     | None => true
     end
  && PrimFloat.ltb 0 (Catalog.ic_price it)
  && (0 <=? Catalog.ic_stock it).

(** What [class ItemUpdate(BaseModel)] declares of its fields. *)
Definition ItemUpdate_valid (u : CatalogEndpoints.ItemUpdate) : bool :=
  match CatalogEndpoints.iu_name u with
  | Some n => (1 <=? String.length n)%nat && (String.length n <=? 100)%nat
  | None => true
  end
  && match CatalogEndpoints.iu_description u with
     | Some d => (String.length d <=? 500)%nat
     | None => true
     end
  && match CatalogEndpoints.iu_price u with
     | Some p => PrimFloat.ltb 0 p
     | None => true
     end
  && match CatalogEndpoints.iu_stock u with
     | Some s => 0 <=? s
     | None => true
     end.

(** What every item of the catalog is expected to satisfy: it is filed
    under its own id, its name is between 1 and 100 characters, its
    description at most 500, its price positive, its stock not negative,
    and its category a value of [Category]. *)
Definition item_ok (k : string) (it : Catalog.item) : Prop :=
  Catalog.id it = k
  /\ (1 <= String.length (Catalog.name it) <= 100)%nat
  /\ (forall d, Catalog.description it = Some d ->
                (String.length d <= 500)%nat)
  /\ PrimFloat.ltb 0 (Catalog.price it) = true
  /\ 0 <= Catalog.stock it
  /\ is_Some (Category.of_string (Catalog.category it)).

Definition catalog_ok (db : gmap string Catalog.item) : Prop :=
  forall k it, db !! k = Some it -> item_ok k it.

(** A price rise for the mouse. *)
Definition dearer : CatalogEndpoints.ItemUpdate :=
  CatalogEndpoints.mkItemUpdate None None (Some 2%float) None None None.

(** ** The body of a creation request *)

(** The JSON object of [class OrderCreate(BaseModel)]: the body that
    decodes to [oc]. *)
Definition body_json (oc : OrderService.OrderCreate) : json :=
  JDict [ ("user_id", JStr (OrderService.oc_user_id oc));
          ("items",
           JList (map OrderWire.item_json (OrderService.oc_items oc)));
          ("shipping_address", JDict (OrderService.oc_shipping_address oc));
          ("payment_method", JStr (OrderService.oc_payment_method oc)) ].

(** The address of [Sample.basket] as the client sends it. *)
Definition basket_address : json :=
  JDict (OrderService.oc_shipping_address Sample.basket).

(** ** The declared types of the schema *)

(** The scalar types of the schema, as they are derived from the
    annotations of the classes: [str] gives String, [int] Int, [float]
    Float. *)
Inductive scalar : Type := TString | TInt | TFloat.

(** A Python value of the annotated type, within what the scalar can
    represent: a [str] for String, an [int] of 32 bits for Int, a finite
    [float] for Float.  On such a value nothing is left to coerce and
    nothing to refuse: the response carries it as the entity holds it.  On
    any other value the engine coerces or reports by the declared type,
    which is not modelled. *)
Definition conforms (t : scalar) (v : json) : bool :=
  match t, v with
  | TString, JStr _ => true
  | TInt, JInt n => (-2147483648 <=? n) && (n <=? 2147483647)
  | TFloat, JFloat f => PrimFloat.is_finite f
  | _, _ => false
  end.

(** [Optional[...]]: [None] as well. *)
Definition conforms_opt (t : scalar) (v : json) : bool :=
  match v with
  | JNull => true
  | _ => conforms t v
  end.

(** The attributes of a product have the types [class Product] declares. *)
Definition product_typed (p : Product.t) : bool :=
  conforms TString (Product.id p)
  && conforms TString (Product.name p)
  && conforms_opt TString (Product.description p)
  && conforms TFloat (Product.price p)
  && conforms TString (Product.category p)
  && conforms TInt (Product.stock p)
  && conforms_opt TString (Product.image_url p)
  && conforms TString (Product.created_at p)
  && conforms TString (Product.updated_at p).





(** ** Selections as the engine executes them *)




(** The lookup of one product in the catalog. *)
Definition catalog_lookup (req : request) : Prop :=
  exists pid, req = catalog_item_request pid.

(** ** Payloads with values of other types than declared *)


(** [Sample.laptop] with the integer 3 for its name. *)
Definition laptop_named3 : json :=
  JDict [ ("id", JStr "p1"); ("name", JInt 3);
          ("description", JStr "13 inch"); ("price", JFloat 29.5);
          ("category", JStr "electronics"); ("stock", JInt 10);
          ("image_url", JNull);
          ("created_at", JStr "2024-01-01T00:00:00");
          ("updated_at", JStr "2024-01-02T00:00:00") ].

(** A catalog that serves the laptop named 3. *)
Definition mislabels : env := Sample.env_of (fun _ => Sample.ok laptop_named3).

(** [Sample.order1] with a string for its address. *)
Definition order_nowhere : json :=
  JDict [ ("id", JStr "ORD-1"); ("user_id", JStr "u1");
          ("items", JList [Sample.line "p1" "Laptop"]);
          ("total_amount", JFloat 118); ("status", JStr "shipped");
          ("payment_status", JStr "paid");
          ("shipping_address", JStr "nowhere");
          ("payment_method", JStr "card");
          ("tracking_number", JNull); ("notes", JNull);
          ("created_at", JStr "2024-03-01T00:00:00");
          ("updated_at", JStr "2024-03-02T00:00:00") ].

(** An order service that lists that order for every user. *)
Definition sloppy : env :=
  Sample.env_of (fun _ =>
    Sample.ok (JDict [("orders", JList [order_nowhere]); ("total", JInt 1);
                      ("user_id", JStr "u1")])).

(** ** Counting the orders of a user *)



(** * Properties *)

(** ** The resolvers, as functions of the backend's answer *)

Ltac run_monad :=
  unfold try_except, bind, send, lift, ret, print, fmt, log_call, log_print;
  simpl.

Lemma try_block_run {A} (ok_status : Z) (construct : json -> result A)
    (req : request) (E : env) (w : world) :
  (response <- send req ;;
   if status_code response =? ok_status then
     d <- lift (response_json response) ;;
     a <- lift (construct d) ;;
     ret (Some a)
   else ret None) E w
  = (try_outcome ok_status construct (backend E req), log_call req w).
Proof.
  run_monad. unfold try_outcome.
  destruct (backend E req) as [|r]; [reflexivity|].
  destruct (status_code r =? ok_status); [|reflexivity].
  destruct (response_json r) as [d|e]; simpl; [|reflexivity].
  destruct (construct d); reflexivity.
Qed.

(** A resolver that swallows what it catches. *)
Lemma silent_try_run {A} (ok_status : Z) (construct : json -> result A)
    (req : request) (E : env) (w : world) :
  try_except
    (response <- send req ;;
     if status_code response =? ok_status then
       d <- lift (response_json response) ;;
       a <- lift (construct d) ;;
       ret (Some a)
     else ret None)
    (fun _ => ret None) E w
  = (Ok (returned (try_outcome ok_status construct (backend E req))),
     log_call req w).
Proof.
  unfold try_except at 1. rewrite try_block_run.
  destruct (try_outcome _ _ _); reflexivity.
Qed.

(** A resolver that prints what it catches. *)
Lemma printing_try_run {A} (ok_status : Z) (construct : json -> result A)
    (msg : string) (req : request) (E : env) (w : world) :
  try_except
    (response <- send req ;;
     if status_code response =? ok_status then
       d <- lift (response_json response) ;;
       a <- lift (construct d) ;;
       ret (Some a)
     else ret None)
    (fun e => print msg e ;;; ret None) E w
  = (Ok (returned (try_outcome ok_status construct (backend E req))),
     after_try msg req (try_outcome ok_status construct (backend E req)) w).
Proof.
  unfold try_except at 1. rewrite try_block_run.
  destruct (try_outcome _ _ _); reflexivity.
Qed.

Lemma product_of_reply_outcome (rp : reply) :
  product_of_reply rp = returned (try_outcome 200 Product.construct rp).
Proof.
  destruct rp as [|r]; simpl; [reflexivity|].
  destruct (status_code r =? 200); [|reflexivity].
  unfold response_json. destruct (content r) as [d|]; simpl; [|reflexivity].
  destruct (Product.construct d); reflexivity.
Qed.

Lemma Query_product_run (pid : string) (E : env) (w : world) :
  Query.product pid E w
  = (Ok (product_of_reply (backend E (catalog_item_request pid))),
     log_call (catalog_item_request pid) w).
Proof.
  unfold Query.product. rewrite silent_try_run.
  now rewrite product_of_reply_outcome.
Qed.

Lemma OrderItem_product_run (it : OrderItem.t) (E : env) (w : world) :
  OrderItem.product it E w
  = (Ok (product_of_reply
           (backend E (catalog_item_request
                         (format E (OrderItem.product_id it))))),
     log_call (catalog_item_request (format E (OrderItem.product_id it))) w).
Proof.
  unfold OrderItem.product.
  change (try_except _ _ E w)
    with (Query.product (format E (OrderItem.product_id it)) E w).
  apply Query_product_run.
Qed.

Lemma Query_user_orders_run (uid : string) (E : env) (w : world) :
  let req := user_orders_request uid 50 in
  let t := try_outcome 200 construct_orders (backend E req) in
  Query.user_orders uid E w
  = (Ok (default [] (returned t)),
     after_try "Error fetching user orders: " req t w).
Proof.
  intros req t. unfold Query.user_orders, bind at 1.
  rewrite printing_try_run. reflexivity.
Qed.

Lemma User_orders_run (u : User.t) (E : env) (w : world) :
  let req := user_orders_request (format E (User.id u)) 100 in
  let t := try_outcome 200 construct_orders (backend E req) in
  User.orders u E w
  = (Ok (default [] (returned t)),
     after_try "Error fetching orders: " req t w).
Proof.
  intros req t. unfold User.orders, bind at 1.
  change (try_except _ _ E w)
    with (try_except
            (response <- send req ;;
             if status_code response =? 200 then
               data <- lift (response_json response) ;;
               orders <- lift (construct_orders data) ;;
               ret (Some orders)
             else ret None)
            (fun e => print "Error fetching orders: " e ;;; ret None) E w).
  rewrite printing_try_run. reflexivity.
Qed.

Lemma Query_products_run category min_price max_price search limit
    (E : env) (w : world) :
  let req := products_request category min_price max_price search limit in
  let t := try_outcome 200 construct_products (backend E req) in
  Query.products category min_price max_price search limit E w
  = (Ok (default [] (returned t)),
     after_try "Error fetching products: " req t w).
Proof.
  intros req t. unfold Query.products, bind at 1.
  rewrite printing_try_run. reflexivity.
Qed.

Lemma Query_order_run (id : string) (E : env) (w : world) :
  let req := order_request id in
  let t := try_outcome 200 Order.construct (backend E req) in
  Query.order id E w
  = (Ok (returned t), after_try "Error fetching order: " req t w).
Proof. intros req t. unfold Query.order. apply printing_try_run. Qed.

Lemma Mutation_create_order_run user_id items shipping_address
    (E : env) (w : world) :
  let req := create_order_request user_id items shipping_address in
  let t := try_outcome 201 Order.construct (backend E req) in
  Mutation.create_order user_id items shipping_address E w
  = (Ok (returned t), after_try "Error creating order: " req t w).
Proof. intros req t. unfold Mutation.create_order. apply printing_try_run. Qed.

Lemma after_try_calls {A} msg req (t : result (option A)) w :
  calls (after_try msg req t w) = calls w ++ [req].
Proof. destruct t; reflexivity. Qed.

Lemma after_try_errors {A} msg req (t : result (option A)) w :
  errors (after_try msg req t w) = errors w.
Proof. destruct t; reflexivity. Qed.

(** ** The engine over pure steps *)

Lemma resolve_ok {A} (path : list segment) (m : M A) (E : env) (w w' : world)
    (a : A) :
  m E w = (Ok a, w') -> Engine.resolve path m E w = (Ok (Some a), w').
Proof.
  intros H. unfold Engine.resolve, try_except, bind, ret. now rewrite H.
Qed.

Lemma mapM_pure {A B} (f : A -> M B) (g : A -> B) (h : A -> world -> world)
    (E : env) (l : list A) :
  (forall x w, f x E w = (Ok (g x), h x w)) ->
  forall w,
    Engine.mapM f l E w = (Ok (map g l), fold_left (fun w x => h x w) l w).
Proof.
  intros Hf. induction l as [|x l IH]; intros w; simpl; [reflexivity|].
  unfold bind at 1. rewrite Hf. unfold bind at 1. rewrite IH. reflexivity.
Qed.

Lemma mapM_from_pure {A B} (f : nat -> A -> M B) (g : A -> B)
    (h : A -> world -> world) (E : env) (l : list A) :
  (forall i x w, f i x E w = (Ok (g x), h x w)) ->
  forall i w,
    Engine.mapM_from i f l E w
    = (Ok (map g l), fold_left (fun w x => h x w) l w).
Proof.
  intros Hf. induction l as [|x l IH]; intros i w; simpl; [reflexivity|].
  unfold bind at 1. rewrite Hf. unfold bind at 1. rewrite IH. reflexivity.
Qed.

(** Steps that never raise and keep some reading [phi] of the world keep it
    along a whole list. *)
Lemma mapM_keeps {A B T} (phi : world -> T) (f : A -> M B) (E : env)
    (l : list A) :
  Forall (fun x => forall w, exists y w',
                     f x E w = (Ok y, w') /\ phi w' = phi w) l ->
  forall w, exists ys w',
    Engine.mapM f l E w = (Ok ys, w') /\ phi w' = phi w.
Proof.
  induction 1 as [|x l Hx _ IH]; intros w; simpl.
  - exists [], w. split; reflexivity.
  - destruct (Hx w) as (y & w1 & Hy & H1).
    destruct (IH w1) as (ys & w2 & Hys & H2).
    exists (y :: ys), w2. unfold bind at 1. rewrite Hy.
    unfold bind at 1. rewrite Hys. split; [reflexivity | congruence].
Qed.

Lemma mapM_from_keeps {A B T} (phi : world -> T) (f : nat -> A -> M B)
    (E : env) (l : list A) :
  Forall (fun x => forall i w, exists y w',
                     f i x E w = (Ok y, w') /\ phi w' = phi w) l ->
  forall i w, exists ys w',
    Engine.mapM_from i f l E w = (Ok ys, w') /\ phi w' = phi w.
Proof.
  induction 1 as [|x l Hx _ IH]; intros i w; simpl.
  - exists [], w. split; reflexivity.
  - destruct (Hx i w) as (y & w1 & Hy & H1).
    destruct (IH (S i) w1) as (ys & w2 & Hys & H2).
    exists (y :: ys), w2. unfold bind at 1. rewrite Hy.
    unfold bind at 1. rewrite Hys. split; [reflexivity | congruence].
Qed.

(** ** Order items *)

Lemma item_field_value_run (path : list segment) (it : OrderItem.t)
    (f : item_field) (E : env) (w : world) :
  Engine.item_field_value path it f E w
  = (Ok (item_field_pure E it f), item_field_world E it f w).
Proof.
  destruct f; try reflexivity.
  unfold Engine.item_field_value, bind at 1.
  rewrite (resolve_ok _ _ _ _ _ _ (OrderItem_product_run it E w)).
  reflexivity.
Qed.

Lemma item_object_run (sub : list item_field) (path : list segment)
    (it : OrderItem.t) (E : env) (w : world) :
  Engine.item_object sub path it E w
  = (Ok (item_pure E sub it), item_world E sub it w).
Proof.
  unfold Engine.item_object, bind at 1.
  rewrite (mapM_pure _ (item_field_pure E it) (item_field_world E it) E sub
             (fun f => item_field_value_run path it f E)).
  reflexivity.
Qed.

Lemma item_field_world_errors E it f w :
  errors (item_field_world E it f w) = errors w.
Proof. unfold item_field_world. destruct (asks_product f); reflexivity. Qed.

Lemma item_world_errors E sub it w :
  errors (item_world E sub it w) = errors w.
Proof.
  unfold item_world. revert w.
  induction sub as [|f sub IH]; intros w; simpl; [reflexivity|].
  rewrite IH. apply item_field_world_errors.
Qed.

Lemma item_world_calls E sub it w :
  calls (item_world E sub it w)
  = calls w ++ repeat (catalog_item_request (format E (OrderItem.product_id it)))
                      (product_requests sub).
Proof.
  unfold item_world, product_requests. revert w.
  induction sub as [|f sub IH]; intros w; simpl.
  - now rewrite app_nil_r.
  - rewrite IH. unfold item_field_world.
    destruct (asks_product f); simpl; [|reflexivity].
    now rewrite <- app_assoc.
Qed.

Lemma items_world_errors E sub its w :
  errors (fold_left (fun w it => item_world E sub it w) its w) = errors w.
Proof.
  revert w. induction its as [|it its IH]; intros w; simpl; [reflexivity|].
  rewrite IH. apply item_world_errors.
Qed.

Lemma order_items_run (sub : list item_field) (path : list segment)
    (o : Order.t) (E : env) (w : world) :
  Engine.order_field_value path o (OItems sub) E w
  = (Ok ("items", JList (map (item_pure E sub) (Order.items o))),
     fold_left (fun w it => item_world E sub it w) (Order.items o) w).
Proof.
  unfold Engine.order_field_value, bind at 1.
  rewrite (mapM_from_pure _ (item_pure E sub) (item_world E sub) E
             (Order.items o)
             (fun i it => item_object_run sub _ it E)).
  reflexivity.
Qed.

(** ** C1: a failed product lookup *)

Lemma product_of_failed_reply (rp : reply) :
  read_failed rp = true -> product_of_reply rp = None.
Proof.
  destruct rp as [|r]; simpl; [reflexivity|].
  destruct (status_code r =? 200); [discriminate | reflexivity].
Qed.

(** C1, as amended.  When the catalog lookup for a product fails (the
    catalog is unavailable or answers anything but 200, a 404 included),
    the top-level [product] field and the [product] field of an order item
    resolve to null, and the resolver swallows the failure: the world
    afterwards differs by the one call only ([log_call] leaves the errors
    list alone), so no error entry is appended.  The sibling fields of the
    item and the sibling items are not aborted: every field of every item
    has the value [item_field_pure] gives it from the item and from the
    catalog's answer for that item alone. *)
Theorem C1_failed_lookup_is_null_without_error (E : env) (pid : string) :
  read_failed (backend E (catalog_item_request pid)) = true ->
  (forall w sub,
     Engine.query_field_value (QProduct pid sub) E w
     = (Ok ("product", JNull), log_call (catalog_item_request pid) w))
  /\ (forall w path it sub,
        format E (OrderItem.product_id it) = pid ->
        Engine.item_field_value path it (IProduct sub) E w
        = (Ok ("product", JNull), log_call (catalog_item_request pid) w))
  /\ (forall w path it fs,
        exists w',
          Engine.item_object fs path it E w
          = (Ok (JDict (map (item_field_pure E it) fs)), w')
          /\ errors w' = errors w)
  /\ (forall w path o fs,
        exists w',
          Engine.order_field_value path o (OItems fs) E w
          = (Ok ("items", JList (map (item_pure E fs) (Order.items o))), w')
          /\ errors w' = errors w).
Proof.
  intros Hfail. repeat split.
  - intros w sub. unfold Engine.query_field_value, bind at 1.
    rewrite (resolve_ok _ _ _ _ _ _ (Query_product_run pid E w)).
    now rewrite (product_of_failed_reply _ Hfail).
  - intros w path it sub Hpid. rewrite item_field_value_run.
    unfold item_field_pure, item_field_world. simpl. rewrite Hpid.
    now rewrite (product_of_failed_reply _ Hfail).
  - intros w path it fs. eexists. rewrite item_object_run.
    split; [reflexivity | apply item_world_errors].
  - intros w path o fs. eexists. rewrite order_items_run.
    split; [reflexivity | apply items_world_errors].
Qed.

Lemma C1_witness :
  Engine.query_field_value (QProduct "p1" [PName]) Sample.not_found init
  = (Ok ("product", JNull), log_call (catalog_item_request "p1") init).
Proof.
  exact (proj1 (C1_failed_lookup_is_null_without_error
                  Sample.not_found "p1" eq_refl) init [PName]).
Defined.

(** C1 as the specification states it asks for one error entry with the
    field's path; the 404 of its own scenario leaves the list empty. *)
Lemma C1_counterexample :
  Engine.data (Engine.execute_query Sample.not_found [QProduct "p1" [PName]])
  = Ok (JDict [("product", JNull)])
  /\ errors (Engine.final
               (Engine.execute_query Sample.not_found [QProduct "p1" [PName]]))
     = [].
Proof. split; reflexivity. Qed.

(** ** C2: which calls a query issues *)

Lemma items_world_calls E sub its w :
  calls (fold_left (fun w it => item_world E sub it w) its w)
  = calls w ++ item_calls E sub its.
Proof.
  unfold item_calls. revert w.
  induction its as [|it its IH]; intros w; simpl.
  - now rewrite app_nil_r.
  - rewrite IH, item_world_calls. now rewrite <- app_assoc.
Qed.

Lemma item_scalars_no_requests (sub : list item_field) :
  item_scalars_only sub = true -> product_requests sub = 0%nat.
Proof.
  unfold item_scalars_only, product_requests.
  induction sub as [|f sub IH]; simpl; [reflexivity|].
  destruct (asks_product f); simpl; [discriminate | exact IH].
Qed.

Lemma item_calls_scalars E sub its :
  item_scalars_only sub = true -> item_calls E sub its = [].
Proof.
  intros H. unfold item_calls. rewrite (item_scalars_no_requests _ H).
  induction its as [|it its IH]; simpl; [reflexivity | exact IH].
Qed.

Lemma address_keeps_calls (path : list segment) (o : Order.t) (E : env)
    (w : world) :
  exists r w',
    Engine.resolve path (Order.address o) E w = (Ok r, w')
    /\ calls w' = calls w.
Proof.
  unfold Engine.resolve, Order.address, Engine.record_error.
  run_monad. destruct (Order.shipping_address o); simpl; eauto.
Qed.

Lemma order_field_keeps_calls (path : list segment) (o : Order.t)
    (f : order_field) (E : env) (w : world) :
  match f with OItems isub => item_scalars_only isub | _ => true end = true ->
  exists y w',
    Engine.order_field_value path o f E w = (Ok y, w') /\ calls w' = calls w.
Proof.
  intros Hf. destruct f; try (eexists _, w; split; reflexivity).
  - destruct (address_keeps_calls (path ++ [Key "address"]) o E w)
      as (r & w' & Hr & Hc).
    exists ("address", default JNull r), w'.
    unfold Engine.order_field_value, bind at 1. rewrite Hr. now split.
  - eexists _, _. rewrite order_items_run. split; [reflexivity|].
    rewrite items_world_calls, (item_calls_scalars _ _ _ Hf).
    apply app_nil_r.
Qed.

Lemma order_object_keeps_calls (sub : list order_field)
    (path : list segment) (o : Order.t) (E : env) (w : world) :
  order_scalars_only sub = true ->
  exists v w',
    Engine.order_object sub path o E w = (Ok v, w') /\ calls w' = calls w.
Proof.
  intros Hsub.
  destruct (mapM_keeps calls (Engine.order_field_value path o) E sub)
    with (w := w) as (ys & w' & Hys & Hc).
  - apply Forall_forall. intros f Hin w0.
    apply order_field_keeps_calls.
    unfold order_scalars_only in Hsub. rewrite forallb_forall in Hsub.
    apply Hsub. now apply list_elem_of_In.
  - exists (JDict ys), w'. unfold Engine.order_object, bind at 1.
    rewrite Hys. now split.
Qed.

Lemma order_list_keeps_calls (sub : list order_field) (path : list segment)
    (os : list Order.t) (E : env) (w : world) :
  order_scalars_only sub = true ->
  exists v w',
    Engine.order_list sub path os E w = (Ok v, w') /\ calls w' = calls w.
Proof.
  intros Hsub.
  destruct (mapM_from_keeps calls
              (fun i => Engine.order_object sub (path ++ [Index i])) E os)
    with (i := 0%nat) (w := w) as (ys & w' & Hys & Hc).
  - apply Forall_forall. intros o _ i w0.
    now apply order_object_keeps_calls.
  - exists (JList ys), w'. unfold Engine.order_list, bind at 1.
    rewrite Hys. now split.
Qed.


Lemma Query_user_run (id : string) (E : env) (w : world) :
  Query.user id E w = (Ok (Some (stub_user E w id)), after_user w).
Proof. reflexivity. Qed.











(** ** C3, C4, C6: the createOrder mutation *)

Lemma create_order_calls user_id items shipping_address (E : env) (w : world) :
  exists r w',
    Mutation.create_order user_id items shipping_address E w = (Ok r, w')
    /\ calls w' = calls w ++ [create_order_request user_id items shipping_address]
    /\ errors w' = errors w.
Proof.
  eexists _, _. rewrite Mutation_create_order_run.
  split; [reflexivity|]. split; [apply after_try_calls | apply after_try_errors].
Qed.

Lemma failed_write_outcome (rp : reply) :
  write_failed rp = true ->
  returned (try_outcome 201 Order.construct rp) = None.
Proof.
  destruct rp as [|r]; simpl; [reflexivity|].
  destruct (status_code r =? 201); [discriminate | reflexivity].
Qed.

Lemma failed_write_is_null user_id items shipping_address sub
    (E : env) (w : world) :
  write_failed
    (backend E (create_order_request user_id items shipping_address)) = true ->
  exists w',
    Mutation.create_order user_id items shipping_address E w = (Ok None, w')
    /\ Engine.mutation_field_value
         (MCreateOrder user_id items shipping_address sub) E w
       = (Ok ("createOrder", JNull), w')
    /\ calls w'
       = calls w ++ [create_order_request user_id items shipping_address]
    /\ errors w' = errors w.
Proof.
  intros Hfail.
  pose proof (Mutation_create_order_run user_id items shipping_address E w)
    as Hrun. cbv zeta in Hrun.
  rewrite (failed_write_outcome _ Hfail) in Hrun.
  eexists. split; [exact Hrun|]. split.
  - unfold Engine.mutation_field_value, bind at 1.
    rewrite (resolve_ok _ _ _ _ _ _ Hrun). reflexivity.
  - split; [apply after_try_calls | apply after_try_errors].
Qed.

(** C3, as amended.  An invocation of createOrder with an empty items list
    is not rejected by the gateway: it is forwarded in exactly one POST to
    the order service, carrying the empty list.  The rejection is the
    order service's, whose model of the body asks for at least one item:
    it answers 422 and stores nothing; on such an answer the mutation
    resolves to null, with no error entry. *)
Theorem C3_empty_items_are_forwarded_then_rejected :
  (forall E w user_id shipping_address,
     exists r w',
       Mutation.create_order user_id [] shipping_address E w = (Ok r, w')
       /\ calls w'
          = calls w ++ [create_order_request user_id [] shipping_address])
  /\ (forall ops order_id current_time body orders_db,
        OrderService.oc_items body = [] ->
        OrderService.post_orders ops order_id current_time body orders_db
        = (422, None, orders_db))
  /\ (forall E w user_id shipping_address sub r,
        backend E (create_order_request user_id [] shipping_address) = Reply r ->
        status_code r = 422 ->
        exists w',
          Engine.mutation_field_value
            (MCreateOrder user_id [] shipping_address sub) E w
          = (Ok ("createOrder", JNull), w')
          /\ errors w' = errors w).
Proof.
  repeat split.
  - intros E w user_id addr.
    destruct (create_order_calls user_id [] addr E w) as (r & w' & H & Hc & _).
    now exists r, w'.
  - intros ops oid now body db Hitems.
    unfold OrderService.post_orders, OrderService.OrderCreate_valid,
      OrderService.report_renders.
    now rewrite Hitems.
  - intros E w user_id addr sub r Hr Hst.
    destruct (failed_write_is_null user_id [] addr sub E w)
      as (w' & _ & H & _ & He).
    + rewrite Hr. simpl. now rewrite Hst.
    + now exists w'.
Qed.

Lemma C3_witness :
  OrderService.post_orders Sample.ieee "ORD-9" "2024-05-01T12:00:00"
    (OrderService.mkOrderCreate "u1" [] [("city", JStr "Riga")] "card") ∅
  = (422, None, ∅).
Proof.
  exact (proj1 (proj2 C3_empty_items_are_forwarded_then_rejected)
           Sample.ieee "ORD-9" "2024-05-01T12:00:00"
           (OrderService.mkOrderCreate "u1" [] [("city", JStr "Riga")] "card")
           ∅ eq_refl).
Defined.

(** C3 as the specification states it asks for no HTTP call at all; the
    empty list goes out in one POST. *)
Lemma C3_counterexample :
  calls (Engine.final
           (Engine.execute_mutation Sample.unprocessable
              [MCreateOrder "u1" [] Sample.address [OId]]))
  = [create_order_request "u1" [] Sample.address].
Proof. reflexivity. Qed.

(** C4, as amended.  When the write to the order service fails (the
    service is unavailable or times out, or it answers anything but 201),
    createOrder returns null and the response carries null under
    [createOrder]; exactly one POST has been issued, so nothing is retried;
    no order is returned.  No error entry is recorded: the errors list is
    as it was (an exception is printed and swallowed). *)
Theorem C4_failed_write_is_null_without_error (E : env) (w : world)
    (user_id : string) (items : list json) (shipping_address : json)
    (sub : list order_field) :
  write_failed
    (backend E (create_order_request user_id items shipping_address)) = true ->
  exists w',
    Mutation.create_order user_id items shipping_address E w = (Ok None, w')
    /\ Engine.mutation_field_value
         (MCreateOrder user_id items shipping_address sub) E w
       = (Ok ("createOrder", JNull), w')
    /\ calls w'
       = calls w ++ [create_order_request user_id items shipping_address]
    /\ errors w' = errors w.
Proof. apply failed_write_is_null. Qed.

Lemma C4_witness :
  exists w',
    Mutation.create_order "u1" [Sample.line "p1" "Laptop"] Sample.address
      Sample.down init = (Ok None, w')
    /\ Engine.mutation_field_value
         (MCreateOrder "u1" [Sample.line "p1" "Laptop"] Sample.address [OId])
         Sample.down init
       = (Ok ("createOrder", JNull), w')
    /\ calls w'
       = calls init
         ++ [create_order_request "u1" [Sample.line "p1" "Laptop"]
               Sample.address]
    /\ errors w' = errors init.
Proof.
  exact (C4_failed_write_is_null_without_error Sample.down init "u1"
           [Sample.line "p1" "Laptop"] Sample.address [OId] eq_refl).
Defined.

(** C4 as the specification states it asks for a recorded error entry for
    the path createOrder; with the order service unreachable the list
    stays empty. *)
Lemma C4_counterexample :
  Engine.data
    (Engine.execute_mutation Sample.down
       [MCreateOrder "u1" [Sample.line "p1" "Laptop"] Sample.address [OId]])
  = Ok (JDict [("createOrder", JNull)])
  /\ errors
       (Engine.final
          (Engine.execute_mutation Sample.down
             [MCreateOrder "u1" [Sample.line "p1" "Laptop"] Sample.address
                [OId]]))
     = [].
Proof. split; reflexivity. Qed.

(** C6, as amended.  The createOrder mutation takes a user id, a list of
    items (JSON values, possibly none) and a shipping address; it takes no
    payment method.  Every invocation issues exactly one call, a POST to
    the order service whose body carries the three inputs and the payment
    method ["card"]. *)
Theorem C6_one_write_carrying_the_inputs (E : env) (w : world)
    (user_id : string) (items : list json) (shipping_address : json) :
  let req := create_order_request user_id items shipping_address in
  (exists r w',
     Mutation.create_order user_id items shipping_address E w = (Ok r, w')
     /\ calls w' = calls w ++ [req])
  /\ req_method req = POST
  /\ req_url req = "http://order-service:5000/api/v1/orders"
  /\ (exists body,
        req_json req = Some body
        /\ Py.getitem body "user_id" = Ok (JStr user_id)
        /\ Py.getitem body "items" = Ok (JList items)
        /\ Py.getitem body "shipping_address" = Ok shipping_address
        /\ Py.getitem body "payment_method" = Ok (JStr "card")).
Proof.
  intros req. split.
  - destruct (create_order_calls user_id items shipping_address E w)
      as (r & w' & H & Hc & _). now exists r, w'.
  - repeat split. eexists. repeat split.
Qed.

(** C6 as the specification states it has the mutation accept a payment
    method tag and forward it; no invocation forwards any tag but
    ["card"]. *)
Lemma C6_counterexample :
  ~ exists user_id items shipping_address,
      Py.getitem (create_order_payload user_id items shipping_address)
                 "payment_method"
      = Ok (JStr "paypal").
Proof. intros (user_id & items & addr & H). discriminate H. Qed.

(** ** C5: the scalars of an order pass through *)

Lemma rbind_Ok {A B} (r : result A) (k : A -> result B) (b : B) :
  Py.rbind r k = Ok b -> exists a, r = Ok a /\ k a = Ok b.
Proof. destruct r as [a|e]; simpl; [eauto | discriminate]. Qed.

Lemma rmap_Ok {A B} (f : A -> result B) (l : list A) (ys : list B) :
  Py.rmap f l = Ok ys -> Forall2 (fun x y => f x = Ok y) l ys.
Proof.
  revert ys. induction l as [|x l IH]; intros ys H; simpl in H.
  - injection H as <-. constructor.
  - apply rbind_Ok in H as (y & Hy & H).
    apply rbind_Ok in H as (ys' & Hys & H).
    injection H as <-. constructor; [exact Hy | now apply IH].
Qed.

Ltac open_rbind H :=
  let a := fresh "v" in
  let Ha := fresh "Hv" in
  apply rbind_Ok in H as (a & Ha & H).

Lemma Order_construct_scalars (order_data : json) (o : Order.t) :
  Order.construct order_data = Ok o -> same_scalars order_data o.
Proof.
  intros H. unfold Order.construct in H.
  do 14 open_rbind H. injection H as <-.
  unfold same_scalars. simpl. auto.
Qed.

Lemma returned_Some {A} (ok_status : Z) (construct : json -> result A)
    (rp : reply) (a : A) :
  returned (try_outcome ok_status construct rp) = Some a ->
  exists r d,
    rp = Reply r /\ status_code r = ok_status
    /\ content r = Some d /\ construct d = Ok a.
Proof.
  destruct rp as [|r]; simpl; [discriminate|].
  destruct (Z.eqb_spec (status_code r) ok_status) as [Hst|]; [|discriminate].
  unfold response_json.
  destruct (content r) as [d|] eqn:Hd; simpl; [|discriminate].
  destruct (construct d) as [a'|] eqn:Hc; simpl; [|discriminate].
  intros [= <-]. now exists r, d.
Qed.

Lemma construct_orders_each (data : json) (os : list Order.t) :
  construct_orders data = Ok os ->
  exists raw l,
    Py.getitem data "orders" = Ok raw /\ Py.iter raw = Ok l
    /\ Forall2 same_scalars l os.
Proof.
  intros H. unfold construct_orders in H.
  apply rbind_Ok in H as (raw & Hraw & H).
  apply rbind_Ok in H as (l & Hl & H).
  exists raw, l. repeat split; [assumption..|].
  apply rmap_Ok in H. eapply Forall2_impl; [exact H|].
  intros od o. apply Order_construct_scalars.
Qed.

Lemma fetched_orders_each (rp : reply) (os : list Order.t) :
  default [] (returned (try_outcome 200 construct_orders rp)) = os ->
  os <> [] ->
  exists r d raw l,
    rp = Reply r /\ content r = Some d
    /\ Py.getitem d "orders" = Ok raw /\ Py.iter raw = Ok l
    /\ Forall2 same_scalars l os.
Proof.
  intros H Hne.
  destruct (returned _) as [os'|] eqn:Hret; simpl in H; [|congruence].
  subst os'. apply returned_Some in Hret as (r & d & Hr & _ & Hd & Ho).
  apply construct_orders_each in Ho as (raw & l & Hraw & Hl & Hall).
  now exists r, d, raw, l.
Qed.

(** ** C7: the order service computes the total *)

(** A body that passes validation is stored as soon as its total
    computes, and answered 201 when the order can be written. *)
Lemma post_orders_accepts (ops : float_ops) (order_id current_time : string)
    (body : OrderService.OrderCreate)
    (orders_db : gmap string OrderService.order) (total : float) :
  OrderService.OrderCreate_valid body = true ->
  OrderService.calculate_total ops (OrderService.oc_items body) = Ok total ->
  exists o,
    OrderService.post_orders ops order_id current_time body orders_db
    = (if OrderService.order_renders o then (201, Some o) else (500, None),
       <[order_id := o]> orders_db)
    /\ OrderService.total_amount o = total.
Proof.
  intros Hvalid Htotal. unfold OrderService.post_orders.
  rewrite Hvalid. unfold OrderService.create_order. rewrite Htotal. simpl.
  match goal with |- context [OrderService.order_renders ?o] => exists o end.
  split; [|reflexivity].
  now destruct (OrderService.order_renders _).
Qed.

(** C7.  When the order service accepts a creation request (it answers
    201), the order it returns is the one it has stored under the new id;
    its [total_amount] is Python's [sum] of the products unit price times
    quantity, one per item in the order of the items; its [status] and its
    [payment_status] are ["pending"]. *)
Theorem C7_accepted_order_total_and_status (ops : float_ops)
    (order_id current_time : string) (body : OrderService.OrderCreate)
    (orders_db db' : gmap string OrderService.order)
    (o : OrderService.order) :
  OrderService.post_orders ops order_id current_time body orders_db
  = (201, Some o, db') ->
  (exists lines,
     Forall2 (fun it x =>
                exists q,
                  float_of_int ops (OrderService.quantity it) = Ok q
                  /\ x = PrimFloat.mul (OrderService.price it) q)
             (OrderService.items o) lines
     /\ OrderService.total_amount o = py_sum ops lines)
  /\ OrderService.status o = "pending"
  /\ OrderService.payment_status o = "pending"
  /\ OrderService.items o = OrderService.oc_items body
  /\ OrderService.id o = order_id
  /\ db' !! order_id = Some o.
Proof.
  unfold OrderService.post_orders.
  destruct (OrderService.OrderCreate_valid body);
    [|destruct (OrderService.report_renders body); discriminate].
  destruct (OrderService.create_order _ _ _ _ _) as [[o' d']|e] eqn:Hc;
    [|discriminate].
  destruct (OrderService.order_renders o'); [|discriminate].
  intros [= -> ->]. unfold OrderService.create_order in Hc.
  apply rbind_Ok in Hc as (total & Ht & Hc). injection Hc as <- <-.
  unfold OrderService.calculate_total in Ht.
  apply rbind_Ok in Ht as (lines & Hl & Ht). injection Ht as <-.
  simpl. split.
  - exists lines. split; [|reflexivity].
    apply rmap_Ok in Hl. eapply Forall2_impl; [exact Hl|].
    intros it x Hx. unfold OrderService.line_total in Hx.
    apply rbind_Ok in Hx as (q & Hq & Hx). injection Hx as <-. now exists q.
  - repeat split. apply lookup_insert_eq.
Qed.

Lemma C7_witness :
  OrderService.total_amount order9 = 60.5%float
  /\ OrderService.status order9 = "pending"
  /\ (<["ORD-9" := order9]> ∅ : gmap string OrderService.order) !! "ORD-9"
     = Some order9.
Proof.
  assert (Hpost :
    OrderService.post_orders Sample.ieee "ORD-9" "2024-05-01T12:00:00"
      Sample.basket ∅
    = (201, Some order9, <["ORD-9" := order9]> ∅))
    by (vm_compute; reflexivity).
  destruct (C7_accepted_order_total_and_status Sample.ieee "ORD-9"
              "2024-05-01T12:00:00" Sample.basket ∅ _ order9 Hpost)
    as (_ & Hs & _ & _ & _ & Hdb).
  split; [reflexivity|]. split; [exact Hs | exact Hdb].
Defined.

(** ** C8: the product adapter *)

Lemma Product_construct_object (d : list (string * json)) :
  Product.construct (JDict d)
  = match Py.assoc "id" d, Py.assoc "name" d, Py.assoc "price" d,
          Py.assoc "category" d, Py.assoc "created_at" d,
          Py.assoc "updated_at" d with
    | Some v_id, Some v_name, Some v_price, Some v_category,
      Some v_created_at, Some v_updated_at =>
        Ok (Product.mk v_id v_name
              (default JNull (Py.assoc "description" d))
              v_price v_category
              (default (JInt 0) (Py.assoc "stock" d))
              (default JNull (Py.assoc "image_url" d))
              v_created_at v_updated_at)
    | None, _, _, _, _, _ => Raise (KeyError "id")
    | _, None, _, _, _, _ => Raise (KeyError "name")
    | _, _, None, _, _, _ => Raise (KeyError "price")
    | _, _, _, None, _, _ => Raise (KeyError "category")
    | _, _, _, _, None, _ => Raise (KeyError "created_at")
    | _, _, _, _, _, None => Raise (KeyError "updated_at")
    end.
Proof.
  unfold Product.construct, Py.get, Py.get_default, Py.getitem.
  destruct (Py.assoc "id" d); simpl; [|reflexivity].
  destruct (Py.assoc "name" d); simpl; [|reflexivity].
  destruct (Py.assoc "price" d); simpl; [|reflexivity].
  destruct (Py.assoc "category" d); simpl; [|reflexivity].
  destruct (Py.assoc "created_at" d); simpl; [|reflexivity].
  destruct (Py.assoc "updated_at" d); reflexivity.
Qed.

Ltac in_list :=
  repeat first [ apply list_elem_of_here | apply list_elem_of_further ].

Lemma Product_construct_not_object (data : json) :
  (forall d, data <> JDict d) -> Product.construct data = Raise TypeError.
Proof.
  intros H. destruct data; try reflexivity. now destruct (H d).
Qed.

Lemma swallowed_product (pid : string) (sub : list product_field) (E : env)
    (w : world) (r : response) :
  backend E (catalog_item_request pid) = Reply r ->
  (forall d, content r = Some d -> exists e, Product.construct d = Raise e) ->
  Query.product pid E w = (Ok None, log_call (catalog_item_request pid) w)
  /\ Engine.query_field_value (QProduct pid sub) E w
     = (Ok ("product", JNull), log_call (catalog_item_request pid) w).
Proof.
  intros Hr Hbad.
  assert (Hnone : product_of_reply (backend E (catalog_item_request pid))
                  = None).
  { rewrite Hr. simpl. destruct (status_code r =? 200); [|reflexivity].
    destruct (content r) as [d|]; [|reflexivity].
    destruct (Hbad d eq_refl) as (e & ->). reflexivity. }
  pose proof (Query_product_run pid E w) as Hrun. rewrite Hnone in Hrun.
  split; [exact Hrun|].
  unfold Engine.query_field_value, bind at 1.
  now rewrite (resolve_ok _ _ _ _ _ _ Hrun).
Qed.

(** What a product lookup yields when the catalog answers 200 with a
    payload the adapter accepts, and when it answers with one the adapter
    raises on. *)
Lemma product_of_built (r : response) (data : json) (p : Product.t) :
  status_code r = 200 -> content r = Some data ->
  Product.construct data = Ok p ->
  product_of_reply (Reply r) = Some p.
Proof.
  intros Hst Hd Hp. simpl. rewrite Hst, Hd, Hp. reflexivity.
Qed.

Lemma product_of_raised (r : response) (data : json) (e : exn) :
  content r = Some data -> Product.construct data = Raise e ->
  product_of_reply (Reply r) = None.
Proof.
  intros Hd Hp. simpl. rewrite Hd, Hp.
  now destruct (status_code r =? 200).
Qed.

(** Both product resolvers, and the fields they stand behind, as functions
    of what the lookup yields. *)
Lemma product_fields_run (E : env) (w : world) (pid : string)
    (sub : list product_field) (found : option Product.t) :
  product_of_reply (backend E (catalog_item_request pid)) = found ->
  Query.product pid E w = (Ok found, log_call (catalog_item_request pid) w)
  /\ Engine.query_field_value (QProduct pid sub) E w
     = (Ok ("product", Engine.optional_product sub (Some found)),
        log_call (catalog_item_request pid) w)
  /\ (forall it path,
        format E (OrderItem.product_id it) = pid ->
        OrderItem.product it E w
        = (Ok found, log_call (catalog_item_request pid) w)
        /\ Engine.item_field_value path it (IProduct sub) E w
           = (Ok ("product", Engine.optional_product sub (Some found)),
              log_call (catalog_item_request pid) w)).
Proof.
  intros Hfound.
  pose proof (Query_product_run pid E w) as Hrun. rewrite Hfound in Hrun.
  split; [exact Hrun|]. split.
  - unfold Engine.query_field_value, bind at 1.
    now rewrite (resolve_ok _ _ _ _ _ _ Hrun).
  - intros it path Hpid. split.
    + rewrite OrderItem_product_run, Hpid. now rewrite Hfound.
    + rewrite item_field_value_run.
      unfold item_field_pure, item_field_world. simpl.
      rewrite Hpid. now rewrite Hfound.
Qed.

(** C8, as amended.  On a payload that is a JSON object holding the six
    keys the adapter subscripts, the product adapter yields an entity:
    [description] and [image_url] are absent (null) when their key is
    missing, [stock] is 0 when its key is missing, and under every
    attribute the entity holds the value of the payload: the adapter
    checks no type and raises on none.  On a payload that lacks one of the
    six keys, or is no object, the adapter raises; both product resolvers
    swallow the exception, so the product resolves to null and the world
    differs by the one call only: no field-resolution error is recorded.
    On a 200 whose payload the adapter accepts both resolvers return the
    entity; when its values have the declared types, the [product] field
    of the response is the object of these values. *)
Theorem C8_product_adapter (d : list (string * json)) :
  (forall p,
     Product.construct (JDict d) = Ok p ->
     Product.description p = default JNull (Py.assoc "description" d)
     /\ Product.image_url p = default JNull (Py.assoc "image_url" d)
     /\ Product.stock p = default (JInt 0) (Py.assoc "stock" d)
     /\ Py.assoc "id" d = Some (Product.id p)
     /\ Py.assoc "name" d = Some (Product.name p)
     /\ Py.assoc "price" d = Some (Product.price p)
     /\ Py.assoc "category" d = Some (Product.category p)
     /\ Py.assoc "created_at" d = Some (Product.created_at p)
     /\ Py.assoc "updated_at" d = Some (Product.updated_at p))
  /\ ((forall k, k ∈ product_required_keys -> is_Some (Py.assoc k d)) ->
      exists p, Product.construct (JDict d) = Ok p)
  /\ (forall k,
        k ∈ product_required_keys -> Py.assoc k d = None ->
        exists k',
          k' ∈ product_required_keys
          /\ Product.construct (JDict d) = Raise (KeyError k'))
  /\ (forall data,
        (forall d', data <> JDict d') ->
        Product.construct data = Raise TypeError)
  /\ (forall E w pid sub r data e,
        backend E (catalog_item_request pid) = Reply r ->
        content r = Some data ->
        Product.construct data = Raise e ->
        Query.product pid E w
        = (Ok None, log_call (catalog_item_request pid) w)
        /\ Engine.query_field_value (QProduct pid sub) E w
           = (Ok ("product", JNull), log_call (catalog_item_request pid) w)
        /\ (forall it path,
              format E (OrderItem.product_id it) = pid ->
              OrderItem.product it E w
              = (Ok None, log_call (catalog_item_request pid) w)
              /\ Engine.item_field_value path it (IProduct sub) E w
                 = (Ok ("product", JNull),
                    log_call (catalog_item_request pid) w)))
  /\ (forall E w pid sub r data p,
        backend E (catalog_item_request pid) = Reply r ->
        status_code r = 200 -> content r = Some data ->
        Product.construct data = Ok p ->
        Query.product pid E w
        = (Ok (Some p), log_call (catalog_item_request pid) w)
        /\ (forall it,
              format E (OrderItem.product_id it) = pid ->
              OrderItem.product it E w
              = (Ok (Some p), log_call (catalog_item_request pid) w))
        /\ (product_typed p = true ->
            Engine.query_field_value (QProduct pid sub) E w
            = (Ok ("product", Engine.product_object sub p),
               log_call (catalog_item_request pid) w)
            /\ (forall it path,
                  format E (OrderItem.product_id it) = pid ->
                  Engine.item_field_value path it (IProduct sub) E w
                  = (Ok ("product", Engine.product_object sub p),
                     log_call (catalog_item_request pid) w)))).
Proof.
  split; [|split; [|split; [|split; [|split]]]].
  - intros p. rewrite Product_construct_object.
    destruct (Py.assoc "id" d), (Py.assoc "name" d), (Py.assoc "price" d),
      (Py.assoc "category" d), (Py.assoc "created_at" d),
      (Py.assoc "updated_at" d); try discriminate.
    intros [= <-]. simpl. repeat split.
  - intros Hall. rewrite Product_construct_object.
    unfold product_required_keys in Hall.
    destruct (Hall "id") as [? ->]; [in_list|].
    destruct (Hall "name") as [? ->]; [in_list|].
    destruct (Hall "price") as [? ->]; [in_list|].
    destruct (Hall "category") as [? ->]; [in_list|].
    destruct (Hall "created_at") as [? ->]; [in_list|].
    destruct (Hall "updated_at") as [? ->]; [in_list|].
    eauto.
  - intros k Hk Hnone. rewrite Product_construct_object.
    unfold product_required_keys in *.
    destruct (Py.assoc "id" d) eqn:H1; [|exists "id"; split; [in_list|reflexivity]].
    destruct (Py.assoc "name" d) eqn:H2; [|exists "name"; split; [in_list|reflexivity]].
    destruct (Py.assoc "price" d) eqn:H3; [|exists "price"; split; [in_list|reflexivity]].
    destruct (Py.assoc "category" d) eqn:H4; [|exists "category"; split; [in_list|reflexivity]].
    destruct (Py.assoc "created_at" d) eqn:H5; [|exists "created_at"; split; [in_list|reflexivity]].
    destruct (Py.assoc "updated_at" d) eqn:H6; [|exists "updated_at"; split; [in_list|reflexivity]].
    exfalso. repeat (apply elem_of_cons in Hk as [->|Hk]; [congruence|]).
    now apply elem_of_nil in Hk.
  - apply Product_construct_not_object.
  - intros E w pid sub r data e Hr Hd He.
    apply (product_fields_run E w pid sub None).
    rewrite Hr. exact (product_of_raised r data e Hd He).
  - intros E w pid sub r data p Hr Hst Hd Hp.
    destruct (product_fields_run E w pid sub (Some p)) as (Hq & Hf & Hit).
    { rewrite Hr. exact (product_of_built r data p Hst Hd Hp). }
    split; [exact Hq|]. split.
    + intros it Hpid. exact (proj1 (Hit it [] Hpid)).
    + intros _. split; [exact Hf|].
      intros it path Hpid. exact (proj2 (Hit it path Hpid)).
Qed.

Lemma C8_witness :
  Query.product "p1" Sample.careless init
  = (Ok None, log_call (catalog_item_request "p1") init)
  /\ Engine.query_field_value (QProduct "p1" [PId]) Sample.careless init
     = (Ok ("product", JNull), log_call (catalog_item_request "p1") init).
Proof.
  destruct (proj1 (proj2 (proj2 (proj2 (proj2 (C8_product_adapter [])))))
              Sample.careless init "p1" [PId]
              (mkResponse 200 (Some Sample.nameless)) Sample.nameless
              (KeyError "name") eq_refl eq_refl eq_refl) as (Hq & Hf & _).
  split; [exact Hq | exact Hf].
Defined.

(** C8 as the specification states it asks for a field-resolution error on
    a payload with a missing required key or a type-mismatched value.  A
    record without its name gives null and an empty errors list; a record
    whose name is the integer 3 is built into an entity that holds the
    integer, which the resolver returns, no error being raised or
    recorded. *)
Lemma C8_counterexample :
  (Engine.data (Engine.execute_query Sample.careless [QProduct "p1" [PId]])
   = Ok (JDict [("product", JNull)])
   /\ errors (Engine.final
                (Engine.execute_query Sample.careless [QProduct "p1" [PId]]))
      = [])
  /\ (exists p w',
        Query.product "p1" mislabels init = (Ok (Some p), w')
        /\ Product.name p = JInt 3
        /\ conforms TString (Product.name p) = false
        /\ errors w' = []).
Proof.
  split; [split; reflexivity|]. eexists _, _. repeat split.
Qed.

(** ** C9: the user stub *)

Lemma order_field_total (path : list segment) (o : Order.t) (f : order_field)
    (E : env) (w : world) :
  exists y w', Engine.order_field_value path o f E w = (Ok y, w').
Proof.
  destruct f; try (eexists _, w; reflexivity).
  - destruct (address_keeps_calls (path ++ [Key "address"]) o E w)
      as (r & w' & Hr & _).
    eexists _, w'. unfold Engine.order_field_value, bind at 1.
    rewrite Hr. reflexivity.
  - eexists _, _. apply order_items_run.
Qed.

Lemma order_list_total (sub : list order_field) (path : list segment)
    (os : list Order.t) (E : env) (w : world) :
  exists l w', Engine.order_list sub path os E w = (Ok (JList l), w').
Proof.
  destruct (mapM_from_keeps (fun _ => tt)
              (fun i => Engine.order_object sub (path ++ [Index i])) E os)
    with (i := 0%nat) (w := w) as (ys & w' & Hys & _).
  - apply Forall_forall. intros o _ i w0.
    destruct (mapM_keeps (fun _ => tt)
                (Engine.order_field_value (path ++ [Index i]) o) E sub)
      with (w := w0) as (fs & w1 & Hfs & _).
    + apply Forall_forall. intros f _ w2.
      destruct (order_field_total (path ++ [Index i]) o f E w2)
        as (y & w3 & Hy).
      now exists y, w3.
    + exists (JDict fs), w1. unfold Engine.order_object, bind at 1.
      rewrite Hfs. now split.
  - exists ys, w'. unfold Engine.order_list, bind at 1. now rewrite Hys.
Qed.

Lemma user_object_total (sub : list user_field) (path : list segment)
    (u : User.t) (E : env) (w : world) :
  exists fs w', Engine.user_object sub path u E w = (Ok (JDict fs), w').
Proof.
  destruct (mapM_keeps (fun _ => tt) (Engine.user_field_value path u) E sub)
    with (w := w) as (fs & w' & Hfs & _).
  - apply Forall_forall. intros f _ w0.
    destruct f; try (eexists _, w0; split; reflexivity).
    unfold Engine.user_field_value, bind at 1.
    rewrite (resolve_ok _ _ _ _ _ _ (User_orders_run u E w0)).
    cbv beta iota. unfold bind at 1.
    match goal with |- context [Engine.order_list ?s ?p ?os E ?w1] =>
      destruct (order_list_total s p os E w1) as (l & w2 & Hl)
    end.
    eexists _, w2. rewrite Hl. split; reflexivity.
  - exists fs, w'. unfold Engine.user_object, bind at 1. now rewrite Hfs.
Qed.

(** C9.  For every id, [user(id)] returns a user, never null, whose
    username is ["user_"] followed by the id and whose email is ["user"],
    the id, ["@example.com"]; it issues no backend call at all, so the
    identity service is never contacted, and it records no error.  In the
    response the field [user] is an object, whatever the selection. *)
Theorem C9_user_is_a_stub (E : env) (w : world) (id : string) :
  exists u w',
    Query.user id E w = (Ok (Some u), w')
    /\ User.id u = JStr id
    /\ User.username u = JStr ("user_" ++ id)
    /\ User.email u = JStr ("user" ++ id ++ "@example.com")
    /\ calls w' = calls w
    /\ errors w' = errors w
    /\ (forall sub,
          exists fs w'',
            Engine.query_field_value (QUser id sub) E w
            = (Ok ("user", JDict fs), w'')).
Proof.
  exists (stub_user E w id), (after_user w).
  split; [apply Query_user_run|]. repeat split.
  intros sub. unfold Engine.query_field_value, bind at 1.
  rewrite (resolve_ok _ _ _ _ _ _ (Query_user_run id E w)).
  destruct (user_object_total sub [Key "user"] (stub_user E w id) E
              (after_user w)) as (fs & w'' & Hfs).
  exists fs, w''. unfold bind at 1. now rewrite Hfs.
Qed.

(** ** C10: the list-valued resolvers *)

Lemma rmap_decides {A} (shaped : json -> bool) (f : json -> result A) :
  decides shaped f ->
  forall l,
    if forallb shaped l then exists ys, Py.rmap f l = Ok ys
    else exists e, Py.rmap f l = Raise e.
Proof.
  intros Hf. induction l as [|x l IH]; simpl; [eauto|].
  specialize (Hf x). destruct (shaped x); simpl.
  - destruct Hf as (y & ->). simpl.
    destruct (forallb shaped l).
    + destruct IH as (ys & ->). simpl. eauto.
    + destruct IH as (e & ->). simpl. eauto.
  - destruct Hf as (e & ->). simpl. eauto.
Qed.

Lemma iter_rmap_decides {A} (shaped : json -> bool) (f : json -> result A)
    (raw : json) :
  decides shaped f ->
  if all_shaped shaped raw
  then exists ys, Py.rbind (Py.iter raw) (Py.rmap f) = Ok ys
  else exists e, Py.rbind (Py.iter raw) (Py.rmap f) = Raise e.
Proof.
  intros Hf. unfold all_shaped. destruct (Py.iter raw) as [l|e]; simpl.
  - apply (rmap_decides shaped f Hf).
  - eauto.
Qed.

Ltac next_key d k :=
  unfold has_key at 1; destruct (Py.assoc k d); simpl; [|eauto].

Lemma Product_construct_decided : decides product_shaped Product.construct.
Proof.
  intros v. destruct v as [| | | | | |d]; simpl; eauto.
  rewrite Product_construct_object. unfold product_required_keys. simpl.
  next_key d "id". next_key d "name". next_key d "price".
  next_key d "category". next_key d "created_at". next_key d "updated_at".
  eauto.
Qed.

Lemma OrderItem_construct_decided : decides item_shaped OrderItem.construct.
Proof.
  intros v. destruct v as [| | | | | |d]; simpl; eauto.
  unfold OrderItem.construct, Py.getitem.
  next_key d "product_id". next_key d "quantity". next_key d "price".
  next_key d "name". eauto.
Qed.

Lemma Order_construct_decided : decides order_shaped Order.construct.
Proof.
  intros v. destruct v as [| | | | | |d]; simpl; eauto.
  unfold Order.construct, Py.get, Py.get_default, Py.getitem.
  destruct (Py.assoc "items" d) as [raw|]; simpl; [|eauto].
  pose proof (iter_rmap_decides item_shaped OrderItem.construct raw
                OrderItem_construct_decided) as Hitems.
  destruct (all_shaped item_shaped raw); simpl.
  - destruct Hitems as (its & Hits).
    destruct (Py.iter raw) as [l|]; simpl in *; [|discriminate].
    rewrite Hits. simpl.
    next_key d "id". next_key d "user_id". next_key d "total_amount".
    next_key d "status". next_key d "payment_status".
    next_key d "shipping_address". next_key d "payment_method".
    next_key d "created_at". next_key d "updated_at". eauto.
  - destruct Hitems as (e & He).
    destruct (Py.iter raw) as [l|]; simpl in *; [|eauto].
    rewrite He. simpl. eauto.
Qed.

Lemma list_construct_decided {A} (key : string) (shaped : json -> bool)
    (f : json -> result A) :
  decides shaped f ->
  decides (list_shaped key shaped)
          (fun data =>
             raw <~ Py.getitem data key;
             l <~ Py.iter raw;
             Py.rmap f l).
Proof.
  intros Hf v. destruct v as [| | | | | |d]; simpl; eauto.
  destruct (Py.assoc key d) as [raw|]; simpl; [|eauto].
  apply (iter_rmap_decides shaped f raw Hf).
Qed.

Lemma construct_orders_decided : decides orders_shaped construct_orders.
Proof. apply (list_construct_decided "orders"), Order_construct_decided. Qed.

Lemma construct_products_decided : decides products_shaped construct_products.
Proof. apply (list_construct_decided "items"), Product_construct_decided. Qed.

Lemma unusable_outcome {A} (shaped : json -> bool)
    (construct : json -> result A) (rp : reply) :
  decides shaped construct ->
  unusable shaped rp ->
  returned (try_outcome 200 construct rp) = None.
Proof.
  intros Hdec. destruct rp as [|r]; simpl; [reflexivity|].
  destruct (Z.eqb_spec (status_code r) 200) as [Hst|]; [|reflexivity].
  intros [Hne | Hbody]; [contradiction|].
  unfold response_json. destruct (content r) as [d|]; simpl; [|reflexivity].
  specialize (Hdec d). rewrite Hbody in Hdec.
  destruct Hdec as (e & ->). reflexivity.
Qed.

Lemma empty_outcome {A} (construct : json -> result (list A)) (rp : reply) :
  genuinely_empty construct rp ->
  returned (try_outcome 200 construct rp) = Some [].
Proof.
  intros (r & d & -> & Hst & Hd & Hc). simpl.
  rewrite Hst. simpl. unfold response_json. rewrite Hd. simpl.
  now rewrite Hc.
Qed.

Lemma no_list_outcome {A} (shaped : json -> bool)
    (construct : json -> result (list A)) (rp : reply) :
  decides shaped construct ->
  unusable shaped rp \/ genuinely_empty construct rp ->
  default [] (returned (try_outcome 200 construct rp)) = [].
Proof.
  intros Hdec [H | H];
    [rewrite (unusable_outcome _ _ _ Hdec H) | rewrite (empty_outcome _ _ H)];
    reflexivity.
Qed.

(** ** C5: the three scalars, end to end *)










(** ** C10: the theorem *)

Lemma built_outcome {A} (construct : json -> result A) (r : response)
    (d : json) (a : A) :
  status_code r = 200 -> content r = Some d -> construct d = Ok a ->
  returned (try_outcome 200 construct (Reply r)) = Some a.
Proof.
  intros Hst Hd Ha. simpl. rewrite Hst. simpl.
  unfold response_json. rewrite Hd. simpl. now rewrite Ha.
Qed.

(** C10, as amended.  Each list-valued resolver ([User.orders],
    [Query.products], [Query.user_orders]) returns the empty list when its
    read gives nothing usable (the backend is unavailable, answers
    anything but 200, or sends a body that is not JSON or a payload that
    lacks the keys or the iterable shape the construction uses), exactly
    as it does when the backend reports an empty list; in both cases the
    response holds the empty list under the field and the errors list is
    as it was, so the response does not tell an outage from an empty
    result.  A payload of the right shape is not examined further: on a
    200 the resolver returns the entities built from it, whatever the
    values under the keys. *)
Theorem C10_list_resolvers_hide_failures (E : env) (w : world) :
  (forall u path sub,
     let rp := backend E (user_orders_request (format E (User.id u)) 100) in
     unusable orders_shaped rp \/ genuinely_empty construct_orders rp ->
     exists w',
       User.orders u E w = (Ok [], w')
       /\ Engine.user_field_value path u (UOrders sub) E w
          = (Ok ("orders", JList []), w')
       /\ errors w' = errors w)
  /\ (forall category min_price max_price search limit sub,
        let rp := backend E (products_request category min_price max_price
                                              search limit) in
        unusable products_shaped rp
        \/ genuinely_empty construct_products rp ->
        exists w',
          Query.products category min_price max_price search limit E w
          = (Ok [], w')
          /\ Engine.query_field_value
               (QProducts category min_price max_price search limit sub) E w
             = (Ok ("products", JList []), w')
          /\ errors w' = errors w)
  /\ (forall user_id sub,
        let rp := backend E (user_orders_request user_id 50) in
        unusable orders_shaped rp \/ genuinely_empty construct_orders rp ->
        exists w',
          Query.user_orders user_id E w = (Ok [], w')
          /\ Engine.query_field_value (QUserOrders user_id sub) E w
             = (Ok ("userOrders", JList []), w')
          /\ errors w' = errors w)
  /\ (forall u r d,
        backend E (user_orders_request (format E (User.id u)) 100) = Reply r ->
        status_code r = 200 -> content r = Some d ->
        orders_shaped d = true ->
        exists os w',
          construct_orders d = Ok os
          /\ User.orders u E w = (Ok os, w') /\ errors w' = errors w)
  /\ (forall category min_price max_price search limit r d,
        backend E (products_request category min_price max_price search limit)
        = Reply r ->
        status_code r = 200 -> content r = Some d ->
        products_shaped d = true ->
        exists ps w',
          construct_products d = Ok ps
          /\ Query.products category min_price max_price search limit E w
             = (Ok ps, w')
          /\ errors w' = errors w)
  /\ (forall user_id r d,
        backend E (user_orders_request user_id 50) = Reply r ->
        status_code r = 200 -> content r = Some d ->
        orders_shaped d = true ->
        exists os w',
          construct_orders d = Ok os
          /\ Query.user_orders user_id E w = (Ok os, w')
          /\ errors w' = errors w).
Proof.
  split; [|split; [|split; [|split; [|split]]]].
  - intros u path sub rp H.
    pose proof (User_orders_run u E w) as Hrun. cbv zeta in Hrun.
    fold rp in Hrun.
    rewrite (no_list_outcome _ _ _ construct_orders_decided H) in Hrun.
    eexists. split; [exact Hrun|]. split; [|apply after_try_errors].
    unfold Engine.user_field_value, bind at 1.
    rewrite (resolve_ok _ _ _ _ _ _ Hrun). reflexivity.
  - intros c mn mx s l sub rp H.
    pose proof (Query_products_run c mn mx s l E w) as Hrun.
    cbv zeta in Hrun. fold rp in Hrun.
    rewrite (no_list_outcome _ _ _ construct_products_decided H) in Hrun.
    eexists. split; [exact Hrun|]. split; [|apply after_try_errors].
    unfold Engine.query_field_value, bind at 1.
    rewrite (resolve_ok _ _ _ _ _ _ Hrun). reflexivity.
  - intros uid sub rp H.
    pose proof (Query_user_orders_run uid E w) as Hrun.
    cbv zeta in Hrun. fold rp in Hrun.
    rewrite (no_list_outcome _ _ _ construct_orders_decided H) in Hrun.
    eexists. split; [exact Hrun|]. split; [|apply after_try_errors].
    unfold Engine.query_field_value, bind at 1.
    rewrite (resolve_ok _ _ _ _ _ _ Hrun). reflexivity.
  - intros u r d Hb Hst Hd Hshaped.
    pose proof (construct_orders_decided d) as Hos. rewrite Hshaped in Hos.
    destruct Hos as (os & Hos). exists os. eexists.
    split; [exact Hos|]. rewrite User_orders_run, Hb.
    rewrite (built_outcome _ r d os Hst Hd Hos).
    split; [reflexivity | apply after_try_errors].
  - intros c mn mx s l r d Hb Hst Hd Hshaped.
    pose proof (construct_products_decided d) as Hps. rewrite Hshaped in Hps.
    destruct Hps as (ps & Hps). exists ps. eexists.
    split; [exact Hps|]. rewrite Query_products_run, Hb.
    rewrite (built_outcome _ r d ps Hst Hd Hps).
    split; [reflexivity | apply after_try_errors].
  - intros uid r d Hb Hst Hd Hshaped.
    pose proof (construct_orders_decided d) as Hos. rewrite Hshaped in Hos.
    destruct Hos as (os & Hos). exists os. eexists.
    split; [exact Hos|]. rewrite Query_user_orders_run, Hb.
    rewrite (built_outcome _ r d os Hst Hd Hos).
    split; [reflexivity | apply after_try_errors].
Qed.

Lemma C10_witness :
  exists w',
    Query.user_orders "u1" Sample.careless init = (Ok [], w')
    /\ Engine.query_field_value (QUserOrders "u1" [OId]) Sample.careless init
       = (Ok ("userOrders", JList []), w')
    /\ errors w' = errors init.
Proof.
  exact (proj1 (proj2 (proj2
                  (C10_list_resolvers_hide_failures Sample.careless init)))
           "u1" [OId] (or_introl (or_intror eq_refl))).
Defined.

(** C10 as the specification states it has the empty list, and no error
    entry, on any malformed payload.  A payload of the right shape whose
    order has a string for its address is malformed in that value only:
    [userOrders] returns the order, and asking for its [address] records
    an error entry. *)
Lemma C10_counterexample :
  (exists o w',
     Query.user_orders "u1" sloppy init = (Ok [o], w')
     /\ Order.shipping_address o = JStr "nowhere")
  /\ errors (Engine.final
               (Engine.execute_query sloppy [QUserOrders "u1" [OAddress]]))
     = [mkError [Key "userOrders"; Index 0; Key "address"] AttributeError].
Proof. split; [eexists _, _; split; reflexivity | reflexivity]. Qed.

(** * Further properties of the order service *)

Section OrderEndpointsFacts.

Import OrderService OrderEndpoints.




Lemma values_of_stored {V} (vals : dict_values V) (d : gmap string V) (v : V) :
  v ∈ values_of vals d <-> exists k, d !! k = Some v.
Proof.
  rewrite (values_of_perm vals d), list_elem_of_fmap. split.
  - intros ([k v'] & -> & Hin). exists k. now apply elem_of_map_to_list.
  - intros (k & Hk). exists (k, v). split; [reflexivity|].
    now apply elem_of_map_to_list.
Qed.



End OrderEndpointsFacts.

Section OrderStoreFacts.

Import OrderService OrderEndpoints.

Lemma post_orders_201 (ops : float_ops) (order_id current_time : string)
    (body : OrderCreate) (orders_db db' : gmap string order) (o : order) :
  post_orders ops order_id current_time body orders_db = (201, Some o, db') ->
  OrderCreate_valid body = true
  /\ (exists total,
        calculate_total ops (oc_items body) = Ok total
        /\ o = mkOrder order_id (oc_user_id body) (oc_items body) total
                 "pending" "pending" (oc_shipping_address body)
                 (oc_payment_method body) None None current_time current_time)
  /\ db' = <[order_id := o]> orders_db.
Proof.
  unfold post_orders.
  destruct (OrderCreate_valid body);
    [|destruct (report_renders body); discriminate].
  unfold create_order.
  destruct (calculate_total ops (oc_items body)) as [total|e]; simpl;
    [|discriminate].
  destruct (order_renders _); [|discriminate].
  intros [= <- <-]. split; [reflexivity|]. split; [|reflexivity].
  now exists total.
Qed.

Lemma valid_items_nonempty (body : OrderCreate) :
  OrderCreate_valid body = true ->
  oc_items body <> []
  /\ forallb OrderItem_valid (oc_items body) = true.
Proof.
  unfold OrderCreate_valid. intros H. apply andb_prop in H as [Hlen Hall].
  split; [|exact Hall]. intros Hnil. rewrite Hnil in Hlen. discriminate.
Qed.

(** X1.  An order the service has accepted is served back: [get_order]
    answers it under its id, [get_order_items] answers its items with
    their count (at least one) and its total, and every other id is
    answered as before the creation. *)
Theorem X1_created_order_is_served (ops : float_ops)
    (order_id current_time : string) (body : OrderCreate)
    (orders_db db' : gmap string order) (o : order) :
  post_orders ops order_id current_time body orders_db = (201, Some o, db') ->
  get_order db' order_id = Answer 200 o
  /\ get_order_items db' order_id
     = Answer 200
         (mkOrderItemsResponse order_id (oc_items body)
            (Z.of_nat (length (oc_items body))) (total_amount o))
  /\ 1 <= Z.of_nat (length (oc_items body))
  /\ (forall other,
        other <> order_id ->
        get_order db' other = get_order orders_db other
        /\ get_order_items db' other = get_order_items orders_db other).
Proof.
  intros H. apply post_orders_201 in H as (Hvalid & (total & Ht & ->) & ->).
  unfold get_order, get_order_items. rewrite lookup_insert_eq. simpl.
  repeat split.
  - apply valid_items_nonempty in Hvalid as [Hne _].
    destruct (oc_items body); [congruence | simpl; lia].
  - now rewrite lookup_insert_ne.
  - now rewrite lookup_insert_ne.
Qed.

Lemma X1_witness :
  get_order store9 "ORD-9" = Answer 200 order9.
Proof.
  assert (Hpost :
    post_orders Sample.ieee "ORD-9" "2024-05-01T12:00:00" Sample.basket ∅
    = (201, Some order9, store9)) by (vm_compute; reflexivity).
  exact (proj1 (X1_created_order_is_served Sample.ieee "ORD-9"
                  "2024-05-01T12:00:00" Sample.basket ∅ store9 order9 Hpost)).
Defined.

Lemma invalid_body (body : OrderCreate) :
  OrderCreate_valid body = false
  <-> oc_items body = [] \/ Exists bad_item (oc_items body).
Proof.
  unfold OrderCreate_valid. rewrite andb_false_iff. split.
  - intros [Hlen | Hall].
    + left. destruct (oc_items body); [reflexivity|].
      simpl in Hlen. apply Z.leb_gt in Hlen. lia.
    + right. induction (oc_items body) as [|it its IH]; [discriminate|].
      simpl in Hall. apply andb_false_iff in Hall as [Hit | Hits].
      * apply Exists_cons_hd. unfold OrderItem_valid in Hit. unfold bad_item.
        apply andb_false_iff in Hit as [Hq | Hp]; [left | now right].
        apply Z.ltb_ge in Hq. exact Hq.
      * apply Exists_cons_tl. now apply IH.
  - intros [Hnil | Hbad].
    + left. now rewrite Hnil.
    + right. induction Hbad as [it its Hit | it its _ IH]; simpl.
      * apply andb_false_iff. left. unfold OrderItem_valid.
        apply andb_false_iff. destruct Hit as [Hq | Hp]; [left | now right].
        now apply Z.ltb_ge.
      * apply andb_false_iff. now right.
Qed.

(** X2.  What a creation request does to the store, by its answer.  The
    answer is 201, 422 or 500.  A body with no item, or with an item whose
    quantity or price is not positive, is never stored and never answered
    201: it is answered 422 exactly when the report of what failed can be
    written, and 500 otherwise.  A 201 carries the order that is now filed
    under the new id.  A body that passes validation and whose total
    computes is stored whatever the answer: the answer is 201 exactly when
    the order can be written as JSON, and 500 otherwise, the order staying
    in the store. *)
Theorem X2_creation_answer_and_store (ops : float_ops)
    (order_id current_time : string) (body : OrderCreate)
    (orders_db : gmap string order) :
  let '(st, r, db') :=
    post_orders ops order_id current_time body orders_db in
  (st = 201 \/ st = 422 \/ st = 500)
  /\ (st = 422 <-> (oc_items body = [] \/ Exists bad_item (oc_items body))
                   /\ report_renders body = true)
  /\ (oc_items body = [] \/ Exists bad_item (oc_items body) ->
      st <> 201 /\ r = None /\ db' = orders_db)
  /\ (st = 201 ->
      exists o, r = Some o /\ db' = <[order_id := o]> orders_db
                /\ order_renders o = true)
  /\ (st <> 201 -> r = None)
  /\ (forall total,
        OrderCreate_valid body = true ->
        calculate_total ops (oc_items body) = Ok total ->
        exists o,
          db' = <[order_id := o]> orders_db
          /\ total_amount o = total
          /\ (st = 201 <-> order_renders o = true)
          /\ (order_renders o = false -> st = 500)).
Proof.
  pose proof (invalid_body body) as Hinv.
  unfold post_orders. destruct (OrderCreate_valid body) eqn:Hvalid.
  - assert (Hok : ~ (oc_items body = [] \/ Exists bad_item (oc_items body))).
    { intros H. apply Hinv in H. discriminate. }
    unfold create_order.
    destruct (calculate_total ops (oc_items body)) as [total|e]; simpl.
    + match goal with |- context [order_renders ?o] =>
        set (new_order := o); destruct (order_renders new_order) eqn:Hr
      end.
      * split; [now left|]. split; [split; [discriminate | tauto]|].
        split; [tauto|]. split; [now exists new_order|].
        split; [congruence|].
        intros t _ [= <-]. exists new_order.
        split; [reflexivity|]. split; [reflexivity|].
        split; [tauto | congruence].
      * split; [now right; right|]. split; [split; [discriminate | tauto]|].
        split; [tauto|]. split; [discriminate|]. split; [reflexivity|].
        intros t _ [= <-]. exists new_order.
        split; [reflexivity|]. split; [reflexivity|].
        split; [split; [discriminate | congruence] | reflexivity].
    + split; [now right; right|]. split; [split; [discriminate | tauto]|].
      split; [tauto|]. split; [discriminate|]. split; [reflexivity|].
      discriminate.
  - assert (Hbad : oc_items body = [] \/ Exists bad_item (oc_items body))
      by now apply Hinv.
    destruct (report_renders body).
    + split; [now right; left|]. split; [tauto|].
      split; [intros _; repeat split; discriminate|].
      split; [discriminate|]. split; [reflexivity | discriminate].
    + split; [now right; right|].
      split; [split; [discriminate | intros [_ H]; discriminate]|].
      split; [intros _; repeat split; discriminate|].
      split; [discriminate|]. split; [reflexivity | discriminate].
Qed.

End OrderStoreFacts.

Section OrderListingFacts.

Import OrderService OrderEndpoints.






End OrderListingFacts.

Section OrderUpdateFacts.

Import OrderService OrderEndpoints.


(** Updating twice with the same request at the same time is updating
    once. *)
Lemma apply_update_idempotent (order_update : OrderUpdate)
    (current_time : string) (o : order) :
  apply_update order_update current_time
    (apply_update order_update current_time o)
  = apply_update order_update current_time o.
Proof.
  unfold apply_update. simpl.
  destruct order_update as [[s|] [p|] [t|] [n|]]; reflexivity.
Qed.

(** X6.  [delete_order] on an id that is not stored answers 404 and leaves
    the store alone.  On a stored order it removes that order and no other:
    afterwards [get_order], [get_order_items], [update_order] and a second
    [delete_order] on the id all answer 404. *)
Theorem X6_delete_removes_one_order (current_time : string)
    (orders_db : gmap string order) (order_id : string)
    (order_update : OrderUpdate) :
  match orders_db !! order_id with
  | None =>
      delete_order orders_db order_id
      = (Refused 404 "Order not found", orders_db)
  | Some _ =>
      exists msg db',
        delete_order orders_db order_id = (Answer 200 msg, db')
        /\ get_order db' order_id = Refused 404 "Order not found"
        /\ get_order_items db' order_id = Refused 404 "Order not found"
        /\ update_order current_time db' order_id order_update
           = (Refused 404 "Order not found", db')
        /\ delete_order db' order_id = (Refused 404 "Order not found", db')
        /\ (forall other, other <> order_id ->
              get_order db' other = get_order orders_db other)
  end.
Proof.
  destruct (orders_db !! order_id) as [o|] eqn:Ho.
  - exists ("Order " +:+ order_id +:+ " deleted successfully"),
      (delete order_id orders_db).
    unfold get_order, get_order_items, update_order, delete_order.
    rewrite Ho, lookup_delete_eq. repeat split.
    intros other Hne. now rewrite lookup_delete_ne.
  - unfold delete_order. now rewrite Ho.
Qed.

(** X7.  The store keeps its invariant: if every stored order is filed
    under its own id, has at least one item, all items passing the
    constraints, a total that is the total of its items and statuses that
    are values of their enumerations, then the same holds after any
    creation, update or deletion, whatever its answer; the empty store
    satisfies it, so every order ever served does. *)
Theorem X7_store_invariant (ops : float_ops)
    (orders_db : gmap string order) :
  store_ok ops orders_db ->
  (forall order_id current_time body,
     store_ok ops
       (post_orders ops order_id current_time body orders_db).2)
  /\ (forall current_time order_id order_update,
        store_ok ops
          (update_order current_time orders_db order_id order_update).2)
  /\ (forall order_id, store_ok ops (delete_order orders_db order_id).2)
  /\ (forall order_id o,
        get_order orders_db order_id = Answer 200 o ->
        order_ok ops order_id o).
Proof.
  intros Hok. split; [|split; [|split]].
  - intros oid now body. unfold post_orders.
    destruct (OrderCreate_valid body) eqn:Hvalid;
      [|destruct (report_renders body); exact Hok].
    unfold create_order.
    destruct (calculate_total ops (oc_items body)) as [total|e] eqn:Ht;
      simpl; [|exact Hok].
    match goal with |- context [order_renders ?o] =>
      assert (Hstored : store_ok ops (<[oid := o]> orders_db));
        [|now destruct (order_renders o)]
    end.
    intros key o. destruct (decide (oid = key)) as [<-|Hne].
    + rewrite lookup_insert_eq. intros [= <-].
      apply valid_items_nonempty in Hvalid as [Hne Hall].
      repeat split; try assumption.
      * now exists OrderStatus.PENDING.
      * now exists PaymentStatus.PENDING.
    + rewrite lookup_insert_ne by exact Hne. apply Hok.
  - intros now oid upd. unfold update_order.
    destruct (orders_db !! oid) as [o|] eqn:Ho; [|exact Hok]. simpl.
    intros key o'. destruct (decide (oid = key)) as [<-|Hne].
    + rewrite lookup_insert_eq. intros [= <-].
      destruct (Hok oid o Ho) as (Hid & Hne & Hall & Ht & Hs & Hp).
      unfold order_ok, apply_update. simpl. repeat split; try assumption.
      * destruct (u_status upd) as [s|]; [now exists s | exact Hs].
      * destruct (u_payment_status upd) as [s|]; [now exists s | exact Hp].
    + rewrite lookup_insert_ne by exact Hne. apply Hok.
  - intros oid. unfold delete_order.
    destruct (orders_db !! oid) as [o|] eqn:Ho; [|exact Hok]. simpl.
    intros key o'. destruct (decide (oid = key)) as [<-|Hne].
    + now rewrite lookup_delete_eq.
    + rewrite lookup_delete_ne by exact Hne. apply Hok.
  - intros oid o. unfold get_order.
    destruct (orders_db !! oid) as [o'|] eqn:Ho; [|discriminate].
    intros [= <-]. now apply Hok.
Qed.

Lemma X7_witness :
  store_ok Sample.ieee
    (post_orders Sample.ieee "ORD-9" "2024-05-01T12:00:00" Sample.basket ∅).2.
Proof.
  assert (Hempty : store_ok Sample.ieee ∅).
  { intros key o H. rewrite lookup_empty in H. discriminate H. }
  exact (proj1 (X7_store_invariant Sample.ieee ∅ Hempty)
           "ORD-9" "2024-05-01T12:00:00" Sample.basket).
Defined.

(** X8.  The order count of the health check moves with the store: an
    accepted creation under a fresh id adds one, an accepted creation
    under an id already in use replaces that order and adds none, a
    deletion that finds its order takes one away, and an update or any
    refused request changes nothing. *)
Theorem X8_order_count (ops : float_ops) (current_time : string)
    (orders_db : gmap string order) (order_id : string) :
  (forall body o db',
     post_orders ops order_id current_time body orders_db
     = (201, Some o, db') ->
     order_count db'
     = match orders_db !! order_id with
       | None => order_count orders_db + 1
       | Some _ => order_count orders_db
       end)
  /\ (forall order_update,
        order_count
          (update_order current_time orders_db order_id order_update).2
        = order_count orders_db)
  /\ order_count (delete_order orders_db order_id).2
     = match orders_db !! order_id with
       | None => order_count orders_db
       | Some _ => order_count orders_db - 1
       end.
Proof.
  unfold order_count. split; [|split].
  - intros body o db' H. apply post_orders_201 in H as (_ & _ & ->).
    destruct (orders_db !! order_id) as [o0|] eqn:Ho.
    + now rewrite (map_size_insert_Some _ _ _ (mk_is_Some _ _ Ho)).
    + rewrite (map_size_insert_None _ _ _ Ho). lia.
  - intros upd. unfold update_order.
    destruct (orders_db !! order_id) as [o0|] eqn:Ho; simpl; [|reflexivity].
    now rewrite (map_size_insert_Some _ _ _ (mk_is_Some _ _ Ho)).
  - unfold delete_order.
    destruct (orders_db !! order_id) as [o0|] eqn:Ho; simpl; [|reflexivity].
    pose proof (map_size_delete_Some order_id orders_db (mk_is_Some _ _ Ho)).
    assert (size orders_db <> 0%nat).
    { intros Hz. apply map_size_empty_inv in Hz. subst.
      rewrite lookup_empty in Ho. discriminate. }
    lia.
Qed.

End OrderUpdateFacts.

Section OrderUpdateTwice.

Import OrderService OrderEndpoints.

(** X9.  Repeating an update changes nothing more: the same request at
    the same time, sent a second time, gets the same answer and leaves the
    store as the first did. *)
Theorem X9_update_twice_is_update_once (current_time : string)
    (orders_db : gmap string order) (order_id : string)
    (order_update : OrderUpdate) :
  let first := update_order current_time orders_db order_id order_update in
  update_order current_time first.2 order_id order_update = first.
Proof.
  unfold update_order.
  destruct (orders_db !! order_id) as [o|] eqn:Ho; simpl.
  - rewrite lookup_insert_eq, apply_update_idempotent.
    now rewrite insert_insert_eq.
  - now rewrite Ho.
Qed.

End OrderUpdateTwice.

(** * Further properties of the gateway *)

(** X10.  [Order.address] on an address that is an object gives the
    street, the city and the country joined by a comma and a space, a
    missing key counting as the empty string; it sends nothing.  On an
    address that is no object it raises [AttributeError], having no [try]
    of its own: the field then resolves to null with one error entry
    under its path, and no call is made. *)
Theorem X10_address_formats_or_raises (o : Order.t) (E : env) (w : world)
    (path : list segment) :
  match Order.shipping_address o with
  | JDict d =>
      let part k := format E (default (JStr "") (Py.assoc k d)) in
      Order.address o E w
      = (Ok (JStr (part "street" ++ ", " ++ part "city" ++ ", "
                   ++ part "country")), w)
  | _ =>
      Order.address o E w = (Raise AttributeError, w)
      /\ Engine.order_field_value path o OAddress E w
         = (Ok ("address", JNull),
            mkWorld (calls w) (stdout w) (ticks w)
              (errors w
               ++ [mkError (path ++ [Key "address"]) AttributeError]))
  end.
Proof.
  unfold Engine.order_field_value, Engine.resolve, Engine.record_error,
    Order.address.
  destruct (Order.shipping_address o); first [reflexivity | split; reflexivity].
Qed.

(** X11.  The query string of [products] always asks for page 1 with the
    limit as page size; a filter that is not given is left out rather
    than sent as null, and a filter that is given is sent as it is. *)
Theorem X11_products_query_string (category : option string)
    (min_price max_price : option float) (search : option string)
    (limit : Z) :
  let params := products_params category min_price max_price search limit in
  Py.assoc "page" params = Some (JInt 1)
  /\ Py.assoc "page_size" params = Some (JInt limit)
  /\ Py.assoc "category" params = JStr <$> category
  /\ Py.assoc "min_price" params = JFloat <$> min_price
  /\ Py.assoc "max_price" params = JFloat <$> max_price
  /\ Py.assoc "search" params = JStr <$> search
  /\ Forall (fun kv => kv.2 <> JNull) params
  /\ req_params (products_request category min_price max_price search limit)
     = params.
Proof.
  destruct category, min_price, max_price, search; cbv zeta;
    unfold products_params; simpl;
    repeat split; repeat constructor; discriminate.
Qed.

(** X12.  No resolver that talks to a backend lets an exception out, and
    each sends exactly one request per invocation, whatever the backend
    answers: [Query.product], [Query.products], [Query.user_orders],
    [Query.order], [Mutation.create_order], [User.orders] and
    [OrderItem.product] always return, after one call, without touching
    the errors list. *)
Theorem X12_resolvers_never_raise (E : env) (w : world) :
  (forall id, exists r w',
     Query.product id E w = (Ok r, w')
     /\ calls w' = calls w ++ [catalog_item_request id]
     /\ errors w' = errors w)
  /\ (forall category min_price max_price search limit, exists r w',
        Query.products category min_price max_price search limit E w
        = (Ok r, w')
        /\ calls w'
           = calls w ++ [products_request category min_price max_price
                                          search limit]
        /\ errors w' = errors w)
  /\ (forall user_id, exists r w',
        Query.user_orders user_id E w = (Ok r, w')
        /\ calls w' = calls w ++ [user_orders_request user_id 50]
        /\ errors w' = errors w)
  /\ (forall id, exists r w',
        Query.order id E w = (Ok r, w')
        /\ calls w' = calls w ++ [order_request id]
        /\ errors w' = errors w)
  /\ (forall user_id items shipping_address, exists r w',
        Mutation.create_order user_id items shipping_address E w = (Ok r, w')
        /\ calls w'
           = calls w ++ [create_order_request user_id items shipping_address]
        /\ errors w' = errors w)
  /\ (forall u, exists r w',
        User.orders u E w = (Ok r, w')
        /\ calls w'
           = calls w ++ [user_orders_request (format E (User.id u)) 100]
        /\ errors w' = errors w)
  /\ (forall it, exists r w',
        OrderItem.product it E w = (Ok r, w')
        /\ calls w'
           = calls w
             ++ [catalog_item_request (format E (OrderItem.product_id it))]
        /\ errors w' = errors w).
Proof.
  repeat split.
  - intros id. eexists _, _. rewrite Query_product_run. repeat split.
  - intros c mn mx s l. eexists _, _. rewrite Query_products_run.
    split; [reflexivity|].
    split; [apply after_try_calls | apply after_try_errors].
  - intros uid. eexists _, _. rewrite Query_user_orders_run.
    split; [reflexivity|].
    split; [apply after_try_calls | apply after_try_errors].
  - intros id. eexists _, _. rewrite Query_order_run.
    split; [reflexivity|].
    split; [apply after_try_calls | apply after_try_errors].
  - intros uid items addr. apply create_order_calls.
  - intros u. eexists _, _. rewrite User_orders_run.
    split; [reflexivity|].
    split; [apply after_try_calls | apply after_try_errors].
  - intros it. eexists _, _. rewrite OrderItem_product_run. repeat split.
Qed.

(** ** What a whole execution sends and records *)

Lemma extends_refl P Q w : extends P Q w w.
Proof. exists [], []. now rewrite !app_nil_r. Qed.

Lemma extends_trans P Q w1 w2 w3 :
  extends P Q w1 w2 -> extends P Q w2 w3 -> extends P Q w1 w3.
Proof.
  intros (l1 & e1 & Hc1 & Hl1 & He1 & Hq1) (l2 & e2 & Hc2 & Hl2 & He2 & Hq2).
  exists (l1 ++ l2), (e1 ++ e2). rewrite Hc2, Hc1, He2, He1, !app_assoc.
  repeat split; now apply Forall_app.
Qed.

Lemma extends_call (P : request -> Prop) Q (req : request) (w : world) :
  P req -> extends P Q w (log_call req w).
Proof.
  intros HP. exists [req], []. simpl. rewrite app_nil_r.
  repeat split; repeat constructor; exact HP.
Qed.

Lemma extends_after_try {A} (P : request -> Prop) Q msg (req : request)
    (t : result (option A)) (w : world) :
  P req -> extends P Q w (after_try msg req t w).
Proof.
  intros HP. exists [req], [].
  rewrite after_try_calls, after_try_errors, app_nil_r.
  repeat split; repeat constructor; exact HP.
Qed.

Lemma mapM_extends {A B} P Q (f : A -> M B) (E : env) (l : list A) :
  (forall x w, exists y w', f x E w = (Ok y, w') /\ extends P Q w w') ->
  forall w, exists ys w',
    Engine.mapM f l E w = (Ok ys, w') /\ extends P Q w w'
    /\ length ys = length l.
Proof.
  intros Hf. induction l as [|x l IH]; intros w; simpl.
  - exists [], w. split; [reflexivity|]. split; [apply extends_refl|reflexivity].
  - destruct (Hf x w) as (y & w1 & Hy & H1).
    destruct (IH w1) as (ys & w2 & Hys & H2 & Hlen).
    exists (y :: ys), w2. unfold bind at 1. rewrite Hy.
    unfold bind at 1. rewrite Hys. split; [reflexivity|].
    split; [now apply (extends_trans _ _ _ w1) | simpl; congruence].
Qed.

Lemma mapM_from_extends {A B} P Q (f : nat -> A -> M B) (E : env)
    (l : list A) :
  (forall i x w, exists y w', f i x E w = (Ok y, w') /\ extends P Q w w') ->
  forall i w, exists ys w',
    Engine.mapM_from i f l E w = (Ok ys, w') /\ extends P Q w w'
    /\ length ys = length l.
Proof.
  intros Hf. induction l as [|x l IH]; intros i w; simpl.
  - exists [], w. split; [reflexivity|]. split; [apply extends_refl|reflexivity].
  - destruct (Hf i x w) as (y & w1 & Hy & H1).
    destruct (IH (S i) w1) as (ys & w2 & Hys & H2 & Hlen).
    exists (y :: ys), w2. unfold bind at 1. rewrite Hy.
    unfold bind at 1. rewrite Hys. split; [reflexivity|].
    split; [now apply (extends_trans _ _ _ w1) | simpl; congruence].
Qed.

Lemma catalog_item_is_read (pid : string) :
  read_request (catalog_item_request pid).
Proof. repeat split. eexists. left. reflexivity. Qed.

Lemma user_orders_is_read (uid : string) (limit : Z) :
  read_request (user_orders_request uid limit).
Proof. repeat split. eexists. right. reflexivity. Qed.

Lemma order_is_read (oid : string) : read_request (order_request oid).
Proof. repeat split. eexists. right. reflexivity. Qed.

Lemma products_is_read category min_price max_price search limit :
  read_request (products_request category min_price max_price search limit).
Proof. repeat split. eexists. left. reflexivity. Qed.

Abbreviation reads := (extends read_request address_error).

Lemma item_object_reads (sub : list item_field) (path : list segment)
    (it : OrderItem.t) (E : env) (w : world) :
  exists y w', Engine.item_object sub path it E w = (Ok y, w') /\ reads w w'.
Proof.
  destruct (mapM_extends read_request address_error
              (Engine.item_field_value path it) E sub) with (w := w)
    as (ys & w' & Hys & Hext & _).
  - intros f w0. eexists _, _. rewrite item_field_value_run.
    split; [reflexivity|]. unfold item_field_world.
    destruct (asks_product f);
      [apply extends_call, catalog_item_is_read | apply extends_refl].
  - exists (JDict ys), w'. unfold Engine.item_object, bind at 1.
    now rewrite Hys.
Qed.

Lemma order_field_reads (path : list segment) (o : Order.t) (f : order_field)
    (E : env) (w : world) :
  exists y w',
    Engine.order_field_value path o f E w = (Ok y, w') /\ reads w w'.
Proof.
  destruct f;
    try (eexists _, w; split; [reflexivity | apply extends_refl]).
  - unfold Engine.order_field_value, Engine.resolve, Engine.record_error,
      Order.address.
    destruct (Order.shipping_address o);
      try (eexists _, _; split; [reflexivity|];
           exists [], [mkError (path ++ [Key "address"]) AttributeError];
           simpl; rewrite app_nil_r; repeat split;
           repeat constructor; now exists path).
    eexists _, w. split; [reflexivity | apply extends_refl].
  - destruct (mapM_from_extends read_request address_error
                (fun i => Engine.item_object sub
                            (path ++ [Key "items"; Index i])) E
                (Order.items o)) with (i := 0%nat) (w := w)
      as (ys & w' & Hys & Hext & _).
    + intros i it w0. apply item_object_reads.
    + exists ("items", JList ys), w'.
      unfold Engine.order_field_value, bind at 1. now rewrite Hys.
Qed.

Lemma order_object_reads (sub : list order_field) (path : list segment)
    (o : Order.t) (E : env) (w : world) :
  exists y w', Engine.order_object sub path o E w = (Ok y, w') /\ reads w w'.
Proof.
  destruct (mapM_extends read_request address_error
              (Engine.order_field_value path o) E sub) with (w := w)
    as (ys & w' & Hys & Hext & _).
  - intros f w0. apply order_field_reads.
  - exists (JDict ys), w'. unfold Engine.order_object, bind at 1.
    now rewrite Hys.
Qed.

Lemma order_list_reads (sub : list order_field) (path : list segment)
    (os : list Order.t) (E : env) (w : world) :
  exists y w', Engine.order_list sub path os E w = (Ok y, w') /\ reads w w'.
Proof.
  destruct (mapM_from_extends read_request address_error
              (fun i => Engine.order_object sub (path ++ [Index i])) E os)
    with (i := 0%nat) (w := w) as (ys & w' & Hys & Hext & _).
  - intros i o w0. apply order_object_reads.
  - exists (JList ys), w'. unfold Engine.order_list, bind at 1.
    now rewrite Hys.
Qed.

Lemma user_object_reads (sub : list user_field) (path : list segment)
    (u : User.t) (E : env) (w : world) :
  exists y w', Engine.user_object sub path u E w = (Ok y, w') /\ reads w w'.
Proof.
  destruct (mapM_extends read_request address_error
              (Engine.user_field_value path u) E sub) with (w := w)
    as (ys & w' & Hys & Hext & _).
  - intros f w0.
    destruct f; try (eexists _, w0; split; [reflexivity | apply extends_refl]).
    unfold Engine.user_field_value, bind at 1.
    rewrite (resolve_ok _ _ _ _ _ _ (User_orders_run u E w0)).
    cbv beta iota. unfold bind at 1.
    match goal with |- context [Engine.order_list ?s ?p ?os E ?w1] =>
      destruct (order_list_reads s p os E w1) as (v & w2 & Hv & Hext)
    end.
    eexists _, w2. rewrite Hv. split; [reflexivity|].
    eapply extends_trans; [|exact Hext].
    apply extends_after_try, user_orders_is_read.
  - exists (JDict ys), w'. unfold Engine.user_object, bind at 1.
    now rewrite Hys.
Qed.

Lemma query_field_reads (f : query_field) (E : env) (w : world) :
  exists v w',
    Engine.query_field_value f E w = (Ok (root_key f, v), w') /\ reads w w'.
Proof.
  destruct f as [id sub | id sub | c mn mx s l sub | uid sub | id sub];
    unfold Engine.query_field_value, bind at 1.
  - rewrite (resolve_ok _ _ _ _ _ _ (Query_user_run id E w)).
    destruct (user_object_reads sub [Key "user"] (stub_user E w id) E
                (after_user w)) as (v & w' & Hv & Hext).
    exists v, w'. unfold bind at 1. rewrite Hv. split; [reflexivity|].
    eapply extends_trans; [|exact Hext].
    exists [], []. simpl. now rewrite !app_nil_r.
  - rewrite (resolve_ok _ _ _ _ _ _ (Query_product_run id E w)).
    eexists _, _. split; [reflexivity|].
    apply extends_call, catalog_item_is_read.
  - rewrite (resolve_ok _ _ _ _ _ _ (Query_products_run c mn mx s l E w)).
    eexists _, _. split; [reflexivity|].
    apply extends_after_try, products_is_read.
  - rewrite (resolve_ok _ _ _ _ _ _ (Query_user_orders_run uid E w)).
    match goal with |- context [Engine.order_list ?s ?p ?os] =>
      destruct (order_list_reads s p os E
                  (after_try "Error fetching user orders: "
                     (user_orders_request uid 50)
                     (try_outcome 200 construct_orders
                        (backend E (user_orders_request uid 50))) w))
        as (v & w' & Hv & Hext)
    end.
    exists v, w'. unfold bind at 1. rewrite Hv. split; [reflexivity|].
    eapply extends_trans; [|exact Hext].
    apply extends_after_try, user_orders_is_read.
  - rewrite (resolve_ok _ _ _ _ _ _ (Query_order_run id E w)).
    set (t := try_outcome 200 Order.construct (backend E (order_request id))).
    set (w1 := after_try "Error fetching order: " (order_request id) t w).
    assert (H1 : reads w w1) by apply extends_after_try, order_is_read.
    destruct (returned t) as [o|]; simpl.
    + destruct (order_object_reads sub [Key "order"] o E w1)
        as (v & w' & Hv & Hext).
      exists v, w'. unfold bind at 1. rewrite Hv. split; [reflexivity|].
      now apply (extends_trans _ _ _ w1).
    + exists JNull, w1. split; [reflexivity | exact H1].
Qed.

(** X13.  Whatever the backends answer, every request that the
    execution of a query sends is a read: a GET with no body and the
    five-second timeout, to the catalog or to the order service; never a
    write, never a request to the identity or the payment service. *)
Theorem X13_queries_send_reads_only (E : env) (q : list query_field) :
  Forall read_request (calls (Engine.final (Engine.execute_query E q))).
Proof.
  assert (H : forall w, exists fields w',
             Engine.mapM Engine.query_field_value q E w = (Ok fields, w')
             /\ reads w w').
  { induction q as [|f q IH]; intros w; simpl.
    - exists [], w. split; [reflexivity | apply extends_refl].
    - destruct (query_field_reads f E w) as (v & w1 & Hv & H1).
      destruct (IH w1) as (fs & w2 & Hfs & H2).
      exists ((root_key f, v) :: fs), w2. unfold bind at 1. rewrite Hv.
      unfold bind at 1. rewrite Hfs. split; [reflexivity|].
      now apply (extends_trans _ _ _ w1). }
  destruct (H init) as (fields & w' & Hrun & l & es & Hc & Hl & _).
  unfold Engine.execute_query, bind. rewrite Hrun. simpl.
  simpl in Hc. now rewrite Hc.
Qed.

Abbreviation looks_up := (extends catalog_lookup address_error).

Lemma item_object_looks_up (sub : list item_field) (path : list segment)
    (it : OrderItem.t) (E : env) (w : world) :
  exists y w',
    Engine.item_object sub path it E w = (Ok y, w') /\ looks_up w w'.
Proof.
  destruct (mapM_extends catalog_lookup address_error
              (Engine.item_field_value path it) E sub) with (w := w)
    as (ys & w' & Hys & Hext & _).
  - intros f w0. eexists _, _. rewrite item_field_value_run.
    split; [reflexivity|]. unfold item_field_world.
    destruct (asks_product f); [|apply extends_refl].
    apply extends_call. now eexists.
  - exists (JDict ys), w'. unfold Engine.item_object, bind at 1.
    now rewrite Hys.
Qed.

Lemma order_field_looks_up (path : list segment) (o : Order.t)
    (f : order_field) (E : env) (w : world) :
  exists y w',
    Engine.order_field_value path o f E w = (Ok y, w') /\ looks_up w w'.
Proof.
  destruct f;
    try (eexists _, w; split; [reflexivity | apply extends_refl]).
  - unfold Engine.order_field_value, Engine.resolve, Engine.record_error,
      Order.address.
    destruct (Order.shipping_address o);
      try (eexists _, _; split; [reflexivity|];
           exists [], [mkError (path ++ [Key "address"]) AttributeError];
           simpl; rewrite app_nil_r; repeat split;
           repeat constructor; now exists path).
    eexists _, w. split; [reflexivity | apply extends_refl].
  - destruct (mapM_from_extends catalog_lookup address_error
                (fun i => Engine.item_object sub
                            (path ++ [Key "items"; Index i])) E
                (Order.items o)) with (i := 0%nat) (w := w)
      as (ys & w' & Hys & Hext & _).
    + intros i it w0. apply item_object_looks_up.
    + exists ("items", JList ys), w'.
      unfold Engine.order_field_value, bind at 1. now rewrite Hys.
Qed.

Lemma order_object_looks_up (sub : list order_field) (path : list segment)
    (o : Order.t) (E : env) (w : world) :
  exists y w',
    Engine.order_object sub path o E w = (Ok y, w') /\ looks_up w w'.
Proof.
  destruct (mapM_extends catalog_lookup address_error
              (Engine.order_field_value path o) E sub) with (w := w)
    as (ys & w' & Hys & Hext & _).
  - intros f w0. apply order_field_looks_up.
  - exists (JDict ys), w'. unfold Engine.order_object, bind at 1.
    now rewrite Hys.
Qed.

(** X14.  A createOrder mutation sends its POST first and exactly once,
    whatever the order service answers.  Every request that follows is the
    lookup of a product in the catalog, and there is none when the
    selection asks for no product. *)
Theorem X14_mutation_execution (E : env) (w : world) (user_id : string)
    (items : list json) (shipping_address : json) (sub : list order_field) :
  exists v w' l,
    Engine.mutation_field_value
      (MCreateOrder user_id items shipping_address sub) E w
    = (Ok ("createOrder", v), w')
    /\ calls w'
       = calls w ++ create_order_request user_id items shipping_address :: l
    /\ Forall catalog_lookup l
    /\ (order_scalars_only sub = true -> l = []).
Proof.
  unfold Engine.mutation_field_value, bind at 1.
  rewrite (resolve_ok _ _ _ _ _ _
             (Mutation_create_order_run user_id items shipping_address E w)).
  set (req := create_order_request user_id items shipping_address).
  set (t := try_outcome 201 Order.construct (backend E req)).
  set (w1 := after_try "Error creating order: " req t w).
  assert (Hc1 : calls w1 = calls w ++ [req]) by apply after_try_calls.
  destruct (returned t) as [o|]; simpl.
  - destruct (order_object_looks_up sub [Key "createOrder"] o E w1)
      as (v & w' & Hv & l & es & Hc & Hl & _).
    exists v, w', l. unfold bind at 1. rewrite Hv.
    split; [reflexivity|]. rewrite Hc, Hc1, <- app_assoc.
    split; [reflexivity|]. split; [exact Hl|].
    intros Hsub.
    destruct (order_object_keeps_calls sub [Key "createOrder"] o E w1 Hsub)
      as (v' & w'' & Hv' & Hc').
    rewrite Hv in Hv'. injection Hv' as _ <-.
    rewrite Hc in Hc'. rewrite <- (app_nil_r (calls w1)) in Hc' at 2.
    now apply app_inv_head in Hc'.
  - exists JNull, w1, []. rewrite Hc1.
    split; [reflexivity|]. split; [reflexivity|]. split; [constructor|].
    reflexivity.
Qed.

(** * The gateway over the order service *)

Lemma rmap_map {A B C} (f : B -> result C) (g : A -> B) (h : A -> C)
    (l : list A) :
  (forall x, f (g x) = Ok (h x)) -> Py.rmap f (map g l) = Ok (map h l).
Proof.
  intros H. induction l as [|x l IH]; simpl; [reflexivity|].
  now rewrite H, IH.
Qed.

Lemma construct_item_json (it : OrderService.OrderItem) :
  OrderItem.construct (OrderWire.item_json it) = Ok (OrderWire.item_entity it).
Proof. reflexivity. Qed.

Lemma construct_order_json (o : OrderService.order) :
  Order.construct (OrderWire.order_json o) = Ok (OrderWire.order_entity o).
Proof.
  unfold Order.construct, OrderWire.order_json. simpl.
  rewrite (rmap_map _ _ _ _ construct_item_json). reflexivity.
Qed.

Lemma construct_user_orders_json (r : OrderEndpoints.UserOrdersResponse) :
  construct_orders (OrderWire.user_orders_json r)
  = Ok (map OrderWire.order_entity (OrderEndpoints.orders r)).
Proof.
  unfold construct_orders, OrderWire.user_orders_json. simpl.
  apply rmap_map, construct_order_json.
Qed.

(** X15.  The gateway reads from an order only fields that the order
    service's response models declare.  From the JSON of any
    [OrderResponse] it builds an entity holding the order's id, user,
    items (in order), total, statuses, address, payment method, tracking
    number, notes and times as sent; from the JSON of any
    [UserOrdersResponse] it builds these entities in the order of the
    list. *)
Theorem X15_order_payloads_are_read_in_full :
  (forall o,
     Order.construct (OrderWire.order_json o) = Ok (OrderWire.order_entity o))
  /\ (forall r,
        construct_orders (OrderWire.user_orders_json r)
        = Ok (map OrderWire.order_entity (OrderEndpoints.orders r)))
  /\ (forall o, order_shaped (OrderWire.order_json o) = true)
  /\ (forall r, orders_shaped (OrderWire.user_orders_json r) = true).
Proof.
  split; [exact construct_order_json|].
  split; [exact construct_user_orders_json|]. split.
  - intros o. pose proof (Order_construct_decided (OrderWire.order_json o)) as H.
    destruct (order_shaped (OrderWire.order_json o)); [reflexivity|].
    destruct H as (e & He). rewrite construct_order_json in He. discriminate.
  - intros r.
    pose proof (construct_orders_decided (OrderWire.user_orders_json r)) as H.
    destruct (orders_shaped (OrderWire.user_orders_json r)); [reflexivity|].
    destruct H as (e & He). rewrite construct_user_orders_json in He.
    discriminate.
Qed.






(** X18.  The gateway posts a body; the order service decodes it, runs
    its route and answers.  When the body posted is the JSON of the body
    the service decodes, and the answer is that of the route, createOrder
    returns the entity of the order exactly when the service answered 201:
    the order is then stored under the new id, for the user, with the
    items, the address and the payment method ["card"] of the request, in
    status and payment status ["pending"].  Otherwise it returns null; the
    store is then as it was, unless the order was stored and could not be
    written back, which the service answers 500. *)
Theorem X18_create_order_end_to_end (ops : float_ops)
    (order_id current_time : string) (body : OrderService.OrderCreate)
    (db : gmap string OrderService.order) (problem : json) (E : env)
    (w : world) (user_id : string) (items : list json)
    (shipping_address : json) :
  create_order_payload user_id items shipping_address = body_json body ->
  let served := OrderService.post_orders ops order_id current_time body db in
  backend E (create_order_request user_id items shipping_address)
  = OrderWire.post_reply problem served ->
  exists w',
    Mutation.create_order user_id items shipping_address E w
    = (Ok (OrderWire.order_entity <$> served.1.2), w')
    /\ (forall o, served.1.2 = Some o ->
          served.1.1 = 201
          /\ served.2 !! order_id = Some o
          /\ OrderService.user_id o = user_id
          /\ map OrderWire.item_json (OrderService.items o) = items
          /\ JDict (OrderService.shipping_address o) = shipping_address
          /\ OrderService.payment_method o = "card"
          /\ Order.status (OrderWire.order_entity o) = JStr "pending"
          /\ Order.payment_status (OrderWire.order_entity o) = JStr "pending")
    /\ (served.1.2 = None ->
        served.1.1 <> 201
        /\ (served.2 = db
            \/ served.1.1 = 500
               /\ exists o, served.2 = <[order_id := o]> db
                            /\ OrderService.order_renders o = false)).
Proof.
  intros Hbody served Hb. injection Hbody as Hu Hi Ha Hp.
  eexists. rewrite Mutation_create_order_run, Hb.
  subst served. unfold OrderService.post_orders.
  destruct (OrderService.OrderCreate_valid body); simpl.
  - unfold OrderService.create_order.
    destruct (OrderService.calculate_total ops (OrderService.oc_items body));
      simpl; [|repeat split; (discriminate || now left)].
    match goal with |- context [OrderService.order_renders ?o] =>
      set (new_order := o); destruct (OrderService.order_renders new_order)
                              eqn:Hr
    end; simpl.
    + unfold response_json. simpl. rewrite construct_order_json. simpl.
      split; [reflexivity|]. split; [|discriminate].
      intros o [= <-]. rewrite lookup_insert_eq. subst new_order. simpl.
      repeat split; congruence.
    + split; [reflexivity|]. split; [discriminate|].
      intros _. split; [discriminate|]. right. split; [reflexivity|].
      now exists new_order.
  - destruct (OrderService.report_renders body); simpl;
      (split; [reflexivity|]; split; [discriminate|];
       intros _; split; [discriminate | now left]).
Qed.

Lemma X18_witness :
  exists w',
    Mutation.create_order "u1" basket_items basket_address creates_9 init
    = (Ok (OrderWire.order_entity
             <$> (OrderService.post_orders Sample.ieee "ORD-9"
                    "2024-05-01T12:00:00" Sample.basket ∅).1.2), w').
Proof.
  destruct (X18_create_order_end_to_end Sample.ieee "ORD-9"
              "2024-05-01T12:00:00" Sample.basket ∅ Sample.problem creates_9
              init "u1" basket_items basket_address eq_refl eq_refl)
    as (w' & H & _).
  now exists w'.
Defined.

(** * Further properties of the catalog service *)

Lemma slice_window {A} (start size : Z) (l : list A) :
  0 <= start -> 0 <= size ->
  Slice.slice start (start + size) l
  = take (Z.to_nat size) (drop (Z.to_nat start) l).
Proof.
  intros Hs Hn. unfold Slice.slice, Slice.bound.
  destruct (Z.ltb_spec start 0); [lia|].
  destruct (Z.ltb_spec (start + size) 0); [lia|].
  rewrite Z2Nat.inj_add by lia.
  set (s := Z.to_nat start). set (n := Z.to_nat size).
  destruct (Nat.le_gt_cases s (length l)) as [Hle | Hgt].
  - rewrite (Nat.min_r _ s) by lia.
    destruct (Nat.le_gt_cases n (length l - s)) as [Hn' | Hn'].
    + rewrite (Nat.min_r _ (s + n)) by lia. f_equal. lia.
    + rewrite (Nat.min_l _ (s + n)) by lia.
      rewrite !take_ge; [reflexivity | | ]; rewrite length_drop; lia.
  - rewrite !Nat.min_l by lia. rewrite Nat.sub_diag. simpl.
    rewrite (drop_ge l s) by lia. now rewrite take_nil.
Qed.

Lemma concat_windows {A} (n k : nat) (l : list A) :
  concat (map (fun i => take n (drop (i * n) l)) (seq 0 k)) = take (k * n) l.
Proof.
  induction k as [|k IH]; [reflexivity|].
  rewrite seq_S, map_app, concat_app, IH. simpl. rewrite app_nil_r.
  rewrite take_take_drop. f_equal. lia.
Qed.

Lemma page_items (l : list Catalog.item) (page page_size : Z) :
  1 <= page -> 1 <= page_size ->
  Catalog.items (Catalog.paginate l page page_size)
  = take (Z.to_nat page_size)
         (drop (Z.to_nat (page - 1) * Z.to_nat page_size) l).
Proof.
  intros Hp Hs. unfold Catalog.paginate. simpl.
  rewrite slice_window by nia. f_equal. f_equal. nia.
Qed.

(** X19.  The pages of [get_items] cut the filtered list into consecutive
    windows of [page_size] items: [total] is the length of the list
    whatever the page, [total_pages] is the least number of pages that
    holds them all, a page holds [page_size] items or what is left of
    them, a page past the last is empty, and the pages from the first to
    the last, put end to end, are the list. *)
Theorem X19_pages_partition_the_list (l : list Catalog.item)
    (page_size : Z) :
  1 <= page_size ->
  let total := Z.of_nat (length l) in
  let pages := (total + page_size - 1) / page_size in
  (pages - 1) * page_size < total <= pages * page_size
  /\ (forall page,
        1 <= page ->
        let r := Catalog.paginate l page page_size in
        Catalog.total r = total
        /\ Catalog.total_pages r = pages
        /\ Z.of_nat (length (Catalog.items r))
           = Z.max 0 (Z.min page_size (total - (page - 1) * page_size))
        /\ Catalog.items r `sublist_of` l
        /\ (pages < page -> Catalog.items r = []))
  /\ concat (map (fun p => Catalog.items
                             (Catalog.paginate l (Z.of_nat p) page_size))
                 (seq 1 (Z.to_nat pages)))
     = l.
Proof.
  intros Hs total pages.
  assert (Hlo : page_size * pages <= total + page_size - 1)
    by (apply Z.mul_div_le; lia).
  assert (Hhi : total + page_size - 1 < page_size * Z.succ pages)
    by (apply Z.mul_succ_div_gt; lia).
  assert (Htotal : 0 <= total) by (unfold total; lia).
  assert (Hpages : 0 <= pages) by (apply Z.div_pos; lia).
  split; [nia|]. split.
  - intros page Hp r. subst r. split; [reflexivity|]. split; [reflexivity|].
    rewrite page_items by lia.
    split; [|split].
    + rewrite length_take, length_drop. unfold total. nia.
    + etransitivity; [apply sublist_take | apply sublist_drop].
    + intros Hlast. rewrite drop_ge; [apply take_nil|].
      unfold total in *. nia.
  - rewrite <- seq_shift, map_map.
    rewrite (map_ext _ (fun i => take (Z.to_nat page_size)
                                   (drop (i * Z.to_nat page_size) l))).
    + rewrite concat_windows. apply take_ge. unfold total in *. nia.
    + intros i. rewrite page_items by lia. f_equal. f_equal. lia.
Qed.

Lemma X19_witness :
  concat (map (fun p => Catalog.items
                          (Catalog.paginate [mouse; novel] (Z.of_nat p) 1))
              (seq 1 (Z.to_nat
                        ((Z.of_nat (length [mouse; novel]) + 1 - 1) / 1))))
  = [mouse; novel].
Proof.
  exact (proj2 (proj2 (X19_pages_partition_the_list [mouse; novel] 1
                         ltac:(lia)))).
Defined.

Lemma given_filter_elem {A B} (P : B -> A -> bool) (o : option B)
    (l : list A) (x : A) :
  x ∈ match o with
      | Some b => filter (fun x => P b x = true) l
      | None => l
      end
  <-> x ∈ l /\ forall b, o = Some b -> P b x = true.
Proof.
  destruct o as [b|].
  - rewrite list_elem_of_filter. split.
    + intros [HP Hin]. split; [exact Hin|]. now intros b' [= <-].
    + intros [Hin HP]. split; [now apply HP | exact Hin].
  - split; [intros H; split; [exact H | discriminate] | now intros [H _]].
Qed.

Lemma truthy_Some (s : option string) (q : string) :
  OrderEndpoints.truthy s = Some q <-> s = Some q /\ q <> "".
Proof.
  destruct s as [[|c r]|]; simpl; split; try discriminate;
    try (intros [[=] _]; fail); try (intros [[= <-] H]; now destruct H).
  - intros [= <-]. split; [reflexivity | discriminate].
  - now intros [[= <-] _].
Qed.

Lemma filtered_items_elem (vals : dict_values Catalog.item) (tops : text_ops)
    (db : gmap string Catalog.item) category min_price max_price search
    (it : Catalog.item) :
  it ∈ Catalog.filtered_items vals tops db category min_price max_price search
  <-> (exists k, db !! k = Some it)
      /\ passes tops category min_price max_price search it.
Proof.
  unfold Catalog.filtered_items, passes.
  rewrite (given_filter_elem
             (fun q it => Catalog.matches tops (py_lower tops q) it)
             (OrderEndpoints.truthy search)).
  rewrite (given_filter_elem (fun m it => PrimFloat.leb (Catalog.price it) m)
             max_price).
  rewrite (given_filter_elem (fun m it => PrimFloat.leb m (Catalog.price it))
             min_price).
  rewrite (given_filter_elem
             (fun c it => String.eqb (Catalog.category it) (Category.value c))
             category).
  rewrite values_of_stored. split.
  - intros ((((Hk & Hc) & Hmin) & Hmax) & Hs). split; [exact Hk|].
    repeat split; try assumption.
    + intros c Hcat. now apply String.eqb_eq, Hc.
    + intros q Hq Hne. apply Hs. now apply truthy_Some.
  - intros (Hk & Hc & Hmin & Hmax & Hs). repeat split; try assumption.
    + intros c Hcat. now apply String.eqb_eq, Hc.
    + intros q Hq. apply truthy_Some in Hq as [Hq Hne]. now apply Hs.
Qed.

Lemma filtered_items_perm (vals vals' : dict_values Catalog.item)
    (tops : text_ops) (db : gmap string Catalog.item)
    category min_price max_price search :
  Catalog.filtered_items vals tops db category min_price max_price search
  ≡ₚ Catalog.filtered_items vals' tops db category min_price max_price search.
Proof.
  unfold Catalog.filtered_items.
  assert (Hp : values_of vals db ≡ₚ values_of vals' db)
    by now rewrite !values_of_perm.
  destruct category, min_price, max_price, (OrderEndpoints.truthy search);
    now rewrite Hp.
Qed.

(** X20.  The list [get_items] pages through holds exactly the stored
    items that pass every filter given: the category, the lower and the
    upper bound on the price, and the search text (lowered, looked for in
    the lowered name or in a description that is there and not empty; an
    empty search text filters nothing).  Its length, the [total] of the
    answer, does not depend on the order in which the store is
    enumerated. *)
Theorem X20_filters_are_exact (vals : dict_values Catalog.item)
    (tops : text_ops) (db : gmap string Catalog.item)
    (category : option Category.t) (min_price max_price : option float)
    (search : option string) :
  (forall it,
     it ∈ Catalog.filtered_items vals tops db category min_price max_price
            search
     <-> (exists k, db !! k = Some it)
         /\ passes tops category min_price max_price search it)
  /\ Catalog.filtered_items vals tops db category min_price max_price (Some "")
     = Catalog.filtered_items vals tops db category min_price max_price None
  /\ (forall vals' page page_size,
        Catalog.total
          (Catalog.paginate
             (Catalog.filtered_items vals' tops db category min_price
                max_price search) page page_size)
        = Catalog.total
            (Catalog.paginate
               (Catalog.filtered_items vals tops db category min_price
                  max_price search) page page_size)).
Proof.
  split; [intros it; apply filtered_items_elem|]. split; [reflexivity|].
  intros vals' page page_size. unfold Catalog.paginate. simpl. f_equal.
  apply Permutation_length, filtered_items_perm.
Qed.

Lemma Category_of_string_value (c : Category.t) :
  Category.of_string (Category.value c) = Some c.
Proof. now destruct c. Qed.

Lemma Category_of_string_Some (s : string) (c : Category.t) :
  Category.of_string s = Some c -> s = Category.value c.
Proof.
  unfold Category.of_string. intros H. apply find_some in H as [_ H].
  symmetry. now apply String.eqb_eq.
Qed.




(** * The gateway over the catalog service *)









(** * The stubbed user and its orders *)

(** X25.  The orders of a user reached through [user(id)] are asked of the
    order service for that very id, with the limit 100: resolving [orders]
    on the user that [user(id)] returns, with a selection of scalars,
    sends this one request and no other. *)
Theorem X25_user_orders_follow_the_id (E : env) (w w1 : world) (id : string)
    (u : User.t) (path : list segment) (sub : list order_field) :
  Query.user id E w = (Ok (Some u), w1) ->
  order_scalars_only sub = true ->
  exists v w',
    Engine.user_field_value path u (UOrders sub) E w1 = (Ok ("orders", v), w')
    /\ calls w' = calls w ++ [user_orders_request id 100].
Proof.
  rewrite Query_user_run. intros [= <- <-] Hsub.
  unfold Engine.user_field_value, bind at 1.
  rewrite (resolve_ok _ _ _ _ _ _
             (User_orders_run (stub_user E w id) E (after_user w))).
  cbv beta iota. unfold bind at 1.
  match goal with |- context [Engine.order_list sub ?p ?os E ?w1] =>
    destruct (order_list_keeps_calls sub p os E w1 Hsub)
      as (v & w' & Hv & Hc)
  end.
  rewrite Hv. eexists _, _. split; [reflexivity|].
  rewrite Hc, after_try_calls. reflexivity.
Qed.

Lemma X25_witness :
  exists v w',
    Engine.user_field_value [Key "user"] (stub_user Sample.shop init "u1")
      (UOrders [OId; OStatus]) Sample.shop (after_user init)
    = (Ok ("orders", v), w')
    /\ calls w' = calls init ++ [user_orders_request "u1" 100].
Proof.
  exact (X25_user_orders_follow_the_id Sample.shop init (after_user init) "u1"
           (stub_user Sample.shop init "u1") [Key "user"] [OId; OStatus]
           eq_refl eq_refl).
Defined.

(** * The other endpoints of the catalog *)

Section CatalogEndpointsFacts.

Import CatalogEndpoints.

Lemma window_elem {A} (x : A) (n k : nat) (l : list A) :
  x ∈ take n (drop k l) -> x ∈ l.
Proof.
  intros Hin.
  apply (elem_of_sublist _ _ _ Hin).
  transitivity (drop k l); [apply sublist_take | apply sublist_drop].
Qed.

Lemma search_loop_take (tops : text_ops) (query_lower : string) (limit : Z)
    (values results : list Catalog.item) :
  Z.of_nat (length results) < limit ->
  search_loop tops query_lower limit values results
  = take (Z.to_nat limit)
         (results
          ++ filter (fun it => Catalog.matches tops query_lower it = true)
                    values).
Proof.
  revert results. induction values as [|it rest IH]; intros results Hlt.
  - simpl. rewrite filter_nil, app_nil_r, take_ge; [reflexivity | lia].
  - simpl. destruct (Catalog.matches tops query_lower it) eqn:Hm.
    + rewrite filter_cons_True by exact Hm.
      replace (results ++ it :: filter
                 (fun it => Catalog.matches tops query_lower it = true) rest)
        with ((results ++ [it]) ++ filter
                 (fun it => Catalog.matches tops query_lower it = true) rest)
        by now rewrite <- app_assoc.
      destruct (Z.leb_spec limit (Z.of_nat (length (results ++ [it]))))
        as [Hle | Hgt].
      * rewrite length_app in Hle. simpl in Hle.
        rewrite take_app_length'; [reflexivity|].
        rewrite length_app. simpl. lia.
      * now apply IH.
    + rewrite filter_cons_False by (rewrite Hm; discriminate).
      now apply IH.
Qed.



(** X28.  [delete_item] on an id that is not stored answers 404 and leaves
    the store alone.  On a stored item it names the item in its message
    and removes that item and no other: afterwards [get_item],
    [update_item] and a second [delete_item] on the id answer 404, there
    is one item less, and whatever [get_items] or [search_items] still
    lists is stored under another id. *)
Theorem X28_delete_item_removes_one_item (current_time : string)
    (db : gmap string Catalog.item) (item_id : string)
    (item_update : ItemUpdate) :
  match db !! item_id with
  | None =>
      delete_item db item_id = (Refused 404 "Item not found", db)
  | Some it =>
      exists db',
        delete_item db item_id
        = (Answer 200
             ("Item '" +:+ Catalog.name it +:+ "' deleted successfully"),
           db')
        /\ Catalog.get_item db' item_id = Refused 404 "Item not found"
        /\ update_item current_time db' item_id item_update
           = (Refused 404 "Item not found", db')
        /\ delete_item db' item_id = (Refused 404 "Item not found", db')
        /\ item_count db' = item_count db - 1
        /\ (forall other, other <> item_id ->
              Catalog.get_item db' other = Catalog.get_item db other)
        /\ (forall vals tops category min_price max_price search page
                   page_size p listed,
              Catalog.get_items vals tops db' category min_price max_price
                search page page_size = Answer 200 p ->
              listed ∈ Catalog.items p ->
              exists k, k <> item_id /\ db !! k = Some listed)
        /\ (forall vals tops q limit r listed,
              search_items vals tops db' q limit = Answer 200 r ->
              listed ∈ sr_results r ->
              exists k, k <> item_id /\ db !! k = Some listed)
  end.
Proof.
  destruct (db !! item_id) as [it|] eqn:Hit.
  - exists (delete item_id db).
    assert (Hleft : forall listed,
              (exists k, delete item_id db !! k = Some listed) ->
              exists k, k <> item_id /\ db !! k = Some listed).
    { intros listed [k Hk]. exists k.
      destruct (decide (k = item_id)) as [->|Hne].
      - now rewrite lookup_delete_eq in Hk.
      - rewrite lookup_delete_ne in Hk by congruence. now split. }
    unfold delete_item, update_item, Catalog.get_item.
    rewrite Hit, lookup_delete_eq.
    split; [reflexivity|]. split; [reflexivity|]. split; [reflexivity|].
    split; [reflexivity|]. split; [|split; [|split]].
    + pose proof (map_size_delete_Some item_id db (mk_is_Some _ _ Hit)).
      assert (size db <> 0%nat).
      { intros Hz. apply map_size_empty_inv in Hz. subst.
        rewrite lookup_empty in Hit. discriminate. }
      unfold item_count. lia.
    + intros other Hne. now rewrite lookup_delete_ne.
    + intros vals tops category min_price max_price search page page_size p
             listed Hget Hin.
      apply Hleft. unfold Catalog.get_items in Hget.
      destruct (match category with
                | Some s => match Category.of_string s with
                            | Some c => Some (Some c)
                            | None => None
                            end
                | None => Some None
                end) as [c|]; [|discriminate].
      destruct (Catalog.price_ok min_price && Catalog.price_ok max_price
                && (1 <=? page) && (1 <=? page_size) && (page_size <=? 100))
        eqn:Hok; [|discriminate].
      injection Hget as <-.
      apply andb_prop in Hok as [Hok _]. apply andb_prop in Hok as [Hok Hs].
      apply andb_prop in Hok as [_ Hp]. apply Z.leb_le in Hs, Hp.
      rewrite page_items in Hin by lia.
      apply window_elem in Hin.
      now apply filtered_items_elem in Hin as [Hk _].
    + intros vals tops q limit r listed Hs Hin. apply Hleft.
      pose proof (X := search_loop_take tops (py_lower tops q) limit
                         (values_of vals (delete item_id db)) []).
      unfold search_items in Hs.
      destruct (negb (String.eqb q "") && (1 <=? limit) && (limit <=? 50))
        eqn:Hok; [|discriminate].
      injection Hs as <-. simpl in Hin.
      apply andb_prop in Hok as [Hok _]. apply andb_prop in Hok as [_ Hmin].
      apply Z.leb_le in Hmin.
      rewrite X in Hin by (simpl; lia). simpl in Hin.
      apply (window_elem _ _ 0) in Hin.
      apply list_elem_of_filter in Hin as [_ Hin].
      exact (proj1 (values_of_stored _ _ _) Hin).
  - unfold delete_item. now rewrite Hit.
Qed.

(** X29.  The catalog keeps its invariant: if every stored item is filed
    under its own id with a name of 1 to 100 characters, a description of
    at most 500, a positive price, a stock that is not negative and a
    category that is a value of [Category], then the same holds after a
    creation from a body that passes the declarations of [ItemCreate],
    after an update by a body that passes those of [ItemUpdate], and
    after a deletion, whatever the answer; and every item that [get_item]
    serves satisfies it. *)
Theorem X29_catalog_invariant (db : gmap string Catalog.item) :
  catalog_ok db ->
  (forall item_id current_time it,
     ItemCreate_valid it = true ->
     catalog_ok (Catalog.create_item item_id current_time it db).2)
  /\ (forall current_time item_id item_update,
        ItemUpdate_valid item_update = true ->
        catalog_ok (update_item current_time db item_id item_update).2)
  /\ (forall item_id, catalog_ok (delete_item db item_id).2)
  /\ (forall item_id it,
        Catalog.get_item db item_id = Answer 200 it -> item_ok item_id it).
Proof.
  intros Hok. split; [|split; [|split]].
  - intros iid now it Hv. unfold ItemCreate_valid in Hv.
    apply andb_prop in Hv as [Hv Hstock]. apply andb_prop in Hv as [Hv Hprice].
    apply andb_prop in Hv as [Hv Hdesc]. apply andb_prop in Hv as [Hn1 Hn2].
    apply Nat.leb_le in Hn1, Hn2. apply Z.leb_le in Hstock.
    intros key it'. unfold Catalog.create_item. simpl.
    destruct (decide (iid = key)) as [<-|Hne].
    + rewrite lookup_insert_eq. intros [= <-]. unfold item_ok. simpl.
      repeat split; try assumption; try lia.
      * intros d Hd. rewrite Hd in Hdesc. now apply Nat.leb_le.
      * rewrite Category_of_string_value. now eexists.
    + rewrite lookup_insert_ne by exact Hne. apply Hok.
  - intros now iid upd Hv. unfold update_item.
    destruct (db !! iid) as [it|] eqn:Hit; [|exact Hok]. simpl.
    unfold ItemUpdate_valid in Hv.
    apply andb_prop in Hv as [Hv Hstock]. apply andb_prop in Hv as [Hv Hprice].
    apply andb_prop in Hv as [Hname Hdesc].
    intros key it'. destruct (decide (iid = key)) as [<-|Hne].
    + rewrite lookup_insert_eq. intros [= <-].
      destruct (Hok iid it Hit) as (Hid & Hn & Hd & Hp & Hs & Hc).
      unfold item_ok, apply_update, assign. simpl.
      split; [exact Hid|]. split; [|split; [|split; [|split]]].
      * destruct (iu_name upd) as [n|]; [|exact Hn].
        apply andb_prop in Hname as [H1 H2].
        apply Nat.leb_le in H1, H2. lia.
      * intros d. destruct (iu_description upd) as [d'|].
        -- intros [= <-]. now apply Nat.leb_le.
        -- apply Hd.
      * destruct (iu_price upd); [exact Hprice | exact Hp].
      * destruct (iu_stock upd); [now apply Z.leb_le | exact Hs].
      * destruct (iu_category upd) as [c|]; [|exact Hc]. simpl.
        rewrite Category_of_string_value. now eexists.
    + rewrite lookup_insert_ne by exact Hne. apply Hok.
  - intros iid. unfold delete_item.
    destruct (db !! iid) as [it|] eqn:Hit; [|exact Hok]. simpl.
    intros key it'. destruct (decide (iid = key)) as [<-|Hne].
    + now rewrite lookup_delete_eq.
    + rewrite lookup_delete_ne by exact Hne. apply Hok.
  - intros iid it. unfold Catalog.get_item.
    destruct (db !! iid) as [it'|] eqn:Hit; [|discriminate].
    intros [= <-]. now apply Hok.
Qed.

Lemma X29_witness :
  catalog_ok ∅
  /\ catalog_ok (Catalog.create_item "i1" "2024-05-01T12:00:00" new_mouse ∅).2
  /\ catalog_ok
       (update_item "2024-05-02T08:00:00" ∅ "i1" dearer).2.
Proof.
  assert (H : catalog_ok ∅) by (intros k it; now rewrite lookup_empty).
  split; [exact H|].
  destruct (X29_catalog_invariant ∅ H) as (Hc & Hu & _).
  split; [now apply Hc | now apply Hu].
Defined.

(** X30.  The categories that [get_categories] lists are the ones the
    catalog works with: a string is accepted as the category of
    [get_items] exactly when it is the id of a listed category, any other
    being answered 422; the ids are distinct and equal to the values; and
    the category stored by [create_item], or set by [update_item], is
    always a listed one. *)
Theorem X30_categories_listed_are_the_ones_accepted :
  (forall s, s ∈ map ce_id get_categories
             <-> is_Some (Category.of_string s))
  /\ NoDup (map ce_id get_categories)
  /\ Forall (fun e => ce_value e = ce_id e) get_categories
  /\ (forall vals tops db s min_price max_price search page page_size,
        s ∉ map ce_id get_categories ->
        Catalog.get_items vals tops db (Some s) min_price max_price search
          page page_size
        = Refused 422 "query")
  /\ (forall item_id current_time it db,
        Catalog.category (Catalog.create_item item_id current_time it db).1
        ∈ map ce_id get_categories)
  /\ (forall current_time db item_id item_update c it',
        iu_category item_update = Some c ->
        update_item current_time db item_id item_update
        = (Answer 200 it', <[item_id := it']> db) ->
        Catalog.category it' ∈ map ce_id get_categories).
Proof.
  assert (Hvalue : forall c, Category.value c ∈ map ce_id get_categories).
  { intros c. destruct c; simpl; in_list. }
  assert (Hiff : forall s, s ∈ map ce_id get_categories
                           <-> is_Some (Category.of_string s)).
  { intros s. split.
    - change (map ce_id get_categories)
        with (Category.value <$> Category.all).
      intros Hin. apply list_elem_of_fmap in Hin as (c & -> & _).
      rewrite Category_of_string_value. now eexists.
    - intros [c Hc]. apply Category_of_string_Some in Hc as ->.
      apply Hvalue. }
  split; [exact Hiff|]. split; [|split; [|split; [|split]]].
  - unfold get_categories. simpl.
    apply (bool_decide_unpack _). vm_compute. exact I.
  - unfold get_categories. apply Forall_fmap, Forall_forall.
    intros c _. reflexivity.
  - intros vals tops db s min_price max_price search page page_size Hnot.
    unfold Catalog.get_items.
    destruct (Category.of_string s) as [c|] eqn:Hc; [|reflexivity].
    exfalso. apply Hnot, Hiff. exact (mk_is_Some _ _ Hc).
  - intros. simpl. apply Hvalue.
  - intros now db iid upd c it' Hc. unfold update_item.
    destruct (db !! iid) as [it|]; [|discriminate].
    intros [= <- _]. unfold apply_update. simpl. rewrite Hc. simpl.
    apply Hvalue.
Qed.

End CatalogEndpointsFacts.
